(** * CalTrack: credential and session security layer

    A shallow embedding of [src/utils/crypto.js], the auth helpers of
    [src/utils/db.js] and the operations of [src/contexts/AuthContext.jsx],
    with the properties of the lockout policy, the session operations and the
    secret cipher stated over it.

    Conventions.
    - A JavaScript string is the list of its UTF-16 code units, a
      [Uint8Array] the list of its bytes; both are lists of [Z].
    - Numbers are integers ([Z]): every number the code handles is a
      millisecond timestamp or a small counter.
    - An [async] function is a computation in the monad [M]: it reads and
      writes the [World] and either returns or throws. *)

From Stdlib Require Import ZArith List Bool Lia String Ascii.
From Stdlib Require Import DecimalString.
Import ListNotations.
Open Scope Z_scope.

Set Implicit Arguments.

(* ===================================================================== *)
(** * Strings and byte arrays                                            *)
(* ===================================================================== *)

Definition JSString := list Z.
Definition Uint8Array := list Z.

Definition is_byte (b : Z) : Prop := 0 <= b < 256.

(** A string literal of the source: the code units of its (ASCII) text. *)
Definition js (s : string) : JSString :=
  map (fun a => Z.of_N (N_of_ascii a)) (list_ascii_of_string s).

Definition inRange (lo x hi : Z) : bool := (lo <=? x) && (x <=? hi).

Fixpoint list_eqb (a b : list Z) : bool :=
  match a, b with
  | [], [] => true
  | x :: a', y :: b' => (x =? y) && list_eqb a' b'
  | _, _ => false
  end.

(* ===================================================================== *)
(** * The platform's text codecs (Encoding Standard)                     *)
(* ===================================================================== *)

Module Encoding.

Definition isHighSurrogate (c : Z) : bool := (0xD800 <=? c) && (c <=? 0xDBFF).
Definition isLowSurrogate (c : Z) : bool := (0xDC00 <=? c) && (c <=? 0xDFFF).
Definition isSurrogate (c : Z) : bool := (0xD800 <=? c) && (c <=? 0xDFFF).

Definition REPLACEMENT : Z := 0xFFFD.
Definition BOM : Z := 0xFEFF.

(** Conversion of a JavaScript string to scalar values: a surrogate pair
    is one code point, an unpaired surrogate becomes U+FFFD. *)
Fixpoint toScalars (s : JSString) : list Z :=
  match s with
  | [] => []
  | c :: rest =>
      if isHighSurrogate c then
        match rest with
        | d :: rest' =>
            if isLowSurrogate d
            then (0x10000 + Z.shiftl (c - 0xD800) 10 + (d - 0xDC00))
                   :: toScalars rest'
            else REPLACEMENT :: toScalars rest
        | [] => [REPLACEMENT]
        end
      else if isLowSurrogate c then REPLACEMENT :: toScalars rest
      else c :: toScalars rest
  end.

(** Code points back to UTF-16 code units. *)
Definition fromScalar (cp : Z) : JSString :=
  if cp <? 0x10000 then [cp]
  else [0xD800 + Z.shiftr (cp - 0x10000) 10;
        0xDC00 + Z.land (cp - 0x10000) 0x3FF].

Definition fromScalars (l : list Z) : JSString := flat_map fromScalar l.

(** The UTF-8 encoder, one scalar value at a time. *)
Definition utf8_encode1 (cp : Z) : Uint8Array :=
  if cp <? 0x80 then [cp]
  else if cp <? 0x800 then
    [Z.shiftr cp 6 + 0xC0; Z.lor 0x80 (Z.land cp 0x3F)]
  else if cp <? 0x10000 then
    [Z.shiftr cp 12 + 0xE0;
     Z.lor 0x80 (Z.land (Z.shiftr cp 6) 0x3F);
     Z.lor 0x80 (Z.land cp 0x3F)]
  else
    [Z.shiftr cp 18 + 0xF0;
     Z.lor 0x80 (Z.land (Z.shiftr cp 12) 0x3F);
     Z.lor 0x80 (Z.land (Z.shiftr cp 6) 0x3F);
     Z.lor 0x80 (Z.land cp 0x3F)].

Definition utf8_encode (l : list Z) : Uint8Array := flat_map utf8_encode1 l.

(** The UTF-8 decoder's state. *)
Record Decoder := mkDecoder {
  code_point : Z;
  bytes_seen : Z;
  bytes_needed : Z;
  lower_boundary : Z;
  upper_boundary : Z
}.

Definition decoder0 : Decoder := mkDecoder 0 0 0 0x80 0xBF.

(** The handler when no continuation byte is awaited. *)
Definition lead (b : Z) : Decoder * list Z :=
  if inRange 0x00 b 0x7F then (decoder0, [b])
  else if inRange 0xC2 b 0xDF then
    (mkDecoder (Z.land b 0x1F) 0 1 0x80 0xBF, [])
  else if inRange 0xE0 b 0xEF then
    (mkDecoder (Z.land b 0xF) 0 2
       (if b =? 0xE0 then 0xA0 else 0x80)
       (if b =? 0xED then 0x9F else 0xBF), [])
  else if inRange 0xF0 b 0xF4 then
    (mkDecoder (Z.land b 0x7) 0 3
       (if b =? 0xF0 then 0x90 else 0x80)
       (if b =? 0xF4 then 0x8F else 0xBF), [])
  else (decoder0, [REPLACEMENT]).

(** The handler for one byte. A byte outside the awaited range ends the
    sequence with U+FFFD and is processed again as a lead byte. *)
Definition handler (d : Decoder) (b : Z) : Decoder * list Z :=
  if bytes_needed d =? 0 then lead b
  else if negb (inRange (lower_boundary d) b (upper_boundary d)) then
    let (d', out) := lead b in (d', REPLACEMENT :: out)
  else
    let cp := Z.lor (Z.shiftl (code_point d) 6) (Z.land b 0x3F) in
    let seen := bytes_seen d + 1 in
    if seen =? bytes_needed d then (decoder0, [cp])
    else (mkDecoder cp seen (bytes_needed d) 0x80 0xBF, []).

Fixpoint utf8_run (d : Decoder) (bs : Uint8Array) : list Z :=
  match bs with
  | [] => if bytes_needed d =? 0 then [] else [REPLACEMENT]
  | b :: bs' => let (d', out) := handler d b in out ++ utf8_run d' bs'
  end.

Definition utf8_decode (bs : Uint8Array) : list Z := utf8_run decoder0 bs.

(** [new TextDecoder()] has [ignoreBOM] false: a leading U+FEFF is
    dropped from the output. *)
Definition stripBOM (l : list Z) : list Z :=
  match l with
  | c :: l' => if c =? BOM then l' else l
  | [] => []
  end.

(** [new TextEncoder().encode(s)] *)
Definition TextEncoder_encode (s : JSString) : Uint8Array :=
  utf8_encode (toScalars s).

(** [new TextDecoder().decode(buffer)] *)
Definition TextDecoder_decode (bs : Uint8Array) : JSString :=
  fromScalars (stripBOM (utf8_decode bs)).

Definition isScalar (cp : Z) : bool :=
  (0 <=? cp) && (cp <? 0x110000) && negb (isSurrogate cp).

(** A string of 16-bit code units in which every surrogate is half of a
    pair. *)
Fixpoint wellFormed (s : JSString) : bool :=
  match s with
  | [] => true
  | c :: rest =>
      if isHighSurrogate c then
        match rest with
        | d :: rest' => isLowSurrogate d && wellFormed rest'
        | [] => false
        end
      else negb (isLowSurrogate c) && inRange 0 c 0xFFFF && wellFormed rest
  end.

Definition startsWithBOM (s : JSString) : bool :=
  match s with
  | c :: _ => c =? BOM
  | [] => false
  end.

End Encoding.

(* ===================================================================== *)
(** * Exceptions                                                         *)
(* ===================================================================== *)

(** The exceptions the modelled code can meet. *)
Inductive Exn : Type :=
| InvalidCharacterError   (* atob / btoa on malformed input *)
| OperationError          (* crypto.subtle.decrypt: the tag does not verify *)
| TypeError               (* property access on undefined *)
| NotAllowedError.        (* navigator.credentials refused *)

Inductive Res (A : Type) : Type :=
| Ok (a : A)
| Throw (e : Exn).
Arguments Ok {A} a.
Arguments Throw {A} e.

(* ===================================================================== *)
(** * The platform's base64 functions (HTML Standard, RFC 4648)          *)
(* ===================================================================== *)

Module Base64.

(** The base64 alphabet: A-Z, a-z, 0-9, +, /. *)
Definition alphabet_char (n : Z) : Z :=
  if n <? 26 then 65 + n
  else if n <? 52 then 97 + (n - 26)
  else if n <? 62 then 48 + (n - 52)
  else if n =? 62 then 43
  else 47.

Definition alphabet_index (c : Z) : option Z :=
  if inRange 65 c 90 then Some (c - 65)
  else if inRange 97 c 122 then Some (c - 97 + 26)
  else if inRange 48 c 57 then Some (c - 48 + 52)
  else if c =? 43 then Some 62
  else if c =? 47 then Some 63
  else None.

Definition PAD : Z := 61.

Fixpoint encode (bs : list Z) : JSString :=
  match bs with
  | [] => []
  | [a] =>
      [alphabet_char (a / 4); alphabet_char ((a mod 4) * 16); PAD; PAD]
  | [a; b] =>
      [alphabet_char (a / 4); alphabet_char ((a mod 4) * 16 + b / 16);
       alphabet_char ((b mod 16) * 4); PAD]
  | a :: b :: c :: rest =>
      alphabet_char (a / 4)
      :: alphabet_char ((a mod 4) * 16 + b / 16)
      :: alphabet_char ((b mod 16) * 4 + c / 64)
      :: alphabet_char (c mod 64)
      :: encode rest
  end.

(** [btoa(data)]: throws when a code unit is above U+00FF. *)
Definition btoa (data : JSString) : Res JSString :=
  if forallb (fun c => inRange 0 c 255) data then Ok (encode data)
  else Throw InvalidCharacterError.

Definition isAsciiWhitespace (c : Z) : bool :=
  (c =? 9) || (c =? 10) || (c =? 12) || (c =? 13) || (c =? 32).

(** One or two trailing [=] are removed. *)
Definition stripPadding (s : JSString) : JSString :=
  match rev s with
  | c1 :: r1 =>
      if c1 =? PAD then
        match r1 with
        | c2 :: r2 => if c2 =? PAD then rev r2 else rev r1
        | [] => rev r1
        end
      else s
  | [] => s
  end.

Fixpoint sextets (s : JSString) : option (list Z) :=
  match s with
  | [] => Some []
  | c :: s' =>
      match alphabet_index c, sextets s' with
      | Some n, Some l => Some (n :: l)
      | _, _ => None
      end
  end.

Fixpoint decode (l : list Z) : list Z :=
  match l with
  | a :: b :: c :: d :: rest =>
      (a * 4 + b / 16) :: ((b mod 16) * 16 + c / 4) :: ((c mod 4) * 64 + d)
      :: decode rest
  | [a; b; c] => [a * 4 + b / 16; (b mod 16) * 16 + c / 4]
  | [a; b] => [a * 4 + b / 16]
  | _ => []
  end.

Definition sextet (n : Z) : Prop := 0 <= n < 64.

(** The 6-bit groups of a byte sequence and the padding that completes
    its encoding: [encode bs] is the groups' characters, then the padding. *)
Fixpoint groups (bs : list Z) : list Z :=
  match bs with
  | [] => []
  | [a] => [a / 4; (a mod 4) * 16]
  | [a; b] => [a / 4; (a mod 4) * 16 + b / 16; (b mod 16) * 4]
  | a :: b :: c :: rest =>
      a / 4 :: (a mod 4) * 16 + b / 16 :: (b mod 16) * 4 + c / 64
      :: c mod 64 :: groups rest
  end.

Fixpoint padding (bs : list Z) : JSString :=
  match bs with
  | [] => []
  | [_] => [PAD; PAD]
  | [_; _] => [PAD]
  | _ :: _ :: _ :: rest => padding rest
  end.

(** [atob(data)]: the forgiving-base64 decode. *)
Definition atob (data : JSString) : Res JSString :=
  let data1 := filter (fun c => negb (isAsciiWhitespace c)) data in
  let data2 :=
    if Z.of_nat (List.length data1) mod 4 =? 0 then stripPadding data1
    else data1 in
  if Z.of_nat (List.length data2) mod 4 =? 1 then Throw InvalidCharacterError
  else match sextets data2 with
       | Some l => Ok (decode l)
       | None => Throw InvalidCharacterError
       end.

End Base64.

(* ===================================================================== *)
(** * The persisted record, the stores and the context's state           *)
(* ===================================================================== *)

(** The auth record of [db.auth] (key ['main']). A JavaScript object may
    lack any property. For [passwordHash] and [salt], [None] is an absent
    property ([undefined]): [setupAccount] writes them as strings and no
    function writes them again, so a record with a [null] salt is not
    among the records described. For the other fields [None] is [null] or
    [undefined], which the code does not tell apart: it reads them through
    truthiness tests, [||] and [===] only. *)
Record AuthRecord := mkAuthRecord {
  passwordHash : option JSString;
  salt : option JSString;
  encryptedApiKey : option JSString;
  apiKeyIV : option JSString;
  biometricEnabled : option bool;
  biometricCredentialId : option JSString;
  failedAttempts : option Z;
  lockoutUntil : option Z;
  createdAt : option Z;
  targetCalories : option Z
}.

(** The object [{}]. *)
Definition emptyRecord : AuthRecord :=
  mkAuthRecord None None None None None None None None None None.

(** The three tables of [CalTrackDB]; rows of the two data tables are kept
    as opaque serialised values. *)
Record Database := mkDatabase {
  auth : option AuthRecord;
  dailyEntries : list JSString;
  exerciseHistory : list JSString
}.

(** [useState] of [authState]. *)
Record AuthState := mkAuthState {
  isLoading : bool;
  needsSetup : bool;
  isAuthenticated : bool;
  authData : option AuthRecord
}.

(** One call of [crypto.subtle.deriveKey], as recorded in the world. *)
Record Derivation := mkDerivation {
  dPassword : JSString;
  dSalt : Uint8Array;
  dUsage : JSString
}.

(** Everything the provider's functions read or write. [session] is the
    [expiresAt] stored under [SESSION_KEY] in [sessionStorage];
    [derivations] and [console] record the key derivations run and the
    errors logged, oldest first. Timers and the activity ref belong to the
    effect hooks and are not part of this model. *)
Record World := mkWorld {
  db : Database;
  session : option Z;
  authState : AuthState;
  decryptedApiKey : option JSString;
  currentPassword : option JSString;
  derivations : list Derivation;
  console : list (string * Exn)
}.

(** What the platform answers during one call. [Date_now] and
    [entropy] are indexed by the source line of the call site, so that two
    readings of the clock in one call may differ. *)
Record Env := mkEnv {
  Date_now : nat -> Z;
  entropy : nat -> nat -> Z;
  webAuthnSupported : bool;
  platformAuthenticator : Res bool;
  credentials_create : Res Uint8Array;
  credentials_get : bool
}.

(** The primitives of [crypto.subtle]. [PBKDF2 password salt iterations
    bits] is PBKDF2 with HMAC-SHA-256. *)
Record WebCrypto := mkWebCrypto {
  PBKDF2 : Uint8Array -> Uint8Array -> Z -> Z -> Uint8Array;
  AES_GCM_encrypt : Uint8Array -> Uint8Array -> Uint8Array -> Uint8Array;
  AES_GCM_decrypt : Uint8Array -> Uint8Array -> Uint8Array -> option Uint8Array
}.

(** The contract of AES-GCM the code relies on: over byte sequences, a
    ciphertext is a byte sequence, and decryption under the key and nonce
    of the encryption gives the plaintext back. *)
Definition AES_GCM_contract (wc : WebCrypto) : Prop :=
  forall key iv plaintext,
    Forall is_byte plaintext ->
    Forall is_byte (AES_GCM_encrypt wc key iv plaintext) /\
    AES_GCM_decrypt wc key iv (AES_GCM_encrypt wc key iv plaintext)
    = Some plaintext.

(* ===================================================================== *)
(** * Results of the context's functions                                 *)
(* ===================================================================== *)

Inductive Message : Type :=
| NoAccountFound
| TooManyAttempts (seconds : Z)
| InvalidPasswordRemaining (attempts : Z)
| InvalidPassword
| BiometricNotEnabled
| BiometricFailed
| BiometricNotAvailable
| PasswordRequired
| NoApiKeyStored
| FailedToDecrypt
| ErrorMessage (e : Exn).

Definition Number_toString (n : Z) : string :=
  NilZero.string_of_int (Z.to_int n).

(** The text of each message; [message_of] is the platform's
    [error.message]. *)
Definition render (message_of : Exn -> string) (m : Message) : string :=
  match m with
  | NoAccountFound => "No account found"
  | TooManyAttempts n =>
      "Too many attempts. Try again in " ++ Number_toString n ++ " seconds."
  | InvalidPasswordRemaining n =>
      "Invalid password. " ++ Number_toString n ++ " attempts remaining."
  | InvalidPassword => "Invalid password"
  | BiometricNotEnabled => "Biometric not enabled"
  | BiometricFailed => "Biometric authentication failed"
  | BiometricNotAvailable =>
      "Biometric authentication not available on this device"
  | PasswordRequired => "Password required to encrypt API key"
  | NoApiKeyStored => "No API key stored"
  | FailedToDecrypt => "Failed to decrypt API key"
  | ErrorMessage e => message_of e
  end%string.

(** The object a function of the context resolves to; an absent property
    is [None]. *)
Record Outcome := mkOutcome {
  success : bool;
  error : option Message;
  locked : option bool;
  needsPasswordForApiKey : option bool
}.

Definition succeeded : Outcome := mkOutcome true None None None.
Definition failed (m : Message) : Outcome := mkOutcome false (Some m) None None.
Definition lockedOut (m : Message) : Outcome :=
  mkOutcome false (Some m) (Some true) None.

(* ===================================================================== *)
(** * The monad of asynchronous functions                                *)
(* ===================================================================== *)

Definition M (A : Type) : Type := World -> Res A * World.

Definition ret {A} (a : A) : M A := fun w => (Ok a, w).

Definition bind {A B} (m : M A) (k : A -> M B) : M B :=
  fun w => match m w with
           | (Ok a, w') => k a w'
           | (Throw e, w') => (Throw e, w')
           end.

Definition throw {A} (e : Exn) : M A := fun w => (Throw e, w).

(** [try { body } catch (e) { handler e }] *)
Definition try_catch {A} (body : M A) (handler : Exn -> M A) : M A :=
  fun w => match body w with
           | (Ok a, w') => (Ok a, w')
           | (Throw e, w') => handler e w'
           end.

Definition lift {A} (r : Res A) : M A := fun w => (r, w).

Declare Scope js_scope.
Delimit Scope js_scope with js.
Notation "x <- m ;; k" := (bind m (fun x => k))
  (at level 61, m at next level, right associativity) : js_scope.
Notation "m ;;; k" := (bind m (fun _ => k))
  (at level 61, right associativity) : js_scope.
Open Scope js_scope.

(** ** JavaScript truthiness *)

Definition truthy_string (s : option JSString) : bool :=
  match s with Some (_ :: _) => true | _ => false end.

Definition truthy_number (n : option Z) : bool :=
  match n with Some z => negb (z =? 0) | None => false end.

Definition truthy_bool (b : option bool) : bool :=
  match b with Some true => true | _ => false end.

(** A possibly [undefined] value where a string is expected:
    [atob(undefined)] decodes the text "undefined". The code converts to a
    string the salt, where [None] is [undefined], and fields that its
    truthiness tests have found to be non-empty strings. *)
Definition ToString (s : option JSString) : JSString :=
  match s with Some s' => s' | None => js "undefined" end.

(** [Math.ceil(a / b)] for integers [a] and [b > 0]. *)
Definition Math_ceil_div (a b : Z) : Z := - ((- a) / b).

(** ** Field updates *)

Definition set_db (d : Database) (w : World) : World :=
  mkWorld d (session w) (authState w) (decryptedApiKey w)
          (currentPassword w) (derivations w) (console w).
Definition set_session (s : option Z) (w : World) : World :=
  mkWorld (db w) s (authState w) (decryptedApiKey w)
          (currentPassword w) (derivations w) (console w).
Definition set_authState (a : AuthState) (w : World) : World :=
  mkWorld (db w) (session w) a (decryptedApiKey w)
          (currentPassword w) (derivations w) (console w).
Definition set_decryptedApiKey (k : option JSString) (w : World) : World :=
  mkWorld (db w) (session w) (authState w) k
          (currentPassword w) (derivations w) (console w).
Definition set_currentPassword (p : option JSString) (w : World) : World :=
  mkWorld (db w) (session w) (authState w) (decryptedApiKey w)
          p (derivations w) (console w).
Definition add_derivation (d : Derivation) (w : World) : World :=
  mkWorld (db w) (session w) (authState w) (decryptedApiKey w)
          (currentPassword w) (derivations w ++ [d]) (console w).
Definition add_console (l : string) (e : Exn) (w : World) : World :=
  mkWorld (db w) (session w) (authState w) (decryptedApiKey w)
          (currentPassword w) (derivations w) (console w ++ [(l, e)]).

Definition with_failedAttempts (n : option Z) (r : AuthRecord) : AuthRecord :=
  mkAuthRecord (passwordHash r) (salt r) (encryptedApiKey r) (apiKeyIV r)
    (biometricEnabled r) (biometricCredentialId r) n (lockoutUntil r)
    (createdAt r) (targetCalories r).
Definition with_lockoutUntil (t : option Z) (r : AuthRecord) : AuthRecord :=
  mkAuthRecord (passwordHash r) (salt r) (encryptedApiKey r) (apiKeyIV r)
    (biometricEnabled r) (biometricCredentialId r) (failedAttempts r) t
    (createdAt r) (targetCalories r).
Definition with_biometric (e : option bool) (c : option JSString)
    (r : AuthRecord) : AuthRecord :=
  mkAuthRecord (passwordHash r) (salt r) (encryptedApiKey r) (apiKeyIV r)
    e c (failedAttempts r) (lockoutUntil r) (createdAt r) (targetCalories r).
Definition with_apiKey (k iv : option JSString) (r : AuthRecord) : AuthRecord :=
  mkAuthRecord (passwordHash r) (salt r) k iv
    (biometricEnabled r) (biometricCredentialId r) (failedAttempts r)
    (lockoutUntil r) (createdAt r) (targetCalories r).

(** [{ ...r }] for a possibly [null] or [undefined] [r]. *)
Definition spread (r : option AuthRecord) : AuthRecord :=
  match r with Some r' => r' | None => emptyRecord end.

(* ===================================================================== *)
(** * src/utils/crypto.js                                                *)
(* ===================================================================== *)

Inductive Algorithm : Type := AES_GCM_256 | HMAC_SHA_256.

Record CryptoKey := mkCryptoKey {
  algorithm : Algorithm;
  raw : Uint8Array      (* what [exportKey('raw', key)] gives *)
}.

Definition PBKDF2_ITERATIONS : Z := 100000.
Definition SALT_LENGTH : nat := 16.
Definition IV_LENGTH : nat := 12.

(** The elements of a [Uint8Array] are reduced modulo 256 when stored. *)
Definition asUint8Array (l : list Z) : Uint8Array :=
  map (fun x => x mod 256) l.

Section Crypto.

Variable wc : WebCrypto.
Variable env : Env.

(** [crypto.getRandomValues(new Uint8Array(n))] at source line [site]. *)
Definition getRandomValues (site : nat) (n : nat) : Uint8Array :=
  asUint8Array (map (entropy env site) (seq 0 n)).

Definition generateSalt : Uint8Array := getRandomValues 16 SALT_LENGTH.

Definition generateIV : Uint8Array := getRandomValues 23 IV_LENGTH.

(** [String.fromCharCode] of each byte, then [btoa]. *)
Definition bufferToBase64 (buffer : Uint8Array) : Res JSString :=
  let bytes := asUint8Array buffer in
  Base64.btoa bytes.

(** [atob], then [charCodeAt] of each position into a [Uint8Array]. *)
Definition base64ToBuffer (base64 : JSString) : Res Uint8Array :=
  match Base64.atob base64 with
  | Ok binary => Ok (asUint8Array binary)
  | Throw e => Throw e
  end.

(** [deriveKey(password, salt, usage)]. The derived key has 256 bits for
    AES-GCM and, for HMAC with SHA-256 and no length given, the 512 bits
    of the hash's block size. *)
Definition deriveKey (password : JSString) (salt' : Uint8Array)
    (usage : JSString) : M CryptoKey :=
  let passwordBuffer := Encoding.TextEncoder_encode password in
  let keyMaterial := passwordBuffer in
  fun w =>
    (Ok (if list_eqb usage (js "encrypt")
         then mkCryptoKey AES_GCM_256
                (PBKDF2 wc keyMaterial salt' PBKDF2_ITERATIONS 256)
         else mkCryptoKey HMAC_SHA_256
                (PBKDF2 wc keyMaterial salt' PBKDF2_ITERATIONS 512)),
     add_derivation (mkDerivation password salt' usage) w).

(** [hashPassword(password, existingSalt = null)]: the pair
    [(hash, salt)]. *)
Definition hashPassword (password : JSString)
    (existingSalt : option Uint8Array) : M (JSString * JSString) :=
  let salt' := match existingSalt with
               | Some s => s
               | None => generateSalt
               end in
  key <- deriveKey password salt' (js "hash") ;;
  let hashBuffer := asUint8Array (raw key) in
  hash <- lift (bufferToBase64 hashBuffer) ;;
  salt64 <- lift (bufferToBase64 salt') ;;
  ret (hash, salt64).

(** [verifyPassword(password, storedHash, storedSalt)] *)
Definition verifyPassword (password : JSString)
    (storedHash storedSalt : option JSString) : M bool :=
  salt' <- lift (base64ToBuffer (ToString storedSalt)) ;;
  hs <- hashPassword password (Some salt') ;;
  ret (match storedHash with
       | Some h => list_eqb (fst hs) h
       | None => false
       end).

(** [encryptData(plaintext, password, salt)]: the pair
    [(encrypted, iv)]. *)
Definition encryptData (plaintext password : JSString)
    (salt' : option JSString) : M (JSString * JSString) :=
  saltBuffer <- lift (base64ToBuffer (ToString salt')) ;;
  key <- deriveKey password saltBuffer (js "encrypt") ;;
  let iv := generateIV in
  let plaintextBuffer := Encoding.TextEncoder_encode plaintext in
  let encryptedBuffer :=
    AES_GCM_encrypt wc (raw key) iv plaintextBuffer in
  encrypted <- lift (bufferToBase64 encryptedBuffer) ;;
  iv64 <- lift (bufferToBase64 iv) ;;
  ret (encrypted, iv64).

(** [decryptData(encrypted, iv, password, salt)] *)
Definition decryptData (encrypted iv password : JSString)
    (salt' : option JSString) : M JSString :=
  saltBuffer <- lift (base64ToBuffer (ToString salt')) ;;
  key <- deriveKey password saltBuffer (js "encrypt") ;;
  ivBuffer <- lift (base64ToBuffer iv) ;;
  encryptedBuffer <- lift (base64ToBuffer encrypted) ;;
  match AES_GCM_decrypt wc (raw key) ivBuffer encryptedBuffer with
  | Some decryptedBuffer => ret (Encoding.TextDecoder_decode decryptedBuffer)
  | None => throw OperationError
  end.

Definition isWebAuthnSupported : bool := webAuthnSupported env.

(** [isBiometricAvailable()] *)
Definition isBiometricAvailable : M bool :=
  if negb isWebAuthnSupported then ret false
  else match platformAuthenticator env with
       | Ok available => ret available
       | Throw _ => ret false
       end.

(** [registerBiometric(userId)]: the credential id. *)
Definition registerBiometric : M JSString :=
  credential <- lift (credentials_create env) ;;
  lift (bufferToBase64 credential).

(** [authenticateBiometric(credentialId)]: the request options are built,
    decoding the credential id, before the [try] block is entered. *)
Definition authenticateBiometric (credentialId : JSString) : M bool :=
  _ <- lift (base64ToBuffer credentialId) ;;
  ret (credentials_get env).

End Crypto.

(* ===================================================================== *)
(** * src/utils/db.js: the auth helpers                                  *)
(* ===================================================================== *)

(** The auth table holds at most the record of key ['main']; the [id]
    property that [setAuthData] adds is that key and is not kept in
    [AuthRecord]. Reads and writes of IndexedDB and of [sessionStorage] are
    taken to succeed. *)

Definition getAuthData : M (option AuthRecord) :=
  fun w => (Ok (auth (db w)), w).

Definition setAuthData (data : AuthRecord) : M unit :=
  fun w => (Ok tt,
            set_db (mkDatabase (Some data) (dailyEntries (db w))
                      (exerciseHistory (db w))) w).

Definition hasAuthSetup : M bool :=
  a <- getAuthData ;;
  ret (match a with
       | Some r => truthy_string (passwordHash r)
       | None => false
       end).

Definition deleteAllData : M unit :=
  fun w => (Ok tt, set_db (mkDatabase None [] []) w).

(* ===================================================================== *)
(** * src/contexts/AuthContext.jsx                                       *)
(* ===================================================================== *)

Definition SESSION_TIMEOUT : Z := 30 * 60 * 1000.
Definition LOCKOUT_DURATION : Z := 30 * 1000.
Definition MAX_FAILED_ATTEMPTS : Z := 5.
Definition TAB_BLUR_TIMEOUT : Z := 5 * 60 * 1000.

(** A possibly [null] number in an arithmetic position. *)
Definition ToNumber (n : option Z) : Z :=
  match n with Some z => z | None => 0 end.

(** [n || 0] *)
Definition orZero (n : option Z) : Z :=
  if truthy_number n then ToNumber n else 0.

(** The state updates of the provider. A [set...] call takes effect at
    once, and a function of the context sees the state of the moment it is
    called. *)
Definition sessionStorage_setItem (expiresAt : Z) : M unit :=
  fun w => (Ok tt, set_session (Some expiresAt) w).
Definition sessionStorage_removeItem : M unit :=
  fun w => (Ok tt, set_session None w).
Definition sessionStorage_getItem : M (option Z) :=
  fun w => (Ok (session w), w).
Definition setAuthState (a : AuthState) : M unit :=
  fun w => (Ok tt, set_authState a w).
Definition updateAuthState (f : AuthState -> AuthState) : M unit :=
  fun w => (Ok tt, set_authState (f (authState w)) w).
Definition setDecryptedApiKey (k : option JSString) : M unit :=
  fun w => (Ok tt, set_decryptedApiKey k w).
Definition setCurrentPassword (p : option JSString) : M unit :=
  fun w => (Ok tt, set_currentPassword p w).
Definition console_error (label : string) (e : Exn) : M unit :=
  fun w => (Ok tt, add_console label e w).

Section AuthProvider.

Variable wc : WebCrypto.
Variable env : Env.

(** The effect run once when the provider mounts. *)
Definition initAuth : M unit :=
  try_catch
    (hasSetup <- hasAuthSetup ;;
     authData' <- getAuthData ;;
     sessionData <- sessionStorage_getItem ;;
     isAuthenticated' <-
       match sessionData with
       | Some expiresAt =>
           if hasSetup then
             if Date_now env 53 <? expiresAt then ret true
             else sessionStorage_removeItem ;;; ret false
           else ret false
       | None => ret false
       end ;;
     setAuthState (mkAuthState false (negb hasSetup) isAuthenticated' authData'))
    (fun e =>
       console_error "Auth init error:" e ;;;
       setAuthState (mkAuthState false true false None)).

(** [resetSessionTimeout()], lines 81-97: while the state is authenticated
    it rewrites the stored session. The activity effect (lines 100-126) runs
    it when the state becomes authenticated and on every click, key press,
    scroll and touch. Its timer calls [lock] when it fires. *)
Definition resetSessionTimeout : M unit :=
  fun w =>
    if isAuthenticated (authState w)
    then sessionStorage_setItem (Date_now env 90 + SESSION_TIMEOUT) w
    else (Ok tt, w).

(** [setupAccount(password, targetCalories = 2000)] *)
Definition setupAccount (password : JSString) (targetCalories' : option Z)
    : M Outcome :=
  try_catch
    (hs <- hashPassword wc env password None ;;
     let authData' :=
       mkAuthRecord (Some (fst hs)) (Some (snd hs)) None None
         (Some false) None (Some 0) None (Some (Date_now env 180))
         (Some (match targetCalories' with Some t => t | None => 2000 end)) in
     setAuthData authData' ;;;
     sessionStorage_setItem (Date_now env 187 + SESSION_TIMEOUT) ;;;
     setCurrentPassword (Some password) ;;;
     setAuthState (mkAuthState false false true (Some authData')) ;;;
     ret succeeded)
    (fun e =>
       console_error "Setup error:" e ;;;
       ret (failed (ErrorMessage e))).

(** Lines 220-273 of [loginWithPassword]: what happens to an attempt
    that the lockout check lets through. *)
Definition evaluateAttempt (authData' : AuthRecord) (password : JSString)
    : M Outcome :=
  isValid <- verifyPassword wc env password (passwordHash authData')
               (salt authData') ;;
  if negb isValid then
    let newFailedAttempts := orZero (failedAttempts authData') + 1 in
    let lockNow := MAX_FAILED_ATTEMPTS <=? newFailedAttempts in
    let updates_lockoutUntil :=
      if lockNow then Some (Date_now env 229 + LOCKOUT_DURATION)
      else None in
    let updates_failedAttempts :=
      if lockNow then 0 else newFailedAttempts in
    setAuthData
      (with_failedAttempts (Some updates_failedAttempts)
         (match updates_lockoutUntil with
          | Some t => with_lockoutUntil (Some t) authData'
          | None => authData'
          end)) ;;;
    if truthy_number updates_lockoutUntil
    then ret (lockedOut (TooManyAttempts 30))
    else ret (failed (InvalidPasswordRemaining
                        (MAX_FAILED_ATTEMPTS - newFailedAttempts)))
  else
    setAuthData (with_failedAttempts (Some 0)
                   (with_lockoutUntil None authData')) ;;;
    apiKey <-
      (if truthy_string (encryptedApiKey authData')
          && truthy_string (apiKeyIV authData')
       then
         try_catch
           (k <- decryptData wc (ToString (encryptedApiKey authData'))
                   (ToString (apiKeyIV authData')) password
                   (salt authData') ;;
            ret (Some k))
           (fun e =>
              console_error "Failed to decrypt API key:" e ;;; ret None)
       else ret None) ;;
    sessionStorage_setItem (Date_now env 261 + SESSION_TIMEOUT) ;;;
    setCurrentPassword (Some password) ;;;
    setDecryptedApiKey apiKey ;;;
    setAuthState (mkAuthState false false true (Some authData')) ;;;
    ret succeeded.

(** [loginWithPassword(password)] *)
Definition loginWithPassword (password : JSString) : M Outcome :=
  try_catch
    (a <- getAuthData ;;
     match a with
     | None => ret (failed NoAccountFound)
     | Some authData' =>
         if truthy_number (lockoutUntil authData')
            && (Date_now env 215 <? ToNumber (lockoutUntil authData'))
         then
           let remainingSeconds :=
             Math_ceil_div
               (ToNumber (lockoutUntil authData') - Date_now env 216) 1000 in
           ret (lockedOut (TooManyAttempts remainingSeconds))
         else evaluateAttempt authData' password
     end)
    (fun e =>
       console_error "Login error:" e ;;;
       ret (failed (ErrorMessage e))).

(** [loginWithBiometric()] *)
Definition loginWithBiometric : M Outcome :=
  try_catch
    (a <- getAuthData ;;
     if negb (truthy_bool (biometricEnabled (spread a)))
        || negb (truthy_string (biometricCredentialId (spread a)))
     then ret (failed BiometricNotEnabled)
     else
       let authData' := spread a in
       authenticated <-
         authenticateBiometric env
           (ToString (biometricCredentialId authData')) ;;
       if negb authenticated then ret (failed BiometricFailed)
       else
         sessionStorage_setItem (Date_now env 296 + SESSION_TIMEOUT) ;;;
         setAuthState (mkAuthState false false true a) ;;;
         ret (mkOutcome true None None
                (Some (truthy_string (encryptedApiKey authData')))))
    (fun e =>
       console_error "Biometric login error:" e ;;;
       ret (failed (ErrorMessage e))).

(** [enableBiometric()] *)
Definition enableBiometric : M Outcome :=
  try_catch
    (available <- isBiometricAvailable env ;;
     if negb available then ret (failed BiometricNotAvailable)
     else
       a <- getAuthData ;;
       match a with
       | None => throw TypeError
       | Some authData' =>
           credentialId <- registerBiometric env ;;
           setAuthData
             (with_biometric (Some true) (Some credentialId) authData') ;;;
           updateAuthState
             (fun prev =>
                mkAuthState (isLoading prev) (needsSetup prev)
                  (isAuthenticated prev)
                  (Some (with_biometric (Some true) (Some credentialId)
                           (spread (authData prev))))) ;;;
           ret succeeded
       end)
    (fun e =>
       console_error "Enable biometric error:" e ;;;
       ret (failed (ErrorMessage e))).

(** [disableBiometric()] *)
Definition disableBiometric : M Outcome :=
  try_catch
    (a <- getAuthData ;;
     setAuthData (with_biometric (Some false) None (spread a)) ;;;
     updateAuthState
       (fun prev =>
          mkAuthState (isLoading prev) (needsSetup prev)
            (isAuthenticated prev)
            (Some (with_biometric (Some false) None
                     (spread (authData prev))))) ;;;
     ret succeeded)
    (fun e =>
       console_error "Disable biometric error:" e ;;;
       ret (failed (ErrorMessage e))).

(** [saveApiKey(apiKey, password = currentPassword)] *)
Definition saveApiKey (apiKey : JSString) (password : option JSString)
    : M Outcome :=
  fun w0 =>
  let password' := match password with
                   | Some p => Some p
                   | None => currentPassword w0
                   end in
  try_catch
    (if negb (truthy_string password') then ret (failed PasswordRequired)
     else
       a <- getAuthData ;;
       match a with
       | None => throw TypeError
       | Some authData' =>
           ei <- encryptData wc env apiKey (ToString password')
                   (salt authData') ;;
           setAuthData
             (with_apiKey (Some (fst ei)) (Some (snd ei)) authData') ;;;
           setDecryptedApiKey (Some apiKey) ;;;
           updateAuthState
             (fun prev =>
                mkAuthState (isLoading prev) (needsSetup prev)
                  (isAuthenticated prev)
                  (Some (with_apiKey (Some (fst ei)) (Some (snd ei))
                           (spread (authData prev))))) ;;;
           ret succeeded
       end)
    (fun e =>
       console_error "Save API key error:" e ;;;
       ret (failed (ErrorMessage e))) w0.

(** [unlockApiKey(password)] *)
Definition unlockApiKey (password : JSString) : M Outcome :=
  try_catch
    (a <- getAuthData ;;
     match a with
     | None => throw TypeError
     | Some authData' =>
         if negb (truthy_string (encryptedApiKey authData'))
            || negb (truthy_string (apiKeyIV authData'))
         then ret (failed NoApiKeyStored)
         else
           isValid <- verifyPassword wc env password (passwordHash authData')
                        (salt authData') ;;
           if negb isValid then ret (failed InvalidPassword)
           else
             apiKey <- decryptData wc
                         (ToString (encryptedApiKey authData'))
                         (ToString (apiKeyIV authData')) password
                         (salt authData') ;;
             setCurrentPassword (Some password) ;;;
             setDecryptedApiKey (Some apiKey) ;;;
             ret succeeded
     end)
    (fun e =>
       console_error "Unlock API key error:" e ;;;
       ret (failed FailedToDecrypt)).

(** [lock()] *)
Definition lock : M unit :=
  setDecryptedApiKey None ;;;
  setCurrentPassword None ;;;
  sessionStorage_removeItem ;;;
  updateAuthState
    (fun prev =>
       mkAuthState (isLoading prev) (needsSetup prev) false (authData prev)).

(** [deleteAll(password)] *)
Definition deleteAll (password : JSString) : M Outcome :=
  try_catch
    (a <- getAuthData ;;
     match a with
     | None => throw TypeError
     | Some authData' =>
         isValid <- verifyPassword wc env password (passwordHash authData')
                      (salt authData') ;;
         if negb isValid then ret (failed InvalidPassword)
         else
           deleteAllData ;;;
           setDecryptedApiKey None ;;;
           setCurrentPassword None ;;;
           sessionStorage_removeItem ;;;
           setAuthState (mkAuthState false true false None) ;;;
           ret succeeded
     end)
    (fun e =>
       console_error "Delete all error:" e ;;;
       ret (failed (ErrorMessage e))).

(** [checkBiometricAvailable()] *)
Definition checkBiometricAvailable : M bool := isBiometricAvailable env.

End AuthProvider.



(* ===================================================================== *)
(** * Notions used in the statements                                     *)
(* ===================================================================== *)

(** The guard of line 215: [lockoutUntil && lockoutUntil > now]. *)
Definition lockoutActive (r : AuthRecord) (now : Z) : bool :=
  truthy_number (lockoutUntil r) && (now <? ToNumber (lockoutUntil r)).

(** The base64 text [hashPassword] computes for a password and salt. *)
Definition hashOf (wc : WebCrypto) (password : JSString)
    (saltBytes : Uint8Array) : JSString :=
  Base64.encode
    (asUint8Array
       (asUint8Array
          (PBKDF2 wc (Encoding.TextEncoder_encode password) saltBytes
             PBKDF2_ITERATIONS 512))).

(** The [catch] block of [loginWithPassword] around a body. *)
Definition loginCatch (body : M Outcome) : M Outcome :=
  try_catch body
    (fun e => console_error "Login error:" e ;;; ret (failed (ErrorMessage e))).

(** The world after [setAuthData(r)]. *)
Definition stored (r : AuthRecord) (w : World) : World :=
  set_db (mkDatabase (Some r) (dailyEntries (db w)) (exerciseHistory (db w))) w.

(** Successive password logins, each with its own platform answers. *)
Fixpoint loginAttempts (wc : WebCrypto) (calls : list (Env * JSString))
    (w : World) : World :=
  match calls with
  | [] => w
  | (env, password) :: rest =>
      loginAttempts wc rest (snd (loginWithPassword wc env password w))
  end.

(** The secret a login puts in memory: the decrypted key, or nothing when
    there is none stored or its decryption throws. *)
Definition loginSecret (wc : WebCrypto) (r : AuthRecord) (password : JSString)
    (w : World) : option JSString :=
  if truthy_string (encryptedApiKey r) && truthy_string (apiKeyIV r) then
    match fst (decryptData wc (ToString (encryptedApiKey r))
                 (ToString (apiKeyIV r)) password (salt r) w) with
    | Ok k => Some k
    | Throw _ => None
    end
  else None.

Definition afterLogin (env : Env) (r : AuthRecord) (password : JSString)
    (apiKey : option JSString) (w : World) : World :=
  set_authState (mkAuthState false false true (Some r))
    (set_decryptedApiKey apiKey
       (set_currentPassword (Some password)
          (set_session (Some (Date_now env 261 + SESSION_TIMEOUT)) w))).

(** What is asked of a call for it to be a failed verification that the
    lockout stored in [r] lets through. *)
Definition failsOn (wc : WebCrypto) (r : AuthRecord) (w : World)
    (call : Env * JSString) : Prop :=
  lockoutActive r (Date_now (fst call) 215) = false /\
  fst (verifyPassword wc (fst call) (snd call) (passwordHash r) (salt r) w)
    = Ok false /\
  0 <= Date_now (fst call) 229.

(** The record a setup with this password and target writes. *)
Definition setupRecord (wc : WebCrypto) (env : Env) (password : JSString)
    (target : option Z) : AuthRecord :=
  mkAuthRecord
    (Some (hashOf wc password (generateSalt env)))
    (Some (Base64.encode (asUint8Array (generateSalt env))))
    None None (Some false) None (Some 0) None (Some (Date_now env 180))
    (Some (match target with Some t => t | None => 2000 end)).

(** ** Sequences of calls *)

(** The functions the context hands to the components, a run of
    [resetSessionTimeout] (by the activity effect or one of its listeners),
    and a page load (the provider is created anew, [initAuth] runs and then
    the activity effect; the database and the session store persist). *)
Inductive Action : Type :=
| SetupAccount (password : JSString) (target : option Z)
| LoginWithPassword (password : JSString)
| LoginWithBiometric
| EnableBiometric
| DisableBiometric
| SaveApiKey (apiKey : JSString) (password : option JSString)
| UnlockApiKey (password : JSString)
| Lock
| DeleteAll (password : JSString)
| CheckBiometricAvailable
| ResetSessionTimeout
| PageLoad.

Definition pageLoad (env : Env) : M unit :=
  fun w =>
    (initAuth env ;;; resetSessionTimeout env)
      (mkWorld (db w) (session w) (mkAuthState true false false None)
               None None (derivations w) (console w)).

(** The world after one call. *)
Definition perform (wc : WebCrypto) (step : Env * Action) (w : World)
    : World :=
  let env := fst step in
  match snd step with
  | SetupAccount password target =>
      snd (setupAccount wc env password target w)
  | LoginWithPassword password => snd (loginWithPassword wc env password w)
  | LoginWithBiometric => snd (loginWithBiometric env w)
  | EnableBiometric => snd (enableBiometric env w)
  | DisableBiometric => snd (disableBiometric w)
  | SaveApiKey apiKey password => snd (saveApiKey wc env apiKey password w)
  | UnlockApiKey password => snd (unlockApiKey wc env password w)
  | Lock => snd (lock w)
  | DeleteAll password => snd (deleteAll wc env password w)
  | CheckBiometricAvailable => snd (checkBiometricAvailable env w)
  | ResetSessionTimeout => snd (resetSessionTimeout env w)
  | PageLoad => snd (pageLoad env w)
  end.

Fixpoint performAll (wc : WebCrypto) (steps : list (Env * Action))
    (w : World) : World :=
  match steps with
  | [] => w
  | step :: rest => performAll wc rest (perform wc step w)
  end.

(** The calls that are given a password and can put a secret in memory: a
    password login or an unlock whose password verifies against the stored
    record, and a save that has a password to encrypt with. *)
Definition suppliesPassword (wc : WebCrypto) (step : Env * Action)
    (w : World) : Prop :=
  match snd step with
  | LoginWithPassword password | UnlockApiKey password =>
      exists r,
        auth (db w) = Some r /\
        fst (verifyPassword wc (fst step) password (passwordHash r) (salt r) w)
        = Ok true
  | SaveApiKey _ password =>
      truthy_string (match password with
                     | Some p => Some p
                     | None => currentPassword w
                     end) = true
  | _ => False
  end.

(* ===================================================================== *)
(** * Running the model on concrete inputs                               *)
(* ===================================================================== *)

(** A small instance of the primitives for evaluating the model: not
    PBKDF2 or AES-GCM, only functions of the same shape. The derived bits
    depend on password and salt; a ciphertext is the plaintext behind a tag
    that depends on key, nonce and plaintext, and decryption checks it. *)
Module Sample.

Definition digest (l : list Z) : Z :=
  fold_left (fun acc b => (acc * 31 + b + 7) mod 256) l 5.

Definition pbkdf2 (password salt' : Uint8Array) (iterations bits : Z)
    : Uint8Array :=
  map (fun i => (digest (password ++ 0 :: salt') + Z.of_nat i) mod 256)
      (seq 0 (Z.to_nat (bits / 8))).

Definition tag (key iv body : Uint8Array) : Z :=
  digest (key ++ 0 :: iv ++ 0 :: body).

Definition encrypt (key iv plaintext : Uint8Array) : Uint8Array :=
  tag key iv plaintext :: plaintext.

Definition decrypt (key iv ciphertext : Uint8Array) : option Uint8Array :=
  match ciphertext with
  | t :: body => if t =? tag key iv body then Some body else None
  | [] => None
  end.

Definition crypto : WebCrypto := mkWebCrypto pbkdf2 encrypt decrypt.

(** A platform whose clock reads [t] at every call site, whose random
    source yields the byte [site + i], and whose authenticator is
    present and consents. *)
Definition envAt (t : Z) : Env :=
  mkEnv (fun _ => t) (fun site i => Z.of_nat (site + i)) true (Ok true)
        (Ok [1; 2; 3]) true.

(** The state of the provider when it is created, over an empty
    database. *)
Definition world0 : World :=
  mkWorld (mkDatabase None [] []) None
          (mkAuthState true false false None) None None [] [].

(** A record whose lockout lasts until 5000, and a world holding it. *)
Definition lockedRecord : AuthRecord :=
  mkAuthRecord (Some (js "aGFzaA==")) (Some (js "c2FsdA==")) None None
    (Some false) None (Some 0) (Some 5000) (Some 0) (Some 2000).

Definition lockedWorld : World :=
  mkWorld (mkDatabase (Some lockedRecord) [] []) None
          (mkAuthState false false false (Some lockedRecord)) None None
          [] [].

(** The world after [setupAccount("hunter22")] at time 1000, and the
    record it stores. *)
Definition world1 : World :=
  snd (setupAccount crypto (envAt 1000) (js "hunter22") None world0).

Definition record1 : AuthRecord := spread (auth (db world1)).

(** Five calls with the password "wrong", at times 2000 to 6000. *)
Definition fiveWrong : list (Env * JSString) :=
  map (fun t => (envAt t, js "wrong")) [2000; 3000; 4000; 5000; 6000].

(** The stored record with a secret that does not decrypt, in a locked
    world. *)
Definition corruptRecord : AuthRecord :=
  with_apiKey (Some (js "AAAA")) (Some (js "AAAA")) record1.

Definition corruptWorld : World :=
  mkWorld (mkDatabase (Some corruptRecord) [] []) None
          (mkAuthState false false false (Some corruptRecord)) None None
          [] [].

(** The stored record after ["sk-abc123"] has been saved in the session
    of [world1], then with a lockout until 50000, in a world where a
    biometric login has just succeeded. *)
Definition world2 : World :=
  snd (saveApiKey crypto (envAt 1500) (js "sk-abc123") None world1).

Definition secretRecord : AuthRecord :=
  with_lockoutUntil (Some 50000) (spread (auth (db world2))).

Definition secretWorld : World :=
  mkWorld (mkDatabase (Some secretRecord) [js "2026-02-04"] []) (Some 1804000)
          (mkAuthState false false true (Some secretRecord)) None None
          [] [].

(** The world after a secret has been saved and biometrics enabled in
    the session of [world1]; the same after [lock]. *)
Definition world3 : World :=
  snd (enableBiometric (envAt 1600) world2).

Definition world4 : World := snd (lock world3).

(** A secret that begins with U+FEFF, one that is an unpaired surrogate,
    and the salt stored by the setup of [world1]. *)
Definition bomSecret : JSString := 0xFEFF :: js "sk-abc123".

Definition loneSurrogate : JSString := [0xD83D].

Definition salt1 : JSString := ToString (salt record1).

(** What [decryptData] gives for the output of [encryptData], both at
    time 1500 and with the password "hunter22" and the salt [salt1]. *)
Definition roundTrip (plaintext : JSString) : Res JSString :=
  match encryptData crypto (envAt 1500) plaintext (js "hunter22")
          (Some salt1) world1 with
  | (Ok (encrypted, iv), w) =>
      fst (decryptData crypto encrypted iv (js "hunter22") (Some salt1) w)
  | (Throw e, _) => Throw e
  end.

(** The ciphertext and nonce [encryptData] returns for a plaintext, at
    time 1500, with the password "hunter22" and the salt [salt1]. *)
Definition sealed (plaintext : JSString) : JSString * JSString :=
  match fst (encryptData crypto (envAt 1500) plaintext (js "hunter22")
               (Some salt1) world1) with
  | Ok ei => ei
  | Throw _ => ([], [])
  end.

End Sample.

(* ===================================================================== *)
(** * Further parts of the sources                                       *)
(* ===================================================================== *)

(** ** AuthContext.jsx: the derived values of the context (lines 485-486) *)

(** [hasApiKey: !!authState.authData?.encryptedApiKey] *)
Definition hasApiKey (w : World) : bool :=
  truthy_string (encryptedApiKey (spread (authData (authState w)))).

(** The truthiness of [needsApiKeyUnlock: authState.isAuthenticated &&
    authState.authData?.encryptedApiKey && !decryptedApiKey]. *)
Definition needsApiKeyUnlock (w : World) : bool :=
  isAuthenticated (authState w)
  && truthy_string (encryptedApiKey (spread (authData (authState w))))
  && negb (truthy_string (decryptedApiKey w)).

(** ** db.js: [getDefaultCalorieTarget] *)

(** [auth?.targetCalories || 2000] *)
Definition getDefaultCalorieTarget : M Z :=
  a <- getAuthData ;;
  ret (if truthy_number (targetCalories (spread a))
       then ToNumber (targetCalories (spread a))
       else 2000).

(** ** The ways a call changes the stored record *)

(** The changes of single fields that the functions of the context make
    to the record of [db.auth], as a relation between the record before
    and after. *)
Inductive FieldChange : option AuthRecord -> option AuthRecord -> Prop :=
| fc_same a : FieldChange a a
| fc_failed r :
    orZero (failedAttempts r) + 1 < MAX_FAILED_ATTEMPTS ->
    FieldChange (Some r)
      (Some (with_failedAttempts (Some (orZero (failedAttempts r) + 1)) r))
| fc_lockout r t :
    MAX_FAILED_ATTEMPTS <= orZero (failedAttempts r) + 1 ->
    FieldChange (Some r)
      (Some (with_failedAttempts (Some 0) (with_lockoutUntil (Some t) r)))
| fc_success r :
    FieldChange (Some r)
      (Some (with_failedAttempts (Some 0) (with_lockoutUntil None r)))
| fc_enable r c :
    FieldChange (Some r) (Some (with_biometric (Some true) (Some c) r))
| fc_disable a :
    FieldChange a (Some (with_biometric (Some false) None (spread a)))
| fc_secret r k iv :
    FieldChange (Some r) (Some (with_apiKey (Some k) (Some iv) r)).

(** Every change: of fields, a new record, or no record. *)
Inductive RecordChange : option AuthRecord -> option AuthRecord -> Prop :=
| rc_fields a a' : FieldChange a a' -> RecordChange a a'
| rc_setup a wc env password target :
    RecordChange a (Some (setupRecord wc env password target))
| rc_wipe a : RecordChange a None.

(** Properties of a stored record ([None]: no record). *)
Definition attemptsInRange (a : option AuthRecord) : Prop :=
  0 <= orZero (failedAttempts (spread a)) < MAX_FAILED_ATTEMPTS.

Definition secretPaired (a : option AuthRecord) : Prop :=
  encryptedApiKey (spread a) = None <-> apiKeyIV (spread a) = None.

Definition biometricPaired (a : option AuthRecord) : Prop :=
  truthy_bool (biometricEnabled (spread a)) = true
  <-> biometricCredentialId (spread a) <> None.

(** The fields no function changes once the record is made. *)
Definition sameCredentials (a a' : option AuthRecord) : Prop :=
  passwordHash (spread a') = passwordHash (spread a) /\
  salt (spread a') = salt (spread a) /\
  createdAt (spread a') = createdAt (spread a) /\
  targetCalories (spread a') = targetCalories (spread a).

(** The calls that replace or remove the stored credentials. *)
Definition replacesCredentials (step : Env * Action) : bool :=
  match snd step with
  | SetupAccount _ _ | DeleteAll _ => true
  | _ => false
  end.

(** AES-GCM appends its tag to the ciphertext: no ciphertext is empty. *)
Definition AES_GCM_tagged (wc : WebCrypto) : Prop :=
  forall key iv plaintext, AES_GCM_encrypt wc key iv plaintext <> [].

(** The key [deriveKey] gives for encryption, and the ciphertext and
    nonce texts [encryptData] returns under a salt that decodes to
    [saltBytes]. *)
Definition encryptionKey (wc : WebCrypto) (password : JSString)
    (saltBytes : Uint8Array) : Uint8Array :=
  PBKDF2 wc (Encoding.TextEncoder_encode password) saltBytes
    PBKDF2_ITERATIONS 256.

Definition ciphertextOf (wc : WebCrypto) (env : Env)
    (plaintext password : JSString) (saltBytes : Uint8Array) : JSString :=
  Base64.encode
    (asUint8Array
       (AES_GCM_encrypt wc (encryptionKey wc password saltBytes)
          (generateIV env) (Encoding.TextEncoder_encode plaintext))).

Definition nonceOf (env : Env) : JSString :=
  Base64.encode (asUint8Array (generateIV env)).

(** [isBiometricAvailable()] as a value. *)
Definition biometricAvailable (env : Env) : bool :=
  if negb (isWebAuthnSupported env) then false
  else match platformAuthenticator env with
       | Ok available => available
       | Throw _ => false
       end.

(** Two records agree outside the named fields. *)
Definition sameExceptSecret (r r' : AuthRecord) : Prop :=
  passwordHash r' = passwordHash r /\ salt r' = salt r /\
  biometricEnabled r' = biometricEnabled r /\
  biometricCredentialId r' = biometricCredentialId r /\
  failedAttempts r' = failedAttempts r /\ lockoutUntil r' = lockoutUntil r /\
  createdAt r' = createdAt r /\ targetCalories r' = targetCalories r.

Definition sameExceptBiometric (r r' : AuthRecord) : Prop :=
  passwordHash r' = passwordHash r /\ salt r' = salt r /\
  encryptedApiKey r' = encryptedApiKey r /\ apiKeyIV r' = apiKeyIV r /\
  failedAttempts r' = failedAttempts r /\ lockoutUntil r' = lockoutUntil r /\
  createdAt r' = createdAt r /\ targetCalories r' = targetCalories r.

Definition sameExceptAttempts (r r' : AuthRecord) : Prop :=
  passwordHash r' = passwordHash r /\ salt r' = salt r /\
  encryptedApiKey r' = encryptedApiKey r /\ apiKeyIV r' = apiKeyIV r /\
  biometricEnabled r' = biometricEnabled r /\
  biometricCredentialId r' = biometricCredentialId r /\
  createdAt r' = createdAt r /\ targetCalories r' = targetCalories r.

(** The runs of [resetSessionTimeout] that the listeners of the activity
    effect make, one for each reading of the platform, and the expiry in
    [sessionStorage] after them when the state is authenticated and the
    expiry before them is [first]. *)
Definition activityRuns (activity : list Env) : list (Env * Action) :=
  map (fun env => (env, ResetSessionTimeout)) activity.

Definition sessionExpiry (first : Z) (activity : list Env) : Z :=
  fold_left (fun _ env => Date_now env 90 + SESSION_TIMEOUT) activity first.

(** The provider says "authenticated" only while [sessionStorage] holds a
    session. *)
Definition sessionBacked (w : World) : Prop :=
  isAuthenticated (authState w) = true -> session w <> None.

(* ===================================================================== *)
(** * The screens that call the context                                  *)
(* ===================================================================== *)

(** [result.error || fallback]: the text of the outcome's message, or
    the fallback when there is none or it is empty. *)
Definition errorOr (message_of : Exn -> string) (result : Outcome)
    (fallback : string) : string :=
  match error result with
  | Some m =>
      match render message_of m with
      | EmptyString => fallback
      | text => text
      end
  | None => fallback
  end.

(** The [error] property of an outcome. *)
Definition resultError (result : Outcome) : option Message := error result.

(** ** src/components/SetupScreen.jsx *)

Module SetupScreen.

Inductive Step : Type := password_step | biometric_step | complete_step.

(** The [useState] cells of the component. *)
Record State := mkState {
  step : Step;
  password : JSString;
  confirmPassword : JSString;
  targetCalories : Z;
  error : string;
  loading : bool;
  biometricAvailable : bool
}.

Definition setStep (v : Step) (s : State) : State :=
  mkState v (password s) (confirmPassword s) (targetCalories s) (error s)
    (loading s) (biometricAvailable s).
Definition setError (v : string) (s : State) : State :=
  mkState (step s) (password s) (confirmPassword s) (targetCalories s) v
    (loading s) (biometricAvailable s).
Definition setLoading (v : bool) (s : State) : State :=
  mkState (step s) (password s) (confirmPassword s) (targetCalories s)
    (error s) v (biometricAvailable s).
Definition setBiometricAvailable (v : bool) (s : State) : State :=
  mkState (step s) (password s) (confirmPassword s) (targetCalories s)
    (error s) (loading s) v.

(** [validatePassword()], with the state after its [setError]. *)
Definition validatePassword (s : State) : bool * State :=
  if Z.of_nat (List.length (password s)) <? 6 then
    (false, setError "Password must be at least 6 characters" s)
  else if negb (list_eqb (password s) (confirmPassword s)) then
    (false, setError "Passwords do not match" s)
  else (true, s).

(** [handleCreateAccount()] *)
Definition handleCreateAccount (wc : WebCrypto) (env : Env)
    (message_of : Exn -> string) (s : State) : M State :=
  let s := setError EmptyString s in
  match validatePassword s with
  | (false, s) => ret s
  | (true, s) =>
      let s := setLoading true s in
      result <- setupAccount wc env (password s) (Some (targetCalories s)) ;;
      let s := setLoading false s in
      if success result then
        bioAvailable <- checkBiometricAvailable env ;;
        let s := setBiometricAvailable bioAvailable s in
        if bioAvailable then ret (setStep biometric_step s)
        else ret (setStep complete_step s)
      else
        ret (setError (errorOr message_of result "Failed to create account")
               s)
  end.

End SetupScreen.

(** ** src/components/LoginScreen.jsx *)

Module LoginScreen.

Record State := mkState {
  password : JSString;
  error : option string;
  loading : bool;
  lockoutRemaining : Z
}.

Definition setPassword (v : JSString) (s : State) : State :=
  mkState v (error s) (loading s) (lockoutRemaining s).
Definition setError (v : option string) (s : State) : State :=
  mkState (password s) v (loading s) (lockoutRemaining s).
Definition setLoading (v : bool) (s : State) : State :=
  mkState (password s) (error s) v (lockoutRemaining s).
Definition setLockoutRemaining (v : Z) (s : State) : State :=
  mkState (password s) (error s) (loading s) v.

(** [handlePasswordLogin(e)] *)
Definition handlePasswordLogin (wc : WebCrypto) (env : Env)
    (message_of : Exn -> string) (s : State) : M State :=
  if negb (truthy_string (Some (password s))) || (0 <? lockoutRemaining s)
  then ret s
  else
    let s := setError (Some EmptyString) s in
    let s := setLoading true s in
    result <- loginWithPassword wc env (password s) ;;
    let s := setLoading false s in
    if negb (success result) then
      let s := setError (option_map (render message_of) (resultError result)) s in
      let s := if truthy_bool (locked result)
               then setLockoutRemaining 30 s else s in
      ret (setPassword [] s)
    else ret s.

(** [handleBiometricLogin()] *)
Definition handleBiometricLogin (env : Env) (message_of : Exn -> string)
    (s : State) : M State :=
  let s := setError (Some EmptyString) s in
  let s := setLoading true s in
  result <- loginWithBiometric env ;;
  let s := setLoading false s in
  if negb (success result) then
    ret (setError
           (Some (errorOr message_of result
                    "Biometric authentication failed")) s)
  else ret s.

End LoginScreen.

(** ** Sequences of calls to evaluate the model on *)

Module Scenario.

(** A first day: setup, a mistyped password, a secret saved, biometrics
    enabled, the application locked and the page loaded again. *)
Definition afterSetup : list (Env * Action) :=
  [ (Sample.envAt 2000, LoginWithPassword (js "wrong"));
    (Sample.envAt 2100, SaveApiKey (js "sk-abc123") (Some (js "hunter22")));
    (Sample.envAt 2200, EnableBiometric);
    (Sample.envAt 2300, Lock);
    (Sample.envAt 2400, PageLoad);
    (Sample.envAt 2500, LoginWithBiometric);
    (Sample.envAt 2600, UnlockApiKey (js "hunter22")) ].

Definition firstDay : list (Env * Action) :=
  (Sample.envAt 1000, SetupAccount (js "hunter22") None) :: afterSetup.

(** A record whose salt is a text that is not valid base64, and a world
    holding it. *)
Definition damagedRecord : AuthRecord :=
  mkAuthRecord (Some (js "aGFzaA==")) (Some (js "c2Fs*A==")) None None
    (Some false) None (Some 0) None (Some 0) (Some 2000).

Definition damagedWorld : World :=
  mkWorld (mkDatabase (Some damagedRecord) [] []) None
          (mkAuthState false false false (Some damagedRecord)) None None
          [] [].

End Scenario.
(* ===================================================================== *)
(** * Properties                                                         *)
(* ===================================================================== *)

Unset Implicit Arguments.

(** ** Auxiliary facts *)

Lemma list_eqb_spec (a b : list Z) : list_eqb a b = true <-> a = b.
Proof.
  revert b; induction a as [|x a IH]; intros [|y b]; simpl;
    try (split; congruence).
  rewrite andb_true_iff, Z.eqb_eq, IH. split.
  - intros [-> ->]; reflexivity.
  - intros E; injection E; auto.
Qed.

Lemma list_eqb_refl (a : list Z) : list_eqb a a = true.
Proof. apply list_eqb_spec; reflexivity. Qed.

Lemma asUint8Array_bytes (l : list Z) :
  forallb (fun c => inRange 0 c 255) (asUint8Array l) = true.
Proof.
  induction l as [|x l IH]; simpl; [reflexivity|].
  rewrite IH, andb_true_r. unfold inRange.
  pose proof (Z.mod_pos_bound x 256 ltac:(lia)).
  apply andb_true_iff; split; apply Z.leb_le; lia.
Qed.

Lemma bufferToBase64_total (b : Uint8Array) :
  bufferToBase64 b = Ok (Base64.encode (asUint8Array b)).
Proof.
  unfold bufferToBase64, Base64.btoa. now rewrite asUint8Array_bytes.
Qed.

Lemma Math_ceil_div_spec (a b : Z) :
  0 < b -> b * (Math_ceil_div a b - 1) < a <= b * Math_ceil_div a b.
Proof.
  intros Hb. unfold Math_ceil_div.
  pose proof (Z.div_mod (- a) b ltac:(lia)).
  pose proof (Z.mod_pos_bound (- a) b Hb). nia.
Qed.

(** ** The text codecs *)

Module EncodingFacts.
Import Encoding.

Lemma lor_shiftl_add (a y n : Z) :
  0 <= n -> 0 <= y < 2 ^ n -> Z.lor (Z.shiftl a n) y = a * 2 ^ n + y.
Proof.
  intros Hn Hy.
  assert (D : Z.land (Z.shiftl a n) y = 0).
  { apply Z.bits_inj'. intros i Hi. rewrite Z.land_spec, Z.bits_0.
    destruct (Z.lt_ge_cases i n) as [Hlt | Hge].
    - rewrite Z.shiftl_spec_low by assumption. reflexivity.
    - assert (B : Z.testbit y i = false).
      { destruct (Z.eq_dec y 0) as [-> | Hy0]; [apply Z.bits_0|].
        apply Z.bits_above_log2; [apply Hy|].
        apply Z.log2_lt_pow2; [destruct Hy; lia|].
        apply Z.lt_le_trans with (2 ^ n); [apply Hy|].
        apply Z.pow_le_mono_r; lia. }
      rewrite B. apply andb_false_r. }
  rewrite <- Z.shiftl_mul_pow2 by assumption.
  rewrite <- Z.lxor_lor by assumption.
  symmetry. apply Z.add_nocarry_lxor. assumption.
Qed.

Lemma lor_0x80 (y : Z) : 0 <= y < 64 -> Z.lor 0x80 y = 128 + y.
Proof.
  intros Hy. change 0x80 with (Z.shiftl 1 7).
  rewrite lor_shiftl_add; [reflexivity | lia | change (2 ^ 7) with 128; lia].
Qed.

Lemma lor_shiftl6 (c y : Z) :
  0 <= y < 64 -> Z.lor (Z.shiftl c 6) y = c * 64 + y.
Proof.
  intros Hy.
  rewrite lor_shiftl_add; [reflexivity | lia | change (2 ^ 6) with 64; lia].
Qed.

Lemma land_0x3F (x : Z) : Z.land x 0x3F = x mod 64.
Proof. change 0x3F with (Z.ones 6). apply Z.land_ones. lia. Qed.

Lemma land_0x1F (x : Z) : Z.land x 0x1F = x mod 32.
Proof. change 0x1F with (Z.ones 5). apply Z.land_ones. lia. Qed.

Lemma land_0xF (x : Z) : Z.land x 0xF = x mod 16.
Proof. change 0xF with (Z.ones 4). apply Z.land_ones. lia. Qed.

Lemma land_0x7 (x : Z) : Z.land x 0x7 = x mod 8.
Proof. change 0x7 with (Z.ones 3). apply Z.land_ones. lia. Qed.

Lemma land_0x3FF (x : Z) : Z.land x 0x3FF = x mod 1024.
Proof. change 0x3FF with (Z.ones 10). apply Z.land_ones. lia. Qed.

Lemma shiftr_6 (x : Z) : Z.shiftr x 6 = x / 64.
Proof. apply Z.shiftr_div_pow2. lia. Qed.

Lemma shiftr_12 (x : Z) : Z.shiftr x 12 = x / 4096.
Proof. apply Z.shiftr_div_pow2. lia. Qed.

Lemma shiftr_18 (x : Z) : Z.shiftr x 18 = x / 262144.
Proof. apply Z.shiftr_div_pow2. lia. Qed.

Lemma shiftr_10 (x : Z) : Z.shiftr x 10 = x / 1024.
Proof. apply Z.shiftr_div_pow2. lia. Qed.

Lemma shiftl_10 (x : Z) : Z.shiftl x 10 = x * 1024.
Proof. apply Z.shiftl_mul_pow2. lia. Qed.

(** The bytes of a scalar value, in arithmetic. *)
Lemma utf8_encode1_arith (cp : Z) :
  utf8_encode1 cp =
  if cp <? 0x80 then [cp]
  else if cp <? 0x800 then [cp / 64 + 192; 128 + cp mod 64]
  else if cp <? 0x10000 then
    [cp / 4096 + 224; 128 + (cp / 64) mod 64; 128 + cp mod 64]
  else [cp / 262144 + 240; 128 + (cp / 4096) mod 64;
        128 + (cp / 64) mod 64; 128 + cp mod 64].
Proof.
  unfold utf8_encode1.
  rewrite !land_0x3F, shiftr_6, shiftr_12, shiftr_18.
  rewrite !lor_0x80 by (apply Z.mod_pos_bound; lia).
  reflexivity.
Qed.

(** Deciding the comparisons of a goal by linear arithmetic. *)
Ltac arith := Z.div_mod_to_equations; lia.

Ltac decide_tests :=
  repeat match goal with
    | |- context [?a <=? ?b] =>
        first [ replace (a <=? b) with true
                  by (symmetry; apply Z.leb_le; arith)
              | replace (a <=? b) with false
                  by (symmetry; apply Z.leb_gt; arith) ]
    | |- context [?a <? ?b] =>
        first [ replace (a <? b) with true
                  by (symmetry; apply Z.ltb_lt; arith)
              | replace (a <? b) with false
                  by (symmetry; apply Z.ltb_ge; arith) ]
    | |- context [?a =? ?b] =>
        first [ replace (a =? b) with true
                  by (symmetry; apply Z.eqb_eq; arith)
              | replace (a =? b) with false
                  by (symmetry; apply Z.eqb_neq; arith) ]
    end.

Lemma lead_1 (b : Z) : 0 <= b <= 0x7F -> lead b = (decoder0, [b]).
Proof. intros H. unfold lead, inRange. decide_tests. reflexivity. Qed.

Lemma lead_2 (b : Z) :
  0xC2 <= b <= 0xDF -> lead b = (mkDecoder (b mod 32) 0 1 0x80 0xBF, []).
Proof.
  intros H. unfold lead, inRange. rewrite land_0x1F.
  decide_tests. reflexivity.
Qed.

Lemma lead_3 (b : Z) :
  0xE0 <= b <= 0xEF ->
  lead b = (mkDecoder (b mod 16) 0 2
              (if b =? 0xE0 then 0xA0 else 0x80)
              (if b =? 0xED then 0x9F else 0xBF), []).
Proof.
  intros H. unfold lead, inRange. rewrite land_0xF.
  replace (0 <=? b) with true by (symmetry; apply Z.leb_le; lia).
  replace (b <=? 127) with false by (symmetry; apply Z.leb_gt; lia).
  replace (194 <=? b) with true by (symmetry; apply Z.leb_le; lia).
  replace (b <=? 223) with false by (symmetry; apply Z.leb_gt; lia).
  replace (224 <=? b) with true by (symmetry; apply Z.leb_le; lia).
  replace (b <=? 239) with true by (symmetry; apply Z.leb_le; lia).
  reflexivity.
Qed.

Lemma lead_4 (b : Z) :
  0xF0 <= b <= 0xF4 ->
  lead b = (mkDecoder (b mod 8) 0 3
              (if b =? 0xF0 then 0x90 else 0x80)
              (if b =? 0xF4 then 0x8F else 0xBF), []).
Proof.
  intros H. unfold lead, inRange. rewrite land_0x7.
  replace (0 <=? b) with true by (symmetry; apply Z.leb_le; lia).
  replace (b <=? 127) with false by (symmetry; apply Z.leb_gt; lia).
  replace (194 <=? b) with true by (symmetry; apply Z.leb_le; lia).
  replace (b <=? 223) with false by (symmetry; apply Z.leb_gt; lia).
  replace (224 <=? b) with true by (symmetry; apply Z.leb_le; lia).
  replace (b <=? 239) with false by (symmetry; apply Z.leb_gt; lia).
  replace (240 <=? b) with true by (symmetry; apply Z.leb_le; lia).
  replace (b <=? 244) with true by (symmetry; apply Z.leb_le; lia).
  reflexivity.
Qed.

Lemma handler_continue (c seen needed lo hi b : Z) :
  needed <> 0 -> lo <= b <= hi ->
  handler (mkDecoder c seen needed lo hi) b =
  if seen + 1 =? needed then (decoder0, [c * 64 + b mod 64])
  else (mkDecoder (c * 64 + b mod 64) (seen + 1) needed 0x80 0xBF, []).
Proof.
  intros Hn Hb. unfold handler, inRange.
  cbn [bytes_needed lower_boundary upper_boundary code_point bytes_seen].
  replace (needed =? 0) with false by (symmetry; apply Z.eqb_neq; lia).
  replace (lo <=? b) with true by (symmetry; apply Z.leb_le; lia).
  replace (b <=? hi) with true by (symmetry; apply Z.leb_le; lia).
  cbn [andb negb]. rewrite land_0x3F.
  rewrite lor_shiftl6 by (apply Z.mod_pos_bound; lia).
  reflexivity.
Qed.

Lemma utf8_run_cons (d : Decoder) (b : Z) (bs : Uint8Array) :
  utf8_run d (b :: bs)
  = snd (handler d b) ++ utf8_run (fst (handler d b)) bs.
Proof. cbn [utf8_run]. destruct (handler d b); reflexivity. Qed.

Lemma handler_lead (b : Z) : handler decoder0 b = lead b.
Proof. reflexivity. Qed.

Lemma isScalar_spec (cp : Z) :
  isScalar cp = true <->
  (0 <= cp < 0xD800 \/ 0xE000 <= cp < 0x110000).
Proof.
  unfold isScalar, isSurrogate.
  rewrite !andb_true_iff, negb_true_iff, andb_false_iff.
  rewrite !Z.leb_le, Z.ltb_lt, !Z.leb_gt. lia.
Qed.

(** Decoding the bytes of one scalar value gives it back and leaves the
    decoder in its initial state. *)
Lemma utf8_run_encode1 (cp : Z) (rest : Uint8Array) :
  isScalar cp = true ->
  utf8_run decoder0 (utf8_encode1 cp ++ rest) = cp :: utf8_run decoder0 rest.
Proof.
  intros H. apply isScalar_spec in H. rewrite utf8_encode1_arith.
  destruct (Z.ltb_spec cp 0x80) as [H1|H1].
  { cbn [app]. rewrite utf8_run_cons, handler_lead, lead_1 by lia.
    reflexivity. }
  destruct (Z.ltb_spec cp 0x800) as [H2|H2].
  { cbn [app]. rewrite utf8_run_cons, handler_lead, lead_2 by arith.
    cbn [fst snd app].
    rewrite utf8_run_cons, handler_continue by arith.
    decide_tests. cbn [fst snd app]. f_equal. arith. }
  destruct (Z.ltb_spec cp 0x10000) as [H3|H3].
  { cbn [app]. rewrite utf8_run_cons, handler_lead, lead_3 by arith.
    cbn [fst snd app].
    rewrite utf8_run_cons, handler_continue.
    2: lia.
    2:{ destruct (Z.eqb_spec (cp / 4096 + 224) 224);
        destruct (Z.eqb_spec (cp / 4096 + 224) 237); arith. }
    decide_tests. cbn [fst snd app].
    rewrite utf8_run_cons, handler_continue by arith.
    decide_tests. cbn [fst snd app]. f_equal. arith. }
  cbn [app]. rewrite utf8_run_cons, handler_lead, lead_4 by arith.
  cbn [fst snd app].
  rewrite utf8_run_cons, handler_continue.
  2: lia.
  2:{ destruct (Z.eqb_spec (cp / 262144 + 240) 240);
      destruct (Z.eqb_spec (cp / 262144 + 240) 244); arith. }
  decide_tests. cbn [fst snd app].
  rewrite utf8_run_cons, handler_continue by arith.
  decide_tests. cbn [fst snd app].
  rewrite utf8_run_cons, handler_continue by arith.
  decide_tests. cbn [fst snd app]. f_equal. arith.
Qed.

Lemma utf8_decode_encode (l : list Z) :
  forallb isScalar l = true -> utf8_decode (utf8_encode l) = l.
Proof.
  unfold utf8_decode, utf8_encode.
  induction l as [|cp l IH]; intros H; [reflexivity|].
  cbn [forallb] in H. apply andb_true_iff in H as [Hcp Hl].
  cbn [flat_map]. rewrite utf8_run_encode1 by assumption.
  rewrite IH by assumption. reflexivity.
Qed.

Lemma surrogate_pair_scalar (c d : Z) :
  isHighSurrogate c = true -> isLowSurrogate d = true ->
  let cp := 0x10000 + Z.shiftl (c - 0xD800) 10 + (d - 0xDC00) in
  isScalar cp = true /\ fromScalar cp = [c; d] /\ (cp =? BOM) = false.
Proof.
  unfold isHighSurrogate, isLowSurrogate. rewrite !andb_true_iff, !Z.leb_le.
  intros [Hc1 Hc2] [Hd1 Hd2]. cbv zeta. rewrite shiftl_10.
  split; [apply isScalar_spec; lia|]. split.
  - unfold fromScalar. rewrite shiftr_10, land_0x3FF.
    decide_tests. f_equal; [arith|]. f_equal. arith.
  - apply Z.eqb_neq. unfold BOM. lia.
Qed.

Lemma lone_unit_scalar (c : Z) :
  isHighSurrogate c = false -> isLowSurrogate c = false ->
  inRange 0 c 0xFFFF = true ->
  isScalar c = true /\ fromScalar c = [c].
Proof.
  unfold isHighSurrogate, isLowSurrogate, inRange.
  rewrite !andb_false_iff, andb_true_iff, !Z.leb_le, !Z.leb_gt.
  intros Hh Hl Hr. split; [apply isScalar_spec; lia|].
  unfold fromScalar. decide_tests. reflexivity.
Qed.

(** A well-formed string is a sequence of scalar values, and is recovered
    from them. *)
Lemma toScalars_wellFormed (s : JSString) :
  wellFormed s = true ->
  forallb isScalar (toScalars s) = true /\
  fromScalars (toScalars s) = s /\
  (startsWithBOM s = false -> stripBOM (toScalars s) = toScalars s).
Proof.
  remember (List.length s) as n eqn:Hn.
  assert (Hle : (List.length s <= n)%nat) by lia. clear Hn.
  revert s Hle. induction n as [|n IH]; intros s Hle Hwf.
  - destruct s; [|cbn in Hle; lia]. repeat split; reflexivity.
  - destruct s as [|c rest]; [repeat split; reflexivity|].
    cbn [wellFormed toScalars] in *.
    destruct (isHighSurrogate c) eqn:Hh.
    + destruct rest as [|d rest']; [discriminate|].
      apply andb_true_iff in Hwf as [Hd Hwf]. rewrite Hd.
      destruct (surrogate_pair_scalar c d Hh Hd) as (S1 & S2 & S3).
      cbv zeta in S1, S2, S3.
      destruct (IH rest' ltac:(cbn in Hle; lia) Hwf) as (I1 & I2 & _).
      split; [|split].
      * cbn [forallb]. rewrite S1, I1. reflexivity.
      * unfold fromScalars in *. cbn [flat_map]. rewrite S2, I2. reflexivity.
      * intros _. unfold stripBOM. rewrite S3. reflexivity.
    + apply andb_true_iff in Hwf as [Hwf Hrest].
      apply andb_true_iff in Hwf as [Hl Hr].
      apply negb_true_iff in Hl. rewrite Hl.
      destruct (lone_unit_scalar c Hh Hl Hr) as (S1 & S2).
      destruct (IH rest ltac:(cbn in Hle; lia) Hrest) as (I1 & I2 & _).
      split; [|split].
      * cbn [forallb]. rewrite S1, I1. reflexivity.
      * unfold fromScalars in *. cbn [flat_map]. rewrite S2, I2. reflexivity.
      * cbn [startsWithBOM]. intros Hb. unfold stripBOM. rewrite Hb.
        reflexivity.
Qed.

(** Decoding the encoding of a well-formed string that does not begin
    with U+FEFF gives the string back. *)
Lemma TextDecoder_TextEncoder (s : JSString) :
  wellFormed s = true -> startsWithBOM s = false ->
  TextDecoder_decode (TextEncoder_encode s) = s.
Proof.
  intros Hwf Hb. destruct (toScalars_wellFormed s Hwf) as (H1 & H2 & H3).
  unfold TextDecoder_decode, TextEncoder_encode.
  rewrite utf8_decode_encode by assumption.
  rewrite H3 by assumption. exact H2.
Qed.

Lemma utf8_encode1_bytes (cp : Z) :
  isScalar cp = true ->
  forallb (fun b => inRange 0 b 255) (utf8_encode1 cp) = true.
Proof.
  intros H. apply isScalar_spec in H. rewrite utf8_encode1_arith.
  unfold inRange.
  destruct (Z.ltb_spec cp 0x80); [cbn [forallb]; decide_tests; reflexivity|].
  destruct (Z.ltb_spec cp 0x800); [cbn [forallb]; decide_tests; reflexivity|].
  destruct (Z.ltb_spec cp 0x10000); cbn [forallb]; decide_tests; reflexivity.
Qed.

Lemma TextEncoder_bytes (s : JSString) :
  wellFormed s = true ->
  forallb (fun b => inRange 0 b 255) (TextEncoder_encode s) = true.
Proof.
  intros Hwf. destruct (toScalars_wellFormed s Hwf) as (H1 & _).
  unfold TextEncoder_encode, utf8_encode.
  induction (toScalars s) as [|cp l IH]; [reflexivity|].
  cbn [forallb] in H1. apply andb_true_iff in H1 as [Hcp Hl].
  cbn [flat_map]. rewrite forallb_app, utf8_encode1_bytes, IH by assumption.
  reflexivity.
Qed.

End EncodingFacts.

(** ** Base64 *)

Module Base64Facts.
Import Base64.

Lemma list_ind3 (P : list Z -> Prop) :
  P [] -> (forall a, P [a]) -> (forall a b, P [a; b]) ->
  (forall a b c rest, P rest -> P (a :: b :: c :: rest)) ->
  forall l, P l.
Proof.
  intros H0 H1 H2 H3 l.
  remember (List.length l) as n eqn:Hn.
  assert (Hle : (List.length l <= n)%nat) by lia. clear Hn.
  revert l Hle. induction n as [|n IH]; intros l Hle.
  - destruct l; [exact H0 | cbn in Hle; lia].
  - destruct l as [|a [|b [|c rest]]]; auto.
    apply H3, IH. cbn in Hle. lia.
Qed.

Lemma alphabet_char_facts (n : Z) :
  sextet n ->
  alphabet_index (alphabet_char n) = Some n /\
  isAsciiWhitespace (alphabet_char n) = false /\
  (alphabet_char n =? PAD) = false.
Proof.
  unfold sextet, alphabet_index, alphabet_char, isAsciiWhitespace, inRange,
    PAD.
  intros H.
  assert (C : n < 26 \/ 26 <= n < 52 \/ 52 <= n < 62 \/ n = 62 \/ n = 63)
    by lia.
  destruct C as [C | [C | [C | [-> | ->]]]];
    try (cbn; repeat split; reflexivity);
    EncodingFacts.decide_tests; cbn [andb orb];
    (split; [f_equal; lia | split; reflexivity]).
Qed.

Lemma groups_sextets (bs : list Z) :
  Forall is_byte bs -> Forall sextet (groups bs).
Proof.
  induction bs as [|a|a b|a b c rest IH] using list_ind3; intros H;
    cbn [groups];
    repeat match goal with
           | H : Forall _ (_ :: _) |- _ => inversion H; clear H; subst
           end;
    unfold is_byte, sextet in *;
    repeat (apply Forall_cons; [EncodingFacts.arith|]);
    auto.
Qed.

Lemma encode_groups (bs : list Z) :
  encode bs = map alphabet_char (groups bs) ++ padding bs.
Proof.
  induction bs as [|a|a b|a b c rest IH] using list_ind3;
    cbn [encode groups padding map app]; try reflexivity.
  rewrite IH. reflexivity.
Qed.

Lemma decode_groups (bs : list Z) :
  Forall is_byte bs -> decode (groups bs) = bs.
Proof.
  induction bs as [|a|a b|a b c rest IH] using list_ind3; intros H;
    cbn [groups decode];
    repeat match goal with
           | H : Forall _ (_ :: _) |- _ => inversion H; clear H; subst
           end;
    unfold is_byte in *.
  - reflexivity.
  - f_equal. EncodingFacts.arith.
  - f_equal; [EncodingFacts.arith|]. f_equal. EncodingFacts.arith.
  - rewrite IH by assumption.
    f_equal; [EncodingFacts.arith|].
    f_equal; [EncodingFacts.arith|].
    f_equal. EncodingFacts.arith.
Qed.

Lemma sextets_chars (l : list Z) :
  Forall sextet l -> sextets (map alphabet_char l) = Some l.
Proof.
  induction 1 as [|n l Hn Hl IH]; [reflexivity|].
  cbn [map sextets].
  destruct (alphabet_char_facts n Hn) as (-> & _). rewrite IH. reflexivity.
Qed.

Lemma filter_chars (l : list Z) (pad : JSString) :
  Forall sextet l -> Forall (fun c => c = PAD) pad ->
  filter (fun c => negb (isAsciiWhitespace c)) (map alphabet_char l ++ pad)
  = map alphabet_char l ++ pad.
Proof.
  intros Hl Hp. apply forallb_filter_id. rewrite forallb_app.
  apply andb_true_iff; split; apply forallb_forall; intros c Hc.
  - apply in_map_iff in Hc as (n & <- & Hn).
    rewrite Forall_forall in Hl.
    destruct (alphabet_char_facts n (Hl n Hn)) as (_ & -> & _). reflexivity.
  - rewrite Forall_forall in Hp. rewrite (Hp c Hc). reflexivity.
Qed.

Lemma padding_cases (bs : list Z) :
  padding bs = [] \/ padding bs = [PAD] \/ padding bs = [PAD; PAD].
Proof.
  induction bs as [|a|a b|a b c rest IH] using list_ind3; cbn [padding]; auto.
Qed.

Lemma rev_chars (l : list Z) :
  Forall sextet l ->
  rev (map alphabet_char l) = [] \/
  exists c r, rev (map alphabet_char l) = c :: r /\ (c =? PAD) = false.
Proof.
  intros H. rewrite <- map_rev. apply Forall_rev in H.
  destruct (rev l) as [|n r]; [left; reflexivity|]. right.
  inversion H; subst. exists (alphabet_char n), (map alphabet_char r).
  split; [reflexivity|]. apply alphabet_char_facts. assumption.
Qed.

Lemma stripPadding_encode (bs : list Z) :
  Forall is_byte bs ->
  stripPadding (encode bs) = map alphabet_char (groups bs).
Proof.
  intros H. rewrite encode_groups.
  pose proof (rev_chars (groups bs) (groups_sextets bs H)) as R.
  unfold stripPadding. rewrite rev_app_distr.
  destruct (padding_cases bs) as [-> | [-> | ->]]; cbn [rev app].
  - rewrite app_nil_r.
    destruct R as [R | (c & r & R & Hc)]; rewrite R; [reflexivity|].
    rewrite Hc. reflexivity.
  - change (PAD =? PAD) with true. cbv iota.
    destruct R as [R | (c & r & R & Hc)]; rewrite R.
    + rewrite <- R, rev_involutive. reflexivity.
    + rewrite Hc, <- R, rev_involutive. reflexivity.
  - change (PAD =? PAD) with true. cbv iota.
    rewrite rev_involutive. reflexivity.
Qed.

Lemma encode_length (bs : list Z) :
  Z.of_nat (List.length (encode bs)) mod 4 = 0.
Proof.
  induction bs as [|a|a b|a b c rest IH] using list_ind3;
    try reflexivity.
  cbn [encode List.length]. rewrite !Nat2Z.inj_succ.
  EncodingFacts.arith.
Qed.

Lemma groups_length (bs : list Z) :
  Z.of_nat (List.length (groups bs)) mod 4 <> 1.
Proof.
  induction bs as [|a|a b|a b c rest IH] using list_ind3;
    try (cbn; discriminate).
  cbn [groups List.length]. rewrite !Nat2Z.inj_succ.
  EncodingFacts.arith.
Qed.

(** Decoding an encoding gives the bytes back. *)
Lemma atob_encode (bs : list Z) :
  Forall is_byte bs -> atob (encode bs) = Ok bs.
Proof.
  intros H. unfold atob.
  assert (F : filter (fun c => negb (isAsciiWhitespace c)) (encode bs)
              = encode bs).
  { rewrite encode_groups. apply filter_chars.
    - apply groups_sextets, H.
    - destruct (padding_cases bs) as [-> | [-> | ->]];
        repeat constructor. }
  rewrite F. cbv zeta. rewrite encode_length. cbn [Z.eqb].
  rewrite stripPadding_encode by assumption.
  rewrite length_map.
  destruct (Z.eqb_spec (Z.of_nat (List.length (groups bs)) mod 4) 1) as [E|_];
    [destruct (groups_length bs E)|].
  rewrite sextets_chars by (apply groups_sextets, H).
  rewrite decode_groups by assumption. reflexivity.
Qed.

End Base64Facts.

Lemma asUint8Array_id (bs : list Z) :
  Forall is_byte bs -> asUint8Array bs = bs.
Proof.
  induction 1 as [|b bs Hb Hbs IH]; [reflexivity|].
  cbn [asUint8Array map]. fold (asUint8Array bs). rewrite IH.
  f_equal. apply Z.mod_small. exact Hb.
Qed.

Lemma asUint8Array_is_byte (l : list Z) : Forall is_byte (asUint8Array l).
Proof.
  induction l as [|x l IH]; constructor; [|exact IH].
  unfold is_byte. apply Z.mod_pos_bound. lia.
Qed.

(** [base64ToBuffer] undoes [bufferToBase64]. *)
Lemma base64ToBuffer_encode (bs : list Z) :
  Forall is_byte bs -> base64ToBuffer (Base64.encode bs) = Ok bs.
Proof.
  intros H. unfold base64ToBuffer.
  rewrite Base64Facts.atob_encode by assumption.
  rewrite asUint8Array_id by assumption. reflexivity.
Qed.

(** ** Messages *)

(** The text of line 236 is the template of line 217 at 30 seconds. *)
Example render_lockout (message_of : Exn -> string) :
  render message_of (TooManyAttempts 30)
  = "Too many attempts. Try again in 30 seconds."%string.
Proof. reflexivity. Qed.

Example render_remaining (message_of : Exn -> string) :
  render message_of (InvalidPasswordRemaining 4)
  = "Invalid password. 4 attempts remaining."%string.
Proof. reflexivity. Qed.

(** ** crypto.js: what each function returns and records *)

Lemma hashPassword_run wc env pw sb w :
  hashPassword wc env pw (Some sb) w =
  (Ok (hashOf wc pw sb, Base64.encode (asUint8Array sb)),
   add_derivation (mkDerivation pw sb (js "hash")) w).
Proof.
  unfold hashPassword, bind, deriveKey, lift, ret.
  rewrite !bufferToBase64_total. reflexivity.
Qed.

Lemma verifyPassword_run wc env pw h s w :
  verifyPassword wc env pw h s w =
  match base64ToBuffer (ToString s) with
  | Ok sb =>
      (Ok (match h with
           | Some h' => list_eqb (hashOf wc pw sb) h'
           | None => false
           end),
       add_derivation (mkDerivation pw sb (js "hash")) w)
  | Throw e => (Throw e, w)
  end.
Proof.
  unfold verifyPassword, bind, lift at 1.
  destruct (base64ToBuffer (ToString s)) as [sb|e]; [|reflexivity].
  rewrite hashPassword_run. reflexivity.
Qed.

Lemma verifyPassword_Ok wc env pw h s w b :
  fst (verifyPassword wc env pw h s w) = Ok b ->
  exists sb, base64ToBuffer (ToString s) = Ok sb /\
    forall w', verifyPassword wc env pw h s w'
               = (Ok b, add_derivation (mkDerivation pw sb (js "hash")) w').
Proof.
  rewrite verifyPassword_run.
  destruct (base64ToBuffer (ToString s)) as [sb|e] eqn:E; simpl; [|discriminate].
  intros [= <-]. exists sb; split; [reflexivity|].
  intros w'. rewrite verifyPassword_run, E. reflexivity.
Qed.

Lemma verifyPassword_Throw wc env pw h s w e :
  fst (verifyPassword wc env pw h s w) = Throw e ->
  forall w', verifyPassword wc env pw h s w' = (Throw e, w').
Proof.
  rewrite verifyPassword_run.
  destruct (base64ToBuffer (ToString s)) as [sb|e'] eqn:E; simpl; [discriminate|].
  intros [= <-] w'. rewrite verifyPassword_run, E. reflexivity.
Qed.

(** ** loginWithPassword *)

Lemma loginWithPassword_unfold wc env pw w r :
  auth (db w) = Some r ->
  loginWithPassword wc env pw w =
  if lockoutActive r (Date_now env 215)
  then (Ok (lockedOut (TooManyAttempts
              (Math_ceil_div (ToNumber (lockoutUntil r) - Date_now env 216)
                 1000))), w)
  else loginCatch (evaluateAttempt wc env r pw) w.
Proof.
  intros H. unfold loginWithPassword, loginCatch, try_catch, bind, getAuthData.
  rewrite H. fold (lockoutActive r (Date_now env 215)).
  destruct (lockoutActive r (Date_now env 215)); reflexivity.
Qed.

Lemma evaluateAttempt_wrong wc env r pw w :
  fst (verifyPassword wc env pw (passwordHash r) (salt r) w) = Ok false ->
  exists sb, base64ToBuffer (ToString (salt r)) = Ok sb /\
  let n := orZero (failedAttempts r) + 1 in
  let w1 := add_derivation (mkDerivation pw sb (js "hash")) w in
  evaluateAttempt wc env r pw w =
  if MAX_FAILED_ATTEMPTS <=? n then
    (Ok (if Date_now env 229 + LOCKOUT_DURATION =? 0
         then failed (InvalidPasswordRemaining (MAX_FAILED_ATTEMPTS - n))
         else lockedOut (TooManyAttempts 30)),
     stored (with_failedAttempts (Some 0)
               (with_lockoutUntil
                  (Some (Date_now env 229 + LOCKOUT_DURATION)) r)) w1)
  else
    (Ok (failed (InvalidPasswordRemaining (MAX_FAILED_ATTEMPTS - n))),
     stored (with_failedAttempts (Some n) r) w1).
Proof.
  intros H. destruct (verifyPassword_Ok _ _ _ _ _ _ _ H) as (sb & Hsb & Hrun).
  exists sb; split; [exact Hsb|]. cbv zeta.
  unfold evaluateAttempt, bind. rewrite Hrun. cbn [negb].
  destruct (MAX_FAILED_ATTEMPTS <=? orZero (failedAttempts r) + 1).
  - unfold truthy_number.
    destruct (Date_now env 229 + LOCKOUT_DURATION =? 0); reflexivity.
  - reflexivity.
Qed.

Lemma decryptData_run wc enc iv pw s w :
  decryptData wc enc iv pw s w =
  match base64ToBuffer (ToString s) with
  | Throw e => (Throw e, w)
  | Ok sb =>
      let w' := add_derivation (mkDerivation pw sb (js "encrypt")) w in
      let key := PBKDF2 wc (Encoding.TextEncoder_encode pw) sb
                    PBKDF2_ITERATIONS 256 in
      match base64ToBuffer iv with
      | Throw e => (Throw e, w')
      | Ok ivBuffer =>
          match base64ToBuffer enc with
          | Throw e => (Throw e, w')
          | Ok encryptedBuffer =>
              match AES_GCM_decrypt wc key ivBuffer encryptedBuffer with
              | Some p => (Ok (Encoding.TextDecoder_decode p), w')
              | None => (Throw OperationError, w')
              end
          end
      end
  end.
Proof.
  unfold decryptData, bind, lift, deriveKey.
  destruct (base64ToBuffer (ToString s)) as [sb|e]; [|reflexivity].
  cbv zeta. change (list_eqb (js "encrypt") (js "encrypt")) with true.
  cbv iota. cbn [raw].
  destruct (base64ToBuffer iv) as [ivb|e]; [|reflexivity].
  destruct (base64ToBuffer enc) as [eb|e]; [|reflexivity].
  destruct (AES_GCM_decrypt _ _ _ _); reflexivity.
Qed.

(** The world after the secret has been looked at during a login. *)
Lemma decryptData_world wc enc iv pw s w sb :
  base64ToBuffer (ToString s) = Ok sb ->
  snd (decryptData wc enc iv pw s w)
  = add_derivation (mkDerivation pw sb (js "encrypt")) w.
Proof.
  intros H. rewrite decryptData_run, H. cbv zeta.
  destruct (base64ToBuffer iv); [|reflexivity].
  destruct (base64ToBuffer enc); [|reflexivity].
  destruct (AES_GCM_decrypt _ _ _ _); reflexivity.
Qed.

Lemma decryptData_fst wc enc iv pw s w w' :
  fst (decryptData wc enc iv pw s w) = fst (decryptData wc enc iv pw s w').
Proof.
  rewrite !decryptData_run.
  destruct (base64ToBuffer (ToString s)); [|reflexivity]. cbv zeta.
  destruct (base64ToBuffer iv); [|reflexivity].
  destruct (base64ToBuffer enc); [|reflexivity].
  destruct (AES_GCM_decrypt _ _ _ _); reflexivity.
Qed.

Lemma evaluateAttempt_right wc env r pw w :
  fst (verifyPassword wc env pw (passwordHash r) (salt r) w) = Ok true ->
  exists sb, base64ToBuffer (ToString (salt r)) = Ok sb /\
  let w1 := stored (with_failedAttempts (Some 0) (with_lockoutUntil None r))
              (add_derivation (mkDerivation pw sb (js "hash")) w) in
  evaluateAttempt wc env r pw w =
  (Ok succeeded,
   afterLogin env r pw (loginSecret wc r pw w)
     (if truthy_string (encryptedApiKey r) && truthy_string (apiKeyIV r)
      then
        let w2 := add_derivation (mkDerivation pw sb (js "encrypt")) w1 in
        match fst (decryptData wc (ToString (encryptedApiKey r))
                     (ToString (apiKeyIV r)) pw (salt r) w) with
        | Ok _ => w2
        | Throw e => add_console "Failed to decrypt API key:" e w2
        end
      else w1)).
Proof.
  intros H. destruct (verifyPassword_Ok _ _ _ _ _ _ _ H) as (sb & Hsb & Hrun).
  exists sb; split; [exact Hsb|]. cbv zeta.
  unfold evaluateAttempt, bind at 1. rewrite Hrun. cbn [negb].
  unfold loginSecret.
  destruct (truthy_string (encryptedApiKey r) && truthy_string (apiKeyIV r)).
  - unfold bind at 1. unfold setAuthData at 1. unfold bind at 1.
    unfold try_catch, bind at 1.
    match goal with |- context [decryptData ?a ?b ?c ?d ?e ?f] =>
      pose proof (decryptData_world a b c d e f sb Hsb) as Hw;
      pose proof (decryptData_fst a b c d e f w) as Hf;
      destruct (decryptData a b c d e f) as [[k|e'] w2] end;
    simpl in Hw, Hf; subst w2; rewrite <- Hf; reflexivity.
  - reflexivity.
Qed.

Lemma lockoutActive_true r now lu :
  lockoutUntil r = Some lu -> 0 <= now -> now < lu ->
  lockoutActive r now = true.
Proof.
  intros H H0 H1. unfold lockoutActive, truthy_number, ToNumber. rewrite H.
  apply andb_true_iff; split.
  - apply negb_true_iff, Z.eqb_neq. lia.
  - apply Z.ltb_lt; lia.
Qed.

Lemma lockoutActive_false r now :
  (lockoutUntil r = None \/
   exists lu, lockoutUntil r = Some lu /\ lu <= now) ->
  lockoutActive r now = false.
Proof.
  unfold lockoutActive, truthy_number, ToNumber.
  intros [H | (lu & H & Hle)]; rewrite H; [reflexivity|].
  apply andb_false_iff; right. apply Z.ltb_ge; lia.
Qed.

Lemma loginCatch_Ok body w out w' :
  body w = (Ok out, w') -> loginCatch body w = (Ok out, w').
Proof. intros H. unfold loginCatch, try_catch. now rewrite H. Qed.

(** What an evaluated attempt comes to, by the verdict on the password. *)
Lemma evaluateAttempt_verdict wc env r pw w b :
  fst (verifyPassword wc env pw (passwordHash r) (salt r) w) = Ok b ->
  exists sb out w',
    base64ToBuffer (ToString (salt r)) = Ok sb /\
    evaluateAttempt wc env r pw w = (Ok out, w') /\
    success out = b /\
    exists rest,
      derivations w'
      = derivations w ++ mkDerivation pw sb (js "hash") :: rest.
Proof.
  intros H. destruct b.
  - destruct (evaluateAttempt_right wc env r pw w H) as (sb & Hsb & E).
    cbv zeta in E. exists sb. eexists. eexists.
    split; [exact Hsb|]. split; [exact E|]. split; [reflexivity|].
    destruct (truthy_string (encryptedApiKey r) && truthy_string (apiKeyIV r)).
    + destruct (fst (decryptData _ _ _ _ _ _)); eexists; cbn;
        rewrite <- app_assoc; reflexivity.
    + exists []. reflexivity.
  - destruct (evaluateAttempt_wrong wc env r pw w H) as (sb & Hsb & E).
    cbv zeta in E. exists sb.
    destruct (MAX_FAILED_ATTEMPTS <=? orZero (failedAttempts r) + 1).
    + eexists. eexists. split; [exact Hsb|]. split; [exact E|].
      split; [destruct (_ =? 0); reflexivity|]. exists []. reflexivity.
    + eexists. eexists. split; [exact Hsb|]. split; [exact E|].
      split; [reflexivity|]. exists []. reflexivity.
Qed.

(** C1. While the stored [lockoutUntil] is set and lies after the clock
    reading of the call, [loginWithPassword] answers with the lockout
    outcome: [success] is false, [locked] is true and [error] is the
    message "Too many attempts. Try again in N seconds." where N is the
    remaining time in whole seconds rounded up. The world is left as it
    was: in particular no key derivation is run. When [lockoutUntil] is
    absent or not after the clock reading, the call is the evaluation of
    the attempt, which verifies the password (the derivation is recorded)
    and succeeds exactly when it matches. *)
Theorem login_lockout_gate wc env password w r :
  auth (db w) = Some r ->
  0 <= Date_now env 215 ->
  (forall lu,
      lockoutUntil r = Some lu -> Date_now env 215 < lu ->
      let remaining := Math_ceil_div (lu - Date_now env 216) 1000 in
      exists out,
        loginWithPassword wc env password w = (Ok out, w) /\
        success out = false /\
        locked out = Some true /\
        error out = Some (TooManyAttempts remaining) /\
        needsPasswordForApiKey out = None /\
        (forall message_of,
            option_map (render message_of) (error out)
            = Some ("Too many attempts. Try again in "
                    ++ Number_toString remaining ++ " seconds.")%string) /\
        1000 * (remaining - 1) < lu - Date_now env 216 <= 1000 * remaining)
  /\
  ((lockoutUntil r = None \/
    exists lu, lockoutUntil r = Some lu /\ lu <= Date_now env 215) ->
   loginWithPassword wc env password w
     = loginCatch (evaluateAttempt wc env r password) w
   /\ forall b,
        fst (verifyPassword wc env password (passwordHash r) (salt r) w)
          = Ok b ->
        exists sb out w',
          base64ToBuffer (ToString (salt r)) = Ok sb /\
          loginWithPassword wc env password w = (Ok out, w') /\
          success out = b /\
          exists rest,
            derivations w'
            = derivations w ++ mkDerivation password sb (js "hash") :: rest).
Proof.
  intros Hr Hnow. split.
  - intros lu Hlu Hlt remaining.
    exists (mkOutcome false (Some (TooManyAttempts remaining)) (Some true)
              None).
    split.
    + rewrite (loginWithPassword_unfold wc env password w r Hr).
      rewrite (lockoutActive_true r _ lu Hlu Hnow Hlt).
      unfold remaining, ToNumber. rewrite Hlu. reflexivity.
    + do 4 (split; [reflexivity|]). split; [intros; reflexivity|].
      apply Math_ceil_div_spec. lia.
  - intros Hfree.
    rewrite (loginWithPassword_unfold wc env password w r Hr).
    rewrite (lockoutActive_false r _ Hfree). split; [reflexivity|].
    intros b Hb.
    destruct (evaluateAttempt_verdict wc env r password w b Hb)
      as (sb & out & w' & Hsb & Hev & Hout & Hder).
    exists sb, out, w'. repeat split; try assumption.
    apply loginCatch_Ok, Hev.
Qed.

Lemma login_lockout_gate_witness :
  auth (db Sample.lockedWorld) = Some Sample.lockedRecord /\
  0 <= Date_now (Sample.envAt 4999) 215 /\
  exists out,
    loginWithPassword Sample.crypto (Sample.envAt 4999) (js "hunter22")
      Sample.lockedWorld = (Ok out, Sample.lockedWorld) /\
    success out = false /\
    locked out = Some true /\
    error out = Some (TooManyAttempts 1) /\
    option_map (render (fun _ => "error"%string)) (error out)
    = Some "Too many attempts. Try again in 1 seconds."%string.
Proof.
  split; [reflexivity|]. split; [vm_compute; congruence|].
  pose proof (login_lockout_gate Sample.crypto (Sample.envAt 4999)
                (js "hunter22") Sample.lockedWorld Sample.lockedRecord eq_refl
                ltac:(vm_compute; congruence)) as [H _].
  destruct (H 5000 eq_refl ltac:(vm_compute; reflexivity))
    as (out & E & H1 & H2 & H3 & _ & H5 & _).
  exists out. split; [exact E|]. split; [exact H1|]. split; [exact H2|].
  split; [exact H3|]. exact (H5 (fun _ => "error"%string)).
Defined.

(** ** Failed attempts *)

Lemma verifyPassword_fst wc env env' pw h s w w' :
  fst (verifyPassword wc env pw h s w) = fst (verifyPassword wc env' pw h s w').
Proof.
  rewrite !verifyPassword_run.
  destruct (base64ToBuffer (ToString s)); reflexivity.
Qed.

(** A wrong password that is let through: the outcome and the world. *)
Lemma login_wrong wc env pw w r :
  auth (db w) = Some r ->
  lockoutActive r (Date_now env 215) = false ->
  fst (verifyPassword wc env pw (passwordHash r) (salt r) w) = Ok false ->
  exists sb, base64ToBuffer (ToString (salt r)) = Ok sb /\
  let n := orZero (failedAttempts r) + 1 in
  let w1 := add_derivation (mkDerivation pw sb (js "hash")) w in
  loginWithPassword wc env pw w =
  if MAX_FAILED_ATTEMPTS <=? n then
    (Ok (if Date_now env 229 + LOCKOUT_DURATION =? 0
         then failed (InvalidPasswordRemaining (MAX_FAILED_ATTEMPTS - n))
         else lockedOut (TooManyAttempts 30)),
     stored (with_failedAttempts (Some 0)
               (with_lockoutUntil
                  (Some (Date_now env 229 + LOCKOUT_DURATION)) r)) w1)
  else
    (Ok (failed (InvalidPasswordRemaining (MAX_FAILED_ATTEMPTS - n))),
     stored (with_failedAttempts (Some n) r) w1).
Proof.
  intros Hr Hfree Hwrong.
  destruct (evaluateAttempt_wrong wc env r pw w Hwrong) as (sb & Hsb & E).
  exists sb; split; [exact Hsb|]. cbv zeta in *.
  rewrite (loginWithPassword_unfold wc env pw w r Hr), Hfree.
  destruct (MAX_FAILED_ATTEMPTS <=? orZero (failedAttempts r) + 1);
    apply loginCatch_Ok, E.
Qed.

(** The record after a wrong password that does not reach the threshold. *)
Lemma login_wrong_counts wc env pw w r n :
  auth (db w) = Some r ->
  lockoutActive r (Date_now env 215) = false ->
  fst (verifyPassword wc env pw (passwordHash r) (salt r) w) = Ok false ->
  orZero (failedAttempts r) + 1 = n -> n < MAX_FAILED_ATTEMPTS ->
  auth (db (snd (loginWithPassword wc env pw w)))
  = Some (with_failedAttempts (Some n) r).
Proof.
  intros Hr Hfree Hwrong Hn Hlt.
  destruct (login_wrong wc env pw w r Hr Hfree Hwrong) as (sb & _ & E).
  cbv zeta in E. rewrite E, Hn.
  destruct (Z.leb_spec MAX_FAILED_ATTEMPTS n); [lia|]. reflexivity.
Qed.

(** The record after the wrong password that reaches the threshold. *)
Lemma login_wrong_locks wc env pw w r :
  auth (db w) = Some r ->
  lockoutActive r (Date_now env 215) = false ->
  fst (verifyPassword wc env pw (passwordHash r) (salt r) w) = Ok false ->
  MAX_FAILED_ATTEMPTS <= orZero (failedAttempts r) + 1 ->
  auth (db (snd (loginWithPassword wc env pw w)))
  = Some (with_failedAttempts (Some 0)
            (with_lockoutUntil (Some (Date_now env 229 + LOCKOUT_DURATION)) r)).
Proof.
  intros Hr Hfree Hwrong Hge.
  destruct (login_wrong wc env pw w r Hr Hfree Hwrong) as (sb & _ & E).
  cbv zeta in E. rewrite E.
  destruct (Z.leb_spec MAX_FAILED_ATTEMPTS (orZero (failedAttempts r) + 1));
    [reflexivity | lia].
Qed.

Lemma five_failures_lock wc w r c1 c2 c3 c4 c5 :
  auth (db w) = Some r ->
  orZero (failedAttempts r) = 0 ->
  Forall (failsOn wc r w) [c1; c2; c3; c4; c5] ->
  auth (db (loginAttempts wc [c1; c2; c3; c4; c5] w))
  = Some (with_failedAttempts (Some 0)
            (with_lockoutUntil
               (Some (Date_now (fst c5) 229 + LOCKOUT_DURATION)) r)).
Proof.
  intros Hr H0 HF.
  repeat match goal with
         | H : Forall _ (_ :: _) |- _ => inversion H; clear H; subst
         | H : failsOn _ _ _ _ |- _ => destruct H as (? & ? & ?)
         end.
  destruct c1 as [e1 p1], c2 as [e2 p2], c3 as [e3 p3], c4 as [e4 p4],
           c5 as [e5 p5]; cbn [fst snd] in *.
  cbn [loginAttempts].
  set (w1 := snd (loginWithPassword wc e1 p1 w)).
  assert (A1 : auth (db w1) = Some (with_failedAttempts (Some 1) r)).
  { apply login_wrong_counts; try assumption; unfold MAX_FAILED_ATTEMPTS; lia. }
  set (w2 := snd (loginWithPassword wc e2 p2 w1)).
  assert (A2 : auth (db w2)
               = Some (with_failedAttempts (Some 2)
                         (with_failedAttempts (Some 1) r))).
  { apply login_wrong_counts; try assumption.
    - rewrite (verifyPassword_fst wc e2 e2 p2 _ _ w1 w). assumption.
    - reflexivity.
    - unfold MAX_FAILED_ATTEMPTS; lia. }
  set (w3 := snd (loginWithPassword wc e3 p3 w2)).
  assert (A3 : auth (db w3)
               = Some (with_failedAttempts (Some 3)
                         (with_failedAttempts (Some 2)
                            (with_failedAttempts (Some 1) r)))).
  { apply login_wrong_counts; try assumption.
    - rewrite (verifyPassword_fst wc e3 e3 p3 _ _ w2 w). assumption.
    - reflexivity.
    - unfold MAX_FAILED_ATTEMPTS; lia. }
  set (w4 := snd (loginWithPassword wc e4 p4 w3)).
  assert (A4 : auth (db w4)
               = Some (with_failedAttempts (Some 4)
                         (with_failedAttempts (Some 3)
                            (with_failedAttempts (Some 2)
                               (with_failedAttempts (Some 1) r))))).
  { apply login_wrong_counts; try assumption.
    - rewrite (verifyPassword_fst wc e4 e4 p4 _ _ w3 w). assumption.
    - reflexivity.
    - unfold MAX_FAILED_ATTEMPTS; lia. }
  rewrite (login_wrong_locks wc e5 p5 w4 _ A4); try assumption.
  - reflexivity.
  - rewrite (verifyPassword_fst wc e5 e5 p5 _ _ w4 w). assumption.
  - cbn. unfold MAX_FAILED_ATTEMPTS. lia.
Qed.

(** C2. A wrong password that the lockout lets through adds one to
    [failedAttempts]. When the new count reaches 5, [lockoutUntil] becomes
    the clock reading plus 30 seconds, [failedAttempts] becomes 0 and the
    lockout outcome is returned: [success] false, [locked] true and the
    message "Too many attempts. Try again in 30 seconds.". Below 5, the new
    count is stored and the outcome has [success] false, no [locked]
    property and the message "Invalid password. N attempts remaining."
    where N is 5 minus the new count. After five such failures in a row
    from a count of 0, a sixth call made before the lockout ends is
    refused as locked whatever its password, with the remaining seconds
    in its message. *)
Theorem login_failure_policy wc w r :
  auth (db w) = Some r ->
  (forall env password,
      lockoutActive r (Date_now env 215) = false ->
      fst (verifyPassword wc env password (passwordHash r) (salt r) w)
        = Ok false ->
      0 <= Date_now env 229 ->
      exists sb, base64ToBuffer (ToString (salt r)) = Ok sb /\
      let n := orZero (failedAttempts r) + 1 in
      let w1 := add_derivation (mkDerivation password sb (js "hash")) w in
      (MAX_FAILED_ATTEMPTS <= n ->
       exists out,
         loginWithPassword wc env password w
         = (Ok out,
            stored (with_failedAttempts (Some 0)
                      (with_lockoutUntil
                         (Some (Date_now env 229 + LOCKOUT_DURATION)) r))
              w1) /\
         success out = false /\
         locked out = Some true /\
         error out = Some (TooManyAttempts 30) /\
         forall message_of,
           option_map (render message_of) (error out)
           = Some "Too many attempts. Try again in 30 seconds."%string)
      /\
      (n < MAX_FAILED_ATTEMPTS ->
       exists out,
         loginWithPassword wc env password w
         = (Ok out, stored (with_failedAttempts (Some n) r) w1) /\
         success out = false /\
         locked out = None /\
         error out
         = Some (InvalidPasswordRemaining (MAX_FAILED_ATTEMPTS - n)) /\
         forall message_of,
           option_map (render message_of) (error out)
           = Some ("Invalid password. "
                   ++ Number_toString (MAX_FAILED_ATTEMPTS - n)
                   ++ " attempts remaining.")%string))
  /\
  (forall c1 c2 c3 c4 c5 env6 password6,
      orZero (failedAttempts r) = 0 ->
      Forall (failsOn wc r w) [c1; c2; c3; c4; c5] ->
      0 <= Date_now env6 215 < Date_now (fst c5) 229 + LOCKOUT_DURATION ->
      let w5 := loginAttempts wc [c1; c2; c3; c4; c5] w in
      let remaining :=
        Math_ceil_div
          (Date_now (fst c5) 229 + LOCKOUT_DURATION - Date_now env6 216)
          1000 in
      exists out,
        loginWithPassword wc env6 password6 w5 = (Ok out, w5) /\
        success out = false /\
        locked out = Some true /\
        error out = Some (TooManyAttempts remaining) /\
        forall message_of,
          option_map (render message_of) (error out)
          = Some ("Too many attempts. Try again in "
                  ++ Number_toString remaining ++ " seconds.")%string).
Proof.
  intros Hr. split.
  - intros env password Hfree Hwrong Hnow.
    destruct (login_wrong wc env password w r Hr Hfree Hwrong)
      as (sb & Hsb & E).
    exists sb; split; [exact Hsb|]. cbv zeta in *. split; intros Hn.
    + exists (mkOutcome false (Some (TooManyAttempts 30)) (Some true) None).
      split; [|repeat split; reflexivity].
      rewrite E.
      destruct (Z.leb_spec MAX_FAILED_ATTEMPTS
                  (orZero (failedAttempts r) + 1)); [|lia].
      destruct (Z.eqb_spec (Date_now env 229 + LOCKOUT_DURATION) 0);
        [unfold LOCKOUT_DURATION in *; lia | reflexivity].
    + exists (mkOutcome false
                (Some (InvalidPasswordRemaining
                         (MAX_FAILED_ATTEMPTS
                          - (orZero (failedAttempts r) + 1)))) None None).
      split; [|repeat split; reflexivity].
      rewrite E.
      destruct (Z.leb_spec MAX_FAILED_ATTEMPTS
                  (orZero (failedAttempts r) + 1)); [lia|]. reflexivity.
  - intros c1 c2 c3 c4 c5 env6 password6 H0 HF [Hnow Hlt] w5 remaining.
    exists (mkOutcome false (Some (TooManyAttempts remaining)) (Some true)
              None).
    split; [|repeat split; reflexivity].
    pose proof (five_failures_lock wc w r c1 c2 c3 c4 c5 Hr H0 HF) as Hr5.
    fold w5 in Hr5.
    rewrite (loginWithPassword_unfold wc env6 password6 w5 _ Hr5).
    rewrite (lockoutActive_true
               (with_failedAttempts (Some 0)
                  (with_lockoutUntil
                     (Some (Date_now (fst c5) 229 + LOCKOUT_DURATION)) r))
               (Date_now env6 215)
               (Date_now (fst c5) 229 + LOCKOUT_DURATION) eq_refl Hnow Hlt).
    reflexivity.
Qed.

Lemma login_failure_policy_witness :
  auth (db Sample.world1) = Some Sample.record1 /\
  (exists out1,
      fst (loginWithPassword Sample.crypto (Sample.envAt 2000) (js "wrong")
             Sample.world1) = Ok out1 /\
      success out1 = false /\
      locked out1 = None /\
      error out1 = Some (InvalidPasswordRemaining 4) /\
      option_map (render (fun _ => "error"%string)) (error out1)
      = Some "Invalid password. 4 attempts remaining."%string) /\
  (exists out6,
      loginWithPassword Sample.crypto (Sample.envAt 7000) (js "hunter22")
        (loginAttempts Sample.crypto Sample.fiveWrong Sample.world1)
      = (Ok out6,
         loginAttempts Sample.crypto Sample.fiveWrong Sample.world1) /\
      success out6 = false /\
      locked out6 = Some true /\
      error out6 = Some (TooManyAttempts 29)).
Proof.
  split; [reflexivity|].
  destruct (login_failure_policy Sample.crypto Sample.world1 Sample.record1
              eq_refl) as [H1 H].
  split.
  - destruct (H1 (Sample.envAt 2000) (js "wrong") eq_refl eq_refl
                ltac:(vm_compute; congruence)) as (sb & _ & _ & Hlow).
    destruct (Hlow ltac:(vm_compute; reflexivity))
      as (out & E & S1 & S2 & S3 & S4).
    exists out. rewrite E. split; [reflexivity|].
    split; [exact S1|]. split; [exact S2|]. split; [exact S3|].
    exact (S4 (fun _ => "error"%string)).
  - assert (HF : Forall (failsOn Sample.crypto Sample.record1 Sample.world1)
                   Sample.fiveWrong).
    { repeat (apply Forall_cons || apply Forall_nil);
        (split; [vm_compute; reflexivity|];
         split; [vm_compute; reflexivity | vm_compute; congruence]). }
    destruct (H (Sample.envAt 2000, js "wrong") (Sample.envAt 3000, js "wrong")
                (Sample.envAt 4000, js "wrong") (Sample.envAt 5000, js "wrong")
                (Sample.envAt 6000, js "wrong") (Sample.envAt 7000)
                (js "hunter22") eq_refl HF
                ltac:(split; vm_compute; congruence))
      as (out & E & S1 & S2 & S3 & _).
    exists out. split; [exact E|]. split; [exact S1|]. split; [exact S2|].
    exact S3.
Defined.

(** C10. A wrong password that the lockout lets through changes, of the
    persisted record, only [failedAttempts] and [lockoutUntil]; the other
    eight fields and the other tables are as before, the session store and
    the provider's state are untouched (no session is created), and the
    call reports failure. *)
Theorem failed_login_frame wc env password w r :
  auth (db w) = Some r ->
  lockoutActive r (Date_now env 215) = false ->
  fst (verifyPassword wc env password (passwordHash r) (salt r) w)
    = Ok false ->
  exists out w' r',
    loginWithPassword wc env password w = (Ok out, w') /\
    success out = false /\
    auth (db w') = Some r' /\
    passwordHash r' = passwordHash r /\
    salt r' = salt r /\
    encryptedApiKey r' = encryptedApiKey r /\
    apiKeyIV r' = apiKeyIV r /\
    biometricEnabled r' = biometricEnabled r /\
    biometricCredentialId r' = biometricCredentialId r /\
    createdAt r' = createdAt r /\
    targetCalories r' = targetCalories r /\
    dailyEntries (db w') = dailyEntries (db w) /\
    exerciseHistory (db w') = exerciseHistory (db w) /\
    session w' = session w /\
    authState w' = authState w /\
    decryptedApiKey w' = decryptedApiKey w /\
    currentPassword w' = currentPassword w.
Proof.
  intros Hr Hfree Hwrong.
  destruct (login_wrong wc env password w r Hr Hfree Hwrong) as (sb & _ & E).
  cbv zeta in E. rewrite E.
  destruct (MAX_FAILED_ATTEMPTS <=? orZero (failedAttempts r) + 1).
  - eexists. eexists. eexists. split; [reflexivity|].
    split; [destruct (_ =? 0); reflexivity|].
    split; [reflexivity|]. repeat split; reflexivity.
  - eexists. eexists. eexists. split; [reflexivity|].
    split; [reflexivity|].
    split; [reflexivity|]. repeat split; reflexivity.
Qed.

Lemma failed_login_frame_witness :
  auth (db Sample.world1) = Some Sample.record1 /\
  lockoutActive Sample.record1 (Date_now (Sample.envAt 2000) 215) = false /\
  fst (verifyPassword Sample.crypto (Sample.envAt 2000) (js "wrong")
         (passwordHash Sample.record1) (salt Sample.record1) Sample.world1)
    = Ok false /\
  exists out w' r',
    loginWithPassword Sample.crypto (Sample.envAt 2000) (js "wrong")
      Sample.world1 = (Ok out, w') /\
    success out = false /\
    auth (db w') = Some r' /\
    passwordHash r' = passwordHash Sample.record1 /\
    session w' = session Sample.world1.
Proof.
  split; [reflexivity|]. split; [reflexivity|]. split; [reflexivity|].
  destruct (failed_login_frame Sample.crypto (Sample.envAt 2000) (js "wrong")
              Sample.world1 Sample.record1 eq_refl eq_refl eq_refl)
    as (out & w' & r' & H1 & H2 & H3 & H4 & _ & _ & _ & _ & _ & _ & _ & _ & _
        & H5 & _).
  exists out, w', r'. repeat split; assumption.
Defined.

(** ** A correct password *)

Lemma login_right wc env pw w r :
  auth (db w) = Some r ->
  lockoutActive r (Date_now env 215) = false ->
  fst (verifyPassword wc env pw (passwordHash r) (salt r) w) = Ok true ->
  exists sb, base64ToBuffer (ToString (salt r)) = Ok sb /\
  let w1 := stored (with_failedAttempts (Some 0) (with_lockoutUntil None r))
              (add_derivation (mkDerivation pw sb (js "hash")) w) in
  loginWithPassword wc env pw w =
  (Ok succeeded,
   afterLogin env r pw (loginSecret wc r pw w)
     (if truthy_string (encryptedApiKey r) && truthy_string (apiKeyIV r)
      then
        let w2 := add_derivation (mkDerivation pw sb (js "encrypt")) w1 in
        match fst (decryptData wc (ToString (encryptedApiKey r))
                     (ToString (apiKeyIV r)) pw (salt r) w) with
        | Ok _ => w2
        | Throw e => add_console "Failed to decrypt API key:" e w2
        end
      else w1)).
Proof.
  intros Hr Hfree Hright.
  destruct (evaluateAttempt_right wc env r pw w Hright) as (sb & Hsb & E).
  exists sb; split; [exact Hsb|]. cbv zeta in *.
  rewrite (loginWithPassword_unfold wc env pw w r Hr), Hfree.
  apply loginCatch_Ok, E.
Qed.

(** C8. A login with the correct password, a stored secret and a
    decryption of it that throws still succeeds: the error is logged, the
    secret in memory is left empty, the attempt state is reset, the session
    is stored and the state becomes authenticated. *)
Theorem login_survives_secret_failure wc env password w r e :
  auth (db w) = Some r ->
  lockoutActive r (Date_now env 215) = false ->
  fst (verifyPassword wc env password (passwordHash r) (salt r) w)
    = Ok true ->
  truthy_string (encryptedApiKey r) = true ->
  truthy_string (apiKeyIV r) = true ->
  fst (decryptData wc (ToString (encryptedApiKey r)) (ToString (apiKeyIV r))
         password (salt r) w) = Throw e ->
  exists w',
    loginWithPassword wc env password w = (Ok succeeded, w') /\
    decryptedApiKey w' = None /\
    console w' = console w ++ [("Failed to decrypt API key:"%string, e)] /\
    session w' = Some (Date_now env 261 + SESSION_TIMEOUT) /\
    authState w' = mkAuthState false false true (Some r) /\
    currentPassword w' = Some password /\
    auth (db w')
    = Some (with_failedAttempts (Some 0) (with_lockoutUntil None r)).
Proof.
  intros Hr Hfree Hright Henc Hiv Hdec.
  destruct (login_right wc env password w r Hr Hfree Hright) as (sb & _ & E).
  cbv zeta in E. rewrite E. unfold loginSecret.
  rewrite Henc, Hiv, Hdec. cbn [andb].
  eexists. split; [reflexivity|]. repeat split; reflexivity.
Qed.

Lemma login_survives_secret_failure_witness :
  auth (db Sample.corruptWorld) = Some Sample.corruptRecord /\
  fst (decryptData Sample.crypto
         (ToString (encryptedApiKey Sample.corruptRecord))
         (ToString (apiKeyIV Sample.corruptRecord)) (js "hunter22")
         (salt Sample.corruptRecord) Sample.corruptWorld)
    = Throw OperationError /\
  exists w',
    loginWithPassword Sample.crypto (Sample.envAt 9000) (js "hunter22")
      Sample.corruptWorld = (Ok succeeded, w') /\
    decryptedApiKey w' = None /\
    isAuthenticated (authState w') = true.
Proof.
  split; [reflexivity|]. split; [reflexivity|].
  destruct (login_survives_secret_failure Sample.crypto (Sample.envAt 9000)
              (js "hunter22") Sample.corruptWorld Sample.corruptRecord
              OperationError eq_refl eq_refl eq_refl eq_refl eq_refl eq_refl)
    as (w' & H1 & H2 & _ & _ & H3 & _).
  exists w'. rewrite H3. repeat split; assumption.
Defined.

(** ** Key derivation *)

Lemma deriveKey_run wc password saltBytes usage w :
  deriveKey wc password saltBytes usage w =
  (Ok (if list_eqb usage (js "encrypt")
       then mkCryptoKey AES_GCM_256
              (PBKDF2 wc (Encoding.TextEncoder_encode password) saltBytes
                 PBKDF2_ITERATIONS 256)
       else mkCryptoKey HMAC_SHA_256
              (PBKDF2 wc (Encoding.TextEncoder_encode password) saltBytes
                 PBKDF2_ITERATIONS 512)),
   add_derivation (mkDerivation password saltBytes usage) w).
Proof. reflexivity. Qed.

Lemma hashPassword_fresh wc env password w :
  hashPassword wc env password None w =
  (Ok (hashOf wc password (generateSalt env),
       Base64.encode (asUint8Array (generateSalt env))),
   add_derivation (mkDerivation password (generateSalt env) (js "hash")) w).
Proof.
  unfold hashPassword, bind, deriveKey, lift, ret.
  rewrite !bufferToBase64_total. reflexivity.
Qed.

(** C9, as the code has it. Key derivation validates nothing: for every
    password, the empty one included, and every salt, of any length,
    [deriveKey] returns a key and records the derivation, and
    [hashPassword] returns a hash and a salt; neither throws. *)
Theorem derivation_accepts_every_input wc env password saltBytes usage
    existingSalt w :
  (exists key,
      deriveKey wc password saltBytes usage w
      = (Ok key, add_derivation (mkDerivation password saltBytes usage) w))
  /\
  (exists hash salt64 w',
      hashPassword wc env password existingSalt w = (Ok (hash, salt64), w')).
Proof.
  split.
  - eexists. apply deriveKey_run.
  - destruct existingSalt as [sb|].
    + do 3 eexists. apply hashPassword_run.
    + do 3 eexists. apply hashPassword_fresh.
Qed.

(** C9 as stated fails: the empty password, and a salt of three bytes, are
    derived from like any other. *)
Lemma derivation_rejects_nothing :
  (exists key,
      fst (deriveKey Sample.crypto [] (generateSalt (Sample.envAt 0))
             (js "hash") Sample.world0) = Ok key) /\
  (exists key,
      fst (deriveKey Sample.crypto (js "hunter22") [1; 2; 3]
             (js "encrypt") Sample.world0) = Ok key) /\
  (exists hs,
      fst (hashPassword Sample.crypto (Sample.envAt 0) [] (Some [1; 2; 3])
             Sample.world0) = Ok hs).
Proof.
  split; [|split]; eexists; vm_compute; reflexivity.
Qed.

(** ** setupAccount *)

(** The record [setupAccount] writes. *)
Lemma setupAccount_run wc env password target w :
  let r := setupRecord wc env password target in
  setupAccount wc env password target w =
  (Ok succeeded,
   set_authState (mkAuthState false false true (Some r))
     (set_currentPassword (Some password)
        (set_session (Some (Date_now env 187 + SESSION_TIMEOUT))
           (stored r
              (add_derivation
                 (mkDerivation password (generateSalt env) (js "hash")) w))))).
Proof.
  cbv zeta. unfold setupAccount, try_catch, bind at 1.
  rewrite hashPassword_fresh. reflexivity.
Qed.

(** C6, as the code has it. [setupAccount] does not look for an existing
    record: in every state it hashes the password with a fresh salt, writes
    a new record in place of whatever was stored, stores a session, keeps
    the password in memory and sets the state authenticated, and it
    returns success. *)
Theorem setupAccount_always_creates wc env password target w :
  exists w',
    setupAccount wc env password target w = (Ok succeeded, w') /\
    auth (db w') = Some (setupRecord wc env password target) /\
    session w' = Some (Date_now env 187 + SESSION_TIMEOUT) /\
    authState w'
    = mkAuthState false false true
        (Some (setupRecord wc env password target)) /\
    currentPassword w' = Some password /\
    decryptedApiKey w' = decryptedApiKey w.
Proof.
  eexists. split; [apply setupAccount_run|]. repeat split; reflexivity.
Qed.

(** C6 as stated fails: with a record stored, a second setup with another
    password succeeds and replaces it. *)
Lemma setupAccount_overwrites :
  auth (db Sample.world1) = Some Sample.record1 /\
  fst (setupAccount Sample.crypto (Sample.envAt 5000) (js "letmein") None
         Sample.world1) = Ok succeeded /\
  auth (db (snd (setupAccount Sample.crypto (Sample.envAt 5000)
                   (js "letmein") None Sample.world1)))
  <> Some Sample.record1.
Proof.
  split; [reflexivity|]. split; [reflexivity|].
  vm_compute. intros H. discriminate H.
Qed.

(** ** deleteAll *)

Lemma deleteAll_run wc env password w r :
  auth (db w) = Some r ->
  deleteAll wc env password w =
  match base64ToBuffer (ToString (salt r)) with
  | Throw e =>
      (Ok (failed (ErrorMessage e)), add_console "Delete all error:" e w)
  | Ok sb =>
      let w1 := add_derivation (mkDerivation password sb (js "hash")) w in
      if match passwordHash r with
         | Some h => list_eqb (hashOf wc password sb) h
         | None => false
         end
      then (Ok succeeded,
            set_authState (mkAuthState false true false None)
              (set_session None
                 (set_currentPassword None
                    (set_decryptedApiKey None
                       (set_db (mkDatabase None [] []) w1)))))
      else (Ok (failed InvalidPassword), w1)
  end.
Proof.
  intros Hr. unfold deleteAll, try_catch, bind at 1, getAuthData. rewrite Hr.
  unfold bind at 1. rewrite verifyPassword_run.
  destruct (base64ToBuffer (ToString (salt r))) as [sb|e]; [|reflexivity].
  cbv zeta. destruct (match passwordHash r with Some _ => _ | None => _ end);
    reflexivity.
Qed.

(** C5, as the code has it. [deleteAll] does not consult the lockout: with
    a record stored it verifies the password whatever [lockoutUntil] is.
    The tables are emptied exactly when the password verifies, and then the
    state is the uninitialised one; a password that does not verify leaves
    the database, the attempt counter included, as it was. *)
Theorem deleteAll_verifies_then_wipes wc env password w r :
  auth (db w) = Some r ->
  exists out w',
    deleteAll wc env password w = (Ok out, w') /\
    locked out = None /\
    (fst (verifyPassword wc env password (passwordHash r) (salt r) w)
       = Ok true ->
     out = succeeded /\ db w' = mkDatabase None [] [] /\
     authState w' = mkAuthState false true false None /\
     session w' = None /\ decryptedApiKey w' = None /\
     currentPassword w' = None) /\
    (fst (verifyPassword wc env password (passwordHash r) (salt r) w)
       <> Ok true ->
     success out = false /\ db w' = db w /\ authState w' = authState w /\
     session w' = session w) /\
    (forall b sb,
        fst (verifyPassword wc env password (passwordHash r) (salt r) w)
          = Ok b ->
        base64ToBuffer (ToString (salt r)) = Ok sb ->
        derivations w'
        = derivations w ++ [mkDerivation password sb (js "hash")]).
Proof.
  intros Hr. rewrite (deleteAll_run wc env password w r Hr).
  rewrite verifyPassword_run.
  destruct (base64ToBuffer (ToString (salt r))) as [sb|e].
  - cbv zeta.
    destruct (match passwordHash r with Some _ => _ | None => _ end);
      do 2 eexists; (split; [reflexivity|]); (split; [reflexivity|]);
      cbn [fst]; repeat split; try reflexivity; try congruence;
      try (intros b sb' _ [= <-]; reflexivity).
  - do 2 eexists. split; [reflexivity|]. split; [reflexivity|].
    cbn [fst]. repeat split; try reflexivity; try congruence.
Qed.

Lemma deleteAll_verifies_then_wipes_witness :
  auth (db Sample.secretWorld) = Some Sample.secretRecord /\
  exists out w',
    deleteAll Sample.crypto (Sample.envAt 4000) (js "hunter22")
      Sample.secretWorld = (Ok out, w') /\
    out = succeeded /\ db w' = mkDatabase None [] [].
Proof.
  split; [reflexivity|].
  destruct (deleteAll_verifies_then_wipes Sample.crypto (Sample.envAt 4000)
              (js "hunter22") Sample.secretWorld Sample.secretRecord eq_refl)
    as (out & w' & H1 & _ & H2 & _).
  exists out, w'. split; [exact H1|].
  destruct (H2 eq_refl) as (H3 & H4 & _). split; assumption.
Defined.

(** C5 as stated fails: during a lockout, which refuses a login,
    [deleteAll] verifies the password (a derivation is recorded) and, the
    password being right, empties the database. *)
Lemma deleteAll_ignores_lockout :
  lockoutActive Sample.secretRecord (Date_now (Sample.envAt 4000) 215) = true /\
  fst (loginWithPassword Sample.crypto (Sample.envAt 4000) (js "hunter22")
         Sample.secretWorld) = Ok (lockedOut (TooManyAttempts 46)) /\
  fst (deleteAll Sample.crypto (Sample.envAt 4000) (js "hunter22")
         Sample.secretWorld) = Ok succeeded /\
  db (snd (deleteAll Sample.crypto (Sample.envAt 4000) (js "hunter22")
             Sample.secretWorld)) = mkDatabase None [] [] /\
  List.length (derivations
                 (snd (deleteAll Sample.crypto (Sample.envAt 4000)
                         (js "hunter22") Sample.secretWorld))) = 1%nat.
Proof. repeat apply conj; vm_compute; reflexivity. Qed.

(** ** unlockApiKey *)

Lemma unlockApiKey_run wc env password w r :
  auth (db w) = Some r ->
  truthy_string (encryptedApiKey r) = true ->
  truthy_string (apiKeyIV r) = true ->
  unlockApiKey wc env password w =
  match verifyPassword wc env password (passwordHash r) (salt r) w with
  | (Throw e, w1) =>
      (Ok (failed FailedToDecrypt), add_console "Unlock API key error:" e w1)
  | (Ok false, w1) => (Ok (failed InvalidPassword), w1)
  | (Ok true, w1) =>
      match decryptData wc (ToString (encryptedApiKey r))
              (ToString (apiKeyIV r)) password (salt r) w1 with
      | (Ok apiKey, w2) =>
          (Ok succeeded,
           set_decryptedApiKey (Some apiKey)
             (set_currentPassword (Some password) w2))
      | (Throw e, w2) =>
          (Ok (failed FailedToDecrypt),
           add_console "Unlock API key error:" e w2)
      end
  end.
Proof.
  intros Hr Henc Hiv.
  unfold unlockApiKey, try_catch, bind at 1, getAuthData. rewrite Hr.
  rewrite Henc, Hiv. cbn [negb orb]. unfold bind at 1.
  destruct (verifyPassword _ _ _ _ _ _) as [[[|]|e] w1]; try reflexivity.
  cbn [negb]. unfold bind at 1.
  destruct (decryptData _ _ _ _ _ _) as [[k|e] w2]; reflexivity.
Qed.

Lemma verifyPassword_frame wc env pw h s w :
  let w' := snd (verifyPassword wc env pw h s w) in
  db w' = db w /\ session w' = session w /\ authState w' = authState w /\
  decryptedApiKey w' = decryptedApiKey w /\
  currentPassword w' = currentPassword w /\ console w' = console w.
Proof.
  cbv zeta. rewrite verifyPassword_run.
  destruct (base64ToBuffer (ToString s)); repeat split; reflexivity.
Qed.

Lemma decryptData_frame wc enc iv pw s w :
  let w' := snd (decryptData wc enc iv pw s w) in
  db w' = db w /\ session w' = session w /\ authState w' = authState w /\
  decryptedApiKey w' = decryptedApiKey w /\
  currentPassword w' = currentPassword w /\ console w' = console w.
Proof.
  cbv zeta. rewrite decryptData_run.
  destruct (base64ToBuffer (ToString s)); [|repeat split; reflexivity].
  cbv zeta.
  destruct (base64ToBuffer iv); [|repeat split; reflexivity].
  destruct (base64ToBuffer enc); [|repeat split; reflexivity].
  destruct (AES_GCM_decrypt _ _ _ _); repeat split; reflexivity.
Qed.

(** C4, as the code has it. With a secret stored, [unlockApiKey] verifies
    the password with [verifyPassword], as a login does, but without the
    lockout check and without attempt tracking: it never answers with the
    lockout outcome and never writes the database, whatever
    [lockoutUntil] and [failedAttempts] are. A password that does not
    verify gives "Invalid password" and changes nothing but the record of
    derivations; one that verifies gives the decrypted secret and the
    password to memory, or "Failed to decrypt API key" when decryption
    throws, the exception being logged and the memory left as it was.
    The session store and the provider's state are untouched. *)
Theorem unlockApiKey_verifies_without_policy wc env password w r :
  auth (db w) = Some r ->
  truthy_string (encryptedApiKey r) = true ->
  truthy_string (apiKeyIV r) = true ->
  exists out w',
    unlockApiKey wc env password w = (Ok out, w') /\
    locked out = None /\
    db w' = db w /\ session w' = session w /\ authState w' = authState w /\
    (fst (verifyPassword wc env password (passwordHash r) (salt r) w)
       = Ok false ->
     out = failed InvalidPassword /\
     success out = false /\ error out = Some InvalidPassword /\
     decryptedApiKey w' = decryptedApiKey w /\
     currentPassword w' = currentPassword w /\
     console w' = console w) /\
    (fst (verifyPassword wc env password (passwordHash r) (salt r) w)
       = Ok true ->
     (forall apiKey,
         fst (decryptData wc (ToString (encryptedApiKey r))
                (ToString (apiKeyIV r)) password (salt r) w) = Ok apiKey ->
         out = succeeded /\
         success out = true /\ error out = None /\
         decryptedApiKey w' = Some apiKey /\
         currentPassword w' = Some password /\
         console w' = console w) /\
     (forall e,
         fst (decryptData wc (ToString (encryptedApiKey r))
                (ToString (apiKeyIV r)) password (salt r) w) = Throw e ->
         success out = false /\ error out = Some FailedToDecrypt /\
         decryptedApiKey w' = decryptedApiKey w /\
         currentPassword w' = currentPassword w /\
         console w' = console w ++ [("Unlock API key error:"%string, e)])) /\
    (forall e,
        fst (verifyPassword wc env password (passwordHash r) (salt r) w)
          = Throw e ->
        success out = false /\ error out = Some FailedToDecrypt /\
        decryptedApiKey w' = decryptedApiKey w /\
        currentPassword w' = currentPassword w /\
        console w' = console w ++ [("Unlock API key error:"%string, e)]) /\
    (forall message_of,
        success out = false ->
        option_map (render message_of) (error out)
        = Some "Invalid password"%string \/
        option_map (render message_of) (error out)
        = Some "Failed to decrypt API key"%string) /\
    (success out = true ->
     fst (verifyPassword wc env password (passwordHash r) (salt r) w)
       = Ok true).
Proof.
  intros Hr Henc Hiv.
  rewrite (unlockApiKey_run wc env password w r Hr Henc Hiv).
  pose proof (verifyPassword_frame wc env password (passwordHash r) (salt r) w)
    as Fv. cbv zeta in Fv.
  destruct (verifyPassword wc env password (passwordHash r) (salt r) w)
    as [[[|]|e] w1] eqn:Ev; cbn [fst snd] in *;
    destruct Fv as (F1 & F2 & F3 & F4 & F5 & F6).
  - pose proof (decryptData_frame wc (ToString (encryptedApiKey r))
                  (ToString (apiKeyIV r)) password (salt r) w1) as Fd.
    pose proof (decryptData_fst wc (ToString (encryptedApiKey r))
                  (ToString (apiKeyIV r)) password (salt r) w1 w) as Ef.
    cbv zeta in Fd.
    destruct (decryptData wc (ToString (encryptedApiKey r))
                (ToString (apiKeyIV r)) password (salt r) w1)
      as [[k|e] w2]; cbn [fst snd] in *;
      destruct Fd as (G1 & G2 & G3 & G4 & G5 & G6);
      do 2 eexists; (split; [reflexivity|]); cbn -[decryptData verifyPassword].
    + split; [reflexivity|]. split; [congruence|]. split; [congruence|].
      split; [congruence|]. split; [discriminate|].
      split.
      { intros _. split.
        - intros apiKey Hk. rewrite <- Ef in Hk. injection Hk as <-.
          repeat apply conj; try reflexivity. congruence.
        - intros e He. rewrite <- Ef in He. discriminate. }
      split; [discriminate|]. split; [discriminate|]. reflexivity.
    + split; [reflexivity|]. split; [congruence|]. split; [congruence|].
      split; [congruence|]. split; [discriminate|].
      split.
      { intros _. split.
        - intros apiKey Hk. rewrite <- Ef in Hk. discriminate.
        - intros e' He. rewrite <- Ef in He. injection He as <-.
          repeat apply conj; try reflexivity; congruence. }
      split; [discriminate|].
      split; [intros message_of _; right; reflexivity | discriminate].
  - do 2 eexists. split; [reflexivity|]. cbn -[decryptData verifyPassword].
    split; [reflexivity|]. split; [congruence|]. split; [congruence|].
    split; [congruence|].
    split; [intros _; repeat apply conj; try reflexivity; congruence|].
    split; [discriminate|]. split; [discriminate|].
    split; [intros message_of _; left; reflexivity | discriminate].
  - do 2 eexists. split; [reflexivity|]. cbn -[decryptData verifyPassword].
    split; [reflexivity|]. split; [congruence|]. split; [congruence|].
    split; [congruence|]. split; [discriminate|]. split; [discriminate|].
    split.
    { intros e' He. injection He as <-.
      repeat apply conj; try reflexivity; congruence. }
    split; [intros message_of _; right; reflexivity | discriminate].
Qed.

Lemma unlockApiKey_verifies_without_policy_witness :
  auth (db Sample.secretWorld) = Some Sample.secretRecord /\
  truthy_string (encryptedApiKey Sample.secretRecord) = true /\
  truthy_string (apiKeyIV Sample.secretRecord) = true /\
  exists out w',
    unlockApiKey Sample.crypto (Sample.envAt 4000) (js "hunter22")
      Sample.secretWorld = (Ok out, w') /\
    out = succeeded /\ decryptedApiKey w' = Some (js "sk-abc123").
Proof.
  split; [reflexivity|]. split; [reflexivity|]. split; [reflexivity|].
  destruct (unlockApiKey_verifies_without_policy Sample.crypto
              (Sample.envAt 4000) (js "hunter22") Sample.secretWorld
              Sample.secretRecord eq_refl eq_refl eq_refl)
    as (out & w' & H1 & _ & _ & _ & _ & _ & H2 & _).
  exists out, w'. split; [exact H1|].
  destruct (H2 eq_refl) as (H0 & _).
  destruct (H0 (js "sk-abc123") eq_refl) as (H3 & _ & _ & H4 & _).
  split; assumption.
Defined.

(** C4 as stated fails. During a lockout, which refuses a login, an unlock
    with the right password succeeds and decrypts the secret; and an
    unlock with a wrong password, made when no lockout is active, leaves
    [failedAttempts] as it was where a login increments it. *)
Lemma unlockApiKey_differs_from_login :
  lockoutActive Sample.secretRecord (Date_now (Sample.envAt 4000) 215) = true /\
  fst (loginWithPassword Sample.crypto (Sample.envAt 4000) (js "hunter22")
         Sample.secretWorld) = Ok (lockedOut (TooManyAttempts 46)) /\
  fst (unlockApiKey Sample.crypto (Sample.envAt 4000) (js "hunter22")
         Sample.secretWorld) = Ok succeeded /\
  decryptedApiKey
    (snd (unlockApiKey Sample.crypto (Sample.envAt 4000) (js "hunter22")
            Sample.secretWorld)) = Some (js "sk-abc123") /\
  lockoutActive Sample.secretRecord (Date_now (Sample.envAt 60000) 215) = false /\
  failedAttempts Sample.secretRecord = Some 0 /\
  fst (unlockApiKey Sample.crypto (Sample.envAt 60000) (js "wrong")
         Sample.secretWorld) = Ok (failed InvalidPassword) /\
  auth (db (snd (unlockApiKey Sample.crypto (Sample.envAt 60000) (js "wrong")
                   Sample.secretWorld))) = Some Sample.secretRecord /\
  fst (loginWithPassword Sample.crypto (Sample.envAt 60000) (js "wrong")
         Sample.secretWorld) = Ok (failed (InvalidPasswordRemaining 4)) /\
  auth (db (snd (loginWithPassword Sample.crypto (Sample.envAt 60000)
                   (js "wrong") Sample.secretWorld)))
  = Some (with_failedAttempts (Some 1) Sample.secretRecord).
Proof. repeat apply conj; vm_compute; reflexivity. Qed.

(** ** The secret in memory along a sequence of calls *)

Lemma hashPassword_secret wc env pw es w :
  decryptedApiKey (snd (hashPassword wc env pw es w)) = decryptedApiKey w.
Proof.
  destruct es; [rewrite hashPassword_run | rewrite hashPassword_fresh];
    reflexivity.
Qed.

Lemma encryptData_run wc env plaintext pw s w :
  encryptData wc env plaintext pw s w =
  match base64ToBuffer (ToString s) with
  | Throw e => (Throw e, w)
  | Ok sb =>
      let key := PBKDF2 wc (Encoding.TextEncoder_encode pw) sb
                   PBKDF2_ITERATIONS 256 in
      (Ok (Base64.encode
             (asUint8Array
                (AES_GCM_encrypt wc key (generateIV env)
                   (Encoding.TextEncoder_encode plaintext))),
           Base64.encode (asUint8Array (generateIV env))),
       add_derivation (mkDerivation pw sb (js "encrypt")) w)
  end.
Proof.
  unfold encryptData, bind, lift, deriveKey, ret.
  destruct (base64ToBuffer (ToString s)) as [sb|e]; [|reflexivity].
  rewrite !bufferToBase64_total. reflexivity.
Qed.

Lemma encryptData_secret wc env k pw s w :
  decryptedApiKey (snd (encryptData wc env k pw s w)) = decryptedApiKey w.
Proof.
  rewrite encryptData_run.
  destruct (base64ToBuffer (ToString s)); reflexivity.
Qed.

Lemma loginWithBiometric_run env w :
  loginWithBiometric env w =
  let r := spread (auth (db w)) in
  if negb (truthy_bool (biometricEnabled r))
     || negb (truthy_string (biometricCredentialId r))
  then (Ok (failed BiometricNotEnabled), w)
  else
    match base64ToBuffer (ToString (biometricCredentialId r)) with
    | Throw e =>
        (Ok (failed (ErrorMessage e)),
         add_console "Biometric login error:" e w)
    | Ok _ =>
        if credentials_get env then
          (Ok (mkOutcome true None None
                 (Some (truthy_string (encryptedApiKey r)))),
           set_authState (mkAuthState false false true (auth (db w)))
             (set_session (Some (Date_now env 296 + SESSION_TIMEOUT)) w))
        else (Ok (failed BiometricFailed), w)
    end.
Proof.
  cbv zeta.
  unfold loginWithBiometric, try_catch, bind at 1, getAuthData.
  destruct (negb (truthy_bool (biometricEnabled (spread (auth (db w)))))
            || negb (truthy_string
                       (biometricCredentialId (spread (auth (db w))))));
    [reflexivity|].
  unfold bind at 1, authenticateBiometric, bind at 1, lift.
  destruct (base64ToBuffer _); [|reflexivity].
  unfold ret at 1. destruct (credentials_get env); reflexivity.
Qed.

Lemma loginWithBiometric_secret env w :
  decryptedApiKey (snd (loginWithBiometric env w)) = decryptedApiKey w.
Proof.
  rewrite loginWithBiometric_run. cbv zeta.
  destruct (_ || _); [reflexivity|].
  destruct (base64ToBuffer _); [|reflexivity].
  destruct (credentials_get env); reflexivity.
Qed.

Lemma enableBiometric_secret env w :
  decryptedApiKey (snd (enableBiometric env w)) = decryptedApiKey w.
Proof.
  unfold enableBiometric, try_catch, bind at 1.
  assert (A : exists b, isBiometricAvailable env w = (Ok b, w)).
  { unfold isBiometricAvailable, ret.
    destruct (negb (isWebAuthnSupported env)); [eexists; reflexivity|].
    destruct (platformAuthenticator env); eexists; reflexivity. }
  destruct A as [b ->]. destruct b; [|reflexivity]. cbn [negb].
  unfold bind at 1, getAuthData.
  destruct (auth (db w)) as [r|]; [|reflexivity].
  unfold bind at 1, registerBiometric, bind at 1, lift.
  destruct (credentials_create env) as [c|e]; [|reflexivity].
  rewrite bufferToBase64_total. reflexivity.
Qed.

Lemma disableBiometric_secret w :
  decryptedApiKey (snd (disableBiometric w)) = decryptedApiKey w.
Proof. reflexivity. Qed.

Lemma lock_secret w : decryptedApiKey (snd (lock w)) = None.
Proof. reflexivity. Qed.

Lemma checkBiometricAvailable_secret env w :
  decryptedApiKey (snd (checkBiometricAvailable env w)) = decryptedApiKey w.
Proof.
  unfold checkBiometricAvailable, isBiometricAvailable, ret.
  destruct (negb (isWebAuthnSupported env)); [reflexivity|].
  destruct (platformAuthenticator env); reflexivity.
Qed.

Lemma resetSessionTimeout_run env w :
  resetSessionTimeout env w
  = (Ok tt,
     if isAuthenticated (authState w)
     then set_session (Some (Date_now env 90 + SESSION_TIMEOUT)) w
     else w).
Proof.
  unfold resetSessionTimeout.
  destruct (isAuthenticated (authState w)); reflexivity.
Qed.

Lemma resetSessionTimeout_secret env w :
  decryptedApiKey (snd (resetSessionTimeout env w)) = decryptedApiKey w.
Proof.
  rewrite resetSessionTimeout_run.
  destruct (isAuthenticated (authState w)); reflexivity.
Qed.

Lemma pageLoad_secret env w : decryptedApiKey (snd (pageLoad env w)) = None.
Proof.
  unfold pageLoad, bind at 1.
  match goal with |- context [initAuth env ?x] => set (w0 := x) end.
  assert (H : decryptedApiKey (snd (initAuth env w0)) = None).
  { unfold w0, initAuth, try_catch, bind, hasAuthSetup, getAuthData,
      sessionStorage_getItem, sessionStorage_removeItem, setAuthState, ret.
    cbn.
    destruct (session w) as [t|]; [|reflexivity].
    destruct (match auth (db w) with Some _ => _ | None => _ end);
      [|reflexivity].
    destruct (Date_now env 53 <? t); reflexivity. }
  destruct (initAuth env w0) as [[u|e] w1]; cbn [snd] in H; [|exact H].
  rewrite resetSessionTimeout_secret. exact H.
Qed.

Lemma setupAccount_secret wc env pw t w :
  decryptedApiKey (snd (setupAccount wc env pw t w)) = decryptedApiKey w.
Proof. rewrite setupAccount_run. reflexivity. Qed.

Lemma deleteAll_secret wc env pw w :
  decryptedApiKey (snd (deleteAll wc env pw w)) = decryptedApiKey w \/
  decryptedApiKey (snd (deleteAll wc env pw w)) = None.
Proof.
  destruct (auth (db w)) as [r|] eqn:Hr.
  - rewrite (deleteAll_run wc env pw w r Hr).
    destruct (base64ToBuffer (ToString (salt r))); [|left; reflexivity].
    cbv zeta.
    destruct (match passwordHash r with Some _ => _ | None => _ end);
      [right | left]; reflexivity.
  - left. unfold deleteAll, try_catch, bind, getAuthData. rewrite Hr.
    reflexivity.
Qed.

Lemma evaluateAttempt_throws wc env r pw w e :
  fst (verifyPassword wc env pw (passwordHash r) (salt r) w) = Throw e ->
  evaluateAttempt wc env r pw w = (Throw e, w).
Proof.
  intros H. unfold evaluateAttempt, bind at 1.
  rewrite (verifyPassword_Throw wc env pw _ _ w e H w). reflexivity.
Qed.

Lemma loginWithPassword_secret wc env pw w :
  decryptedApiKey (snd (loginWithPassword wc env pw w)) = decryptedApiKey w \/
  suppliesPassword wc (env, LoginWithPassword pw) w.
Proof.
  destruct (auth (db w)) as [r|] eqn:Hr.
  - rewrite (loginWithPassword_unfold wc env pw w r Hr).
    destruct (lockoutActive r (Date_now env 215)) eqn:Hl; [left; reflexivity|].
    destruct (fst (verifyPassword wc env pw (passwordHash r) (salt r) w))
      as [[|]|e] eqn:Hv.
    + right. exists r. split; assumption.
    + left. destruct (evaluateAttempt_wrong wc env r pw w Hv) as (sb & _ & E).
      cbv zeta in E. unfold loginCatch, try_catch. rewrite E.
      destruct (_ <=? _); reflexivity.
    + left. unfold loginCatch, try_catch.
      rewrite (evaluateAttempt_throws wc env r pw w e Hv). reflexivity.
  - left. unfold loginWithPassword, try_catch, bind, getAuthData.
    rewrite Hr. reflexivity.
Qed.

Lemma unlockApiKey_secret wc env pw w :
  decryptedApiKey (snd (unlockApiKey wc env pw w)) = decryptedApiKey w \/
  suppliesPassword wc (env, UnlockApiKey pw) w.
Proof.
  destruct (auth (db w)) as [r|] eqn:Hr.
  - destruct (truthy_string (encryptedApiKey r)) eqn:Henc.
    + destruct (truthy_string (apiKeyIV r)) eqn:Hiv.
      * rewrite (unlockApiKey_run wc env pw w r Hr Henc Hiv).
        pose proof (verifyPassword_frame wc env pw (passwordHash r) (salt r) w)
          as F. cbv zeta in F.
        destruct (verifyPassword wc env pw (passwordHash r) (salt r) w)
          as [[[|]|e] w1] eqn:Hv; cbn [fst snd] in *.
        -- right. exists r. split; [assumption|].
           cbn [fst snd]. rewrite Hv. reflexivity.
        -- left. apply F.
        -- left. apply F.
      * left. unfold unlockApiKey, try_catch, bind, getAuthData.
        rewrite Hr, Henc, Hiv. reflexivity.
    + left. unfold unlockApiKey, try_catch, bind, getAuthData.
      rewrite Hr, Henc. reflexivity.
  - left. unfold unlockApiKey, try_catch, bind, getAuthData.
    rewrite Hr. reflexivity.
Qed.

Lemma saveApiKey_secret wc env k pw w :
  decryptedApiKey (snd (saveApiKey wc env k pw w)) = decryptedApiKey w \/
  suppliesPassword wc (env, SaveApiKey k pw) w.
Proof.
  unfold suppliesPassword. cbn [snd].
  destruct (truthy_string (match pw with Some p => Some p
                                    | None => currentPassword w end)) eqn:Hp;
    [right; reflexivity|].
  left. unfold saveApiKey, try_catch. rewrite Hp. reflexivity.
Qed.

(** One call leaves the secret in memory as it was or empties it, unless
    it is one of the calls that supply a password. *)
Lemma perform_secret wc step w :
  decryptedApiKey (perform wc step w) = decryptedApiKey w \/
  decryptedApiKey (perform wc step w) = None \/
  suppliesPassword wc step w.
Proof.
  destruct step as [env a]. unfold perform. cbn [fst snd].
  destruct a.
  - left. apply setupAccount_secret.
  - destruct (loginWithPassword_secret wc env password w); auto.
  - left. apply loginWithBiometric_secret.
  - left. apply enableBiometric_secret.
  - left. apply disableBiometric_secret.
  - destruct (saveApiKey_secret wc env apiKey password w); auto.
  - destruct (unlockApiKey_secret wc env password w); auto.
  - right; left. apply lock_secret.
  - destruct (deleteAll_secret wc env password w); auto.
  - left. apply checkBiometricAvailable_secret.
  - left. apply resetSessionTimeout_secret.
  - right; left. apply pageLoad_secret.
Qed.

Lemma performAll_app wc s1 s2 w :
  performAll wc (s1 ++ s2) w = performAll wc s2 (performAll wc s1 w).
Proof. revert w; induction s1 as [|s s1 IH]; intros w; cbn; auto. Qed.

(** An empty secret stays empty along a sequence of calls up to the first
    call that supplies a password. *)
Lemma secret_stays_empty wc steps w :
  decryptedApiKey w = None ->
  decryptedApiKey (performAll wc steps w) <> None ->
  exists before step after,
    steps = before ++ step :: after /\
    decryptedApiKey (performAll wc before w) = None /\
    suppliesPassword wc step (performAll wc before w).
Proof.
  revert w. induction steps as [|s steps IH]; intros w Hw Hend.
  - cbn in Hend. congruence.
  - cbn [performAll] in Hend.
    destruct (perform_secret wc s w) as [H | [H | H]].
    + destruct (IH (perform wc s w) ltac:(congruence) Hend)
        as (b & st & a & -> & Hb & Hs).
      exists (s :: b), st, a. repeat split; assumption.
    + destruct (IH (perform wc s w) H Hend) as (b & st & a & -> & Hb & Hs).
      exists (s :: b), st, a. repeat split; assumption.
    + exists [], s, steps. repeat split; assumption.
Qed.

Lemma unlockApiKey_right wc env pw w r apiKey :
  auth (db w) = Some r ->
  truthy_string (encryptedApiKey r) = true ->
  truthy_string (apiKeyIV r) = true ->
  fst (verifyPassword wc env pw (passwordHash r) (salt r) w) = Ok true ->
  fst (decryptData wc (ToString (encryptedApiKey r)) (ToString (apiKeyIV r))
         pw (salt r) w) = Ok apiKey ->
  exists w',
    unlockApiKey wc env pw w = (Ok succeeded, w') /\
    decryptedApiKey w' = Some apiKey /\ currentPassword w' = Some pw.
Proof.
  intros Hr Henc Hiv Hv Hd.
  rewrite (unlockApiKey_run wc env pw w r Hr Henc Hiv).
  destruct (verifyPassword_Ok wc env pw _ _ w true Hv) as (sb & _ & Hrun).
  rewrite Hrun.
  rewrite (decryptData_fst wc _ _ pw (salt r) w
             (add_derivation (mkDerivation pw sb (js "hash")) w)) in Hd.
  destruct (decryptData _ _ _ _ _ _) as [[k|e] w2]; cbn [fst] in Hd;
    [|discriminate].
  injection Hd as ->. eexists. split; [reflexivity|]. split; reflexivity.
Qed.

(** C3, as the code has it. From a state whose in-memory secret is empty
    (such is the state after [lock] and after a page load), a successful
    biometric
    login stores a session, sets the state authenticated and leaves the
    in-memory secret empty, telling the caller whether a password is needed
    for the stored secret. Along any later sequence of calls the secret
    stays empty up to the first call that supplies a password: a password
    login or an unlock whose password verifies, or a save made with a
    password. An unlock with the verifying password, when decryption
    succeeds, puts the decrypted secret in memory. *)
Theorem biometric_login_leaves_secret_locked wc env w out w' :
  decryptedApiKey w = None ->
  loginWithBiometric env w = (Ok out, w') ->
  success out = true ->
  (isAuthenticated (authState w') = true /\
   session w' = Some (Date_now env 296 + SESSION_TIMEOUT) /\
   decryptedApiKey w' = None /\
   db w' = db w /\
   needsPasswordForApiKey out
   = Some (truthy_string (encryptedApiKey (spread (auth (db w))))))
  /\
  (forall steps,
      decryptedApiKey (performAll wc steps w') <> None ->
      exists before step after,
        steps = before ++ step :: after /\
        decryptedApiKey (performAll wc before w') = None /\
        suppliesPassword wc step (performAll wc before w'))
  /\
  (forall env' password r apiKey,
      auth (db w') = Some r ->
      truthy_string (encryptedApiKey r) = true ->
      truthy_string (apiKeyIV r) = true ->
      fst (verifyPassword wc env' password (passwordHash r) (salt r) w')
        = Ok true ->
      fst (decryptData wc (ToString (encryptedApiKey r))
             (ToString (apiKeyIV r)) password (salt r) w') = Ok apiKey ->
      exists w'',
        unlockApiKey wc env' password w' = (Ok succeeded, w'') /\
        decryptedApiKey w'' = Some apiKey)
  /\
  (forall env0 w0,
      decryptedApiKey (snd (lock w0)) = None /\
      decryptedApiKey (snd (pageLoad env0 w0)) = None).
Proof.
  intros Hempty Hrun Hok.
  assert (Hs : decryptedApiKey w' = None).
  { pose proof (loginWithBiometric_secret env w) as H.
    rewrite Hrun in H. cbn [snd] in H. congruence. }
  split; [|split; [|split]].
  - rewrite loginWithBiometric_run in Hrun. cbv zeta in Hrun.
    destruct (_ || _).
    { injection Hrun as <- <-. discriminate Hok. }
    destruct (base64ToBuffer _).
    2:{ injection Hrun as <- <-. discriminate Hok. }
    destruct (credentials_get env).
    2:{ injection Hrun as <- <-. discriminate Hok. }
    injection Hrun as <- <-. repeat split; try reflexivity; assumption.
  - intros steps Hend. apply secret_stays_empty; assumption.
  - intros env' password r apiKey Hr Henc Hiv Hv Hd.
    destruct (unlockApiKey_right wc env' password w' r apiKey Hr Henc Hiv Hv Hd)
      as (w'' & H1 & H2 & _).
    exists w''. split; assumption.
  - intros env0 w0. split; [apply lock_secret | apply pageLoad_secret].
Qed.

Lemma biometric_login_leaves_secret_locked_witness :
  decryptedApiKey Sample.world4 = None /\
  success (mkOutcome true None None (Some true)) = true /\
  decryptedApiKey (snd (loginWithBiometric (Sample.envAt 1700) Sample.world4))
  = None /\
  isAuthenticated
    (authState (snd (loginWithBiometric (Sample.envAt 1700) Sample.world4)))
  = true.
Proof.
  split; [reflexivity|]. split; [reflexivity|].
  destruct (biometric_login_leaves_secret_locked Sample.crypto
              (Sample.envAt 1700) Sample.world4
              (mkOutcome true None None (Some true))
              (snd (loginWithBiometric (Sample.envAt 1700) Sample.world4))
              eq_refl eq_refl eq_refl) as ((H1 & _ & H2 & _) & _).
  split; assumption.
Defined.

(** C3 as stated fails on two counts. In the state reached by a setup, a
    save of the secret and the enabling of biometrics, a secret is stored
    and a biometric login succeeds with the decrypted secret in memory.
    And after a biometric login from the locked state, a password login
    with the right password puts the secret in memory though
    [unlockApiKey] was never called. *)
Lemma biometric_login_claim_fails :
  Sample.world3
  = performAll Sample.crypto
      [(Sample.envAt 1000, SetupAccount (js "hunter22") None);
       (Sample.envAt 1500, SaveApiKey (js "sk-abc123") None);
       (Sample.envAt 1600, EnableBiometric)] Sample.world0 /\
  truthy_string (encryptedApiKey (spread (auth (db Sample.world3)))) = true /\
  fst (loginWithBiometric (Sample.envAt 1700) Sample.world3)
  = Ok (mkOutcome true None None (Some true)) /\
  decryptedApiKey (snd (loginWithBiometric (Sample.envAt 1700) Sample.world3))
  = Some (js "sk-abc123") /\
  decryptedApiKey Sample.world4 = None /\
  decryptedApiKey
    (performAll Sample.crypto
       [(Sample.envAt 1700, LoginWithBiometric);
        (Sample.envAt 1800, LoginWithPassword (js "hunter22"))]
       Sample.world4)
  = Some (js "sk-abc123").
Proof. repeat apply conj; vm_compute; reflexivity. Qed.

(** ** The secret cipher *)

Lemma forallb_is_byte (l : list Z) :
  forallb (fun b => inRange 0 b 255) l = true -> Forall is_byte l.
Proof.
  intros H. apply Forall_forall. intros b Hb.
  rewrite forallb_forall in H. specialize (H b Hb).
  unfold inRange in H. apply andb_true_iff in H as [H1 H2].
  apply Z.leb_le in H1, H2. unfold is_byte. lia.
Qed.

(** C7, as the code has it. For every password and salt, and every
    plaintext that is a well-formed string (no unpaired surrogate) and does
    not begin with U+FEFF, decrypting what [encryptData] returned (its
    ciphertext and its nonce) under the same password and salt returns the
    plaintext, given that AES-GCM decryption undoes encryption. *)
Theorem decrypt_after_encrypt wc env M P S w encrypted iv w1 :
  AES_GCM_contract wc ->
  Encoding.wellFormed M = true ->
  Encoding.startsWithBOM M = false ->
  encryptData wc env M P (Some S) w = (Ok (encrypted, iv), w1) ->
  forall w2, fst (decryptData wc encrypted iv P (Some S) w2) = Ok M.
Proof.
  intros Hgcm Hwf Hbom Henc w2.
  rewrite encryptData_run in Henc. rewrite decryptData_run.
  destruct (base64ToBuffer (ToString (Some S))) as [sb|e]; [|discriminate].
  cbv zeta in *.
  match type of Henc with
  | (Ok (?c, ?i), _) = _ =>
      assert (Hc : encrypted = c) by congruence;
      assert (Hi : iv = i) by congruence
  end.
  rewrite Hc, Hi. clear Henc Hc Hi.
  pose proof (forallb_is_byte _ (EncodingFacts.TextEncoder_bytes M Hwf)) as Hpt.
  destruct (Hgcm (PBKDF2 wc (Encoding.TextEncoder_encode P) sb
                    PBKDF2_ITERATIONS 256)
                 (generateIV env) (Encoding.TextEncoder_encode M) Hpt)
    as [Hct Hinv].
  rewrite base64ToBuffer_encode by apply asUint8Array_is_byte.
  rewrite base64ToBuffer_encode by apply asUint8Array_is_byte.
  rewrite (asUint8Array_id _ Hct).
  unfold generateIV at 1, getRandomValues.
  rewrite (asUint8Array_id _ (asUint8Array_is_byte _)).
  fold (getRandomValues env 23 IV_LENGTH). fold (generateIV env).
  rewrite Hinv. cbn [fst].
  rewrite EncodingFacts.TextDecoder_TextEncoder by assumption. reflexivity.
Qed.

Lemma digest_byte (l : list Z) : is_byte (Sample.digest l).
Proof.
  unfold Sample.digest.
  assert (G : forall acc, is_byte acc ->
                is_byte (fold_left (fun a b => (a * 31 + b + 7) mod 256) l acc)).
  { induction l as [|b l IH]; intros acc Ha; [exact Ha|].
    cbn [fold_left]. apply IH. unfold is_byte. apply Z.mod_pos_bound. lia. }
  apply G. unfold is_byte. lia.
Qed.

Lemma Sample_crypto_contract : AES_GCM_contract Sample.crypto.
Proof.
  intros key iv plaintext H. split.
  - constructor; [apply digest_byte | exact H].
  - cbn. rewrite Z.eqb_refl. reflexivity.
Qed.

Lemma decrypt_after_encrypt_witness :
  AES_GCM_contract Sample.crypto /\
  Encoding.wellFormed (js "sk-abc123") = true /\
  Encoding.startsWithBOM (js "sk-abc123") = false /\
  fst (decryptData Sample.crypto
         (fst (Sample.sealed (js "sk-abc123")))
         (snd (Sample.sealed (js "sk-abc123")))
         (js "hunter22") (Some Sample.salt1) Sample.world1)
  = Ok (js "sk-abc123").
Proof.
  split; [exact Sample_crypto_contract|].
  split; [reflexivity|]. split; [reflexivity|].
  apply (decrypt_after_encrypt Sample.crypto (Sample.envAt 1500)
           (js "sk-abc123") (js "hunter22") Sample.salt1 Sample.world1
           (fst (Sample.sealed (js "sk-abc123")))
           (snd (Sample.sealed (js "sk-abc123")))
           (snd (encryptData Sample.crypto (Sample.envAt 1500)
                   (js "sk-abc123") (js "hunter22") (Some Sample.salt1)
                   Sample.world1))
           Sample_crypto_contract eq_refl eq_refl).
  vm_compute. reflexivity.
Defined.

(** C7 as stated fails for two kinds of plaintext, with a cipher that
    keeps the contract: a leading U+FEFF is dropped by the decoder, and an
    unpaired surrogate comes back as U+FFFD. *)
Lemma decrypt_after_encrypt_not_identity :
  Sample.roundTrip Sample.bomSecret = Ok (js "sk-abc123") /\
  Sample.bomSecret <> js "sk-abc123" /\
  Sample.roundTrip Sample.loneSurrogate = Ok [0xFFFD] /\
  Sample.loneSurrogate <> [0xFFFD] /\
  Sample.roundTrip (js "sk-abc123") = Ok (js "sk-abc123").
Proof.
  repeat apply conj; try (vm_compute; reflexivity);
    vm_compute; intros H; discriminate H.
Qed.

(** ** A run of the whole *)

(** Setup with "hunter22", save "sk-abc123", lock, log in with
    "hunter22": the secret is decrypted to "sk-abc123". *)
Example setup_save_lock_login :
  let w := performAll Sample.crypto
             [(Sample.envAt 1000, SetupAccount (js "hunter22") None);
              (Sample.envAt 1500, SaveApiKey (js "sk-abc123") None);
              (Sample.envAt 1600, Lock);
              (Sample.envAt 1700, LoginWithPassword (js "hunter22"))]
             Sample.world0 in
  decryptedApiKey w = Some (js "sk-abc123") /\
  isAuthenticated (authState w) = true /\
  session w = Some (1700 + SESSION_TIMEOUT).
Proof. cbv zeta. repeat apply conj; vm_compute; reflexivity. Qed.

(* ===================================================================== *)
(** * Further properties                                                 *)
(* ===================================================================== *)

(** ** crypto.js: text and bytes *)

Lemma encode_length_exact (bs : list Z) :
  Z.of_nat (List.length (Base64.encode bs))
  = 4 * ((Z.of_nat (List.length bs) + 2) / 3).
Proof.
  induction bs as [|a|a b|a b c rest IH] using Base64Facts.list_ind3;
    try reflexivity.
  cbn [Base64.encode List.length]. rewrite !Nat2Z.inj_succ.
  EncodingFacts.arith.
Qed.

(** X1. [base64ToBuffer] undoes [bufferToBase64]: a buffer's text never
    fails to be produced, has four characters for every three bytes
    (rounded up), and decodes to the buffer's bytes. *)
Theorem buffer_base64_round_trip (buffer : Uint8Array) :
  exists text,
    bufferToBase64 buffer = Ok text /\
    Z.of_nat (List.length text)
    = 4 * ((Z.of_nat (List.length buffer) + 2) / 3) /\
    base64ToBuffer text = Ok (asUint8Array buffer).
Proof.
  exists (Base64.encode (asUint8Array buffer)).
  split; [apply bufferToBase64_total|]. split.
  - rewrite encode_length_exact. unfold asUint8Array.
    rewrite length_map. reflexivity.
  - apply base64ToBuffer_encode, asUint8Array_is_byte.
Qed.

Lemma getRandomValues_length env site n :
  List.length (getRandomValues env site n) = n.
Proof.
  unfold getRandomValues, asUint8Array. rewrite !length_map. apply length_seq.
Qed.

Lemma getRandomValues_bytes env site n :
  Forall is_byte (getRandomValues env site n).
Proof. apply asUint8Array_is_byte. Qed.

(** X2. What [hashPassword] returns for a new password verifies: the salt
    text decodes to the 16 bytes drawn from the random source, the same
    password verifies against the returned hash and salt, and any other
    password verifies exactly when its derived hash text is the same. *)
Theorem hash_then_verify wc env env' password w w' :
  exists hash salt64 w1,
    hashPassword wc env password None w = (Ok (hash, salt64), w1) /\
    base64ToBuffer salt64 = Ok (generateSalt env) /\
    List.length (generateSalt env) = SALT_LENGTH /\
    Forall is_byte (generateSalt env) /\
    fst (verifyPassword wc env' password (Some hash) (Some salt64) w')
    = Ok true /\
    forall other,
      fst (verifyPassword wc env' other (Some hash) (Some salt64) w')
      = Ok (list_eqb (hashOf wc other (generateSalt env)) hash).
Proof.
  do 3 eexists. split; [apply hashPassword_fresh|].
  assert (B : Forall is_byte (generateSalt env))
    by apply getRandomValues_bytes.
  assert (D : base64ToBuffer (Base64.encode (asUint8Array (generateSalt env)))
              = Ok (generateSalt env)).
  { rewrite (asUint8Array_id _ B). apply base64ToBuffer_encode, B. }
  split; [exact D|]. split; [apply getRandomValues_length|].
  split; [exact B|].
  assert (V : forall other,
             fst (verifyPassword wc env' other
                    (Some (hashOf wc password (generateSalt env)))
                    (Some (Base64.encode (asUint8Array (generateSalt env))))
                    w')
             = Ok (list_eqb (hashOf wc other (generateSalt env))
                     (hashOf wc password (generateSalt env)))).
  { intros other. rewrite verifyPassword_run. cbn [ToString].
    rewrite D. reflexivity. }
  split; [|exact V]. rewrite V, list_eqb_refl. reflexivity.
Qed.

(** ** The remaining functions of the context, case by case *)

Lemma login_throws wc env pw w r e :
  auth (db w) = Some r ->
  lockoutActive r (Date_now env 215) = false ->
  fst (verifyPassword wc env pw (passwordHash r) (salt r) w) = Throw e ->
  loginWithPassword wc env pw w
  = (Ok (failed (ErrorMessage e)), add_console "Login error:" e w).
Proof.
  intros Hr Hfree Hv.
  rewrite (loginWithPassword_unfold wc env pw w r Hr), Hfree.
  unfold loginCatch, try_catch.
  rewrite (evaluateAttempt_throws wc env r pw w e Hv). reflexivity.
Qed.

Lemma login_no_account wc env pw w :
  auth (db w) = None ->
  loginWithPassword wc env pw w = (Ok (failed NoAccountFound), w).
Proof.
  intros Hr. unfold loginWithPassword, try_catch, bind, getAuthData.
  rewrite Hr. reflexivity.
Qed.

Lemma login_locked wc env pw w r :
  auth (db w) = Some r ->
  lockoutActive r (Date_now env 215) = true ->
  snd (loginWithPassword wc env pw w) = w.
Proof.
  intros Hr Hl. rewrite (loginWithPassword_unfold wc env pw w r Hr), Hl.
  reflexivity.
Qed.

Lemma saveApiKey_run wc env apiKey password w :
  saveApiKey wc env apiKey password w =
  let password' := match password with
                   | Some p => Some p
                   | None => currentPassword w
                   end in
  if negb (truthy_string password') then (Ok (failed PasswordRequired), w)
  else
    match auth (db w) with
    | None =>
        (Ok (failed (ErrorMessage TypeError)),
         add_console "Save API key error:" TypeError w)
    | Some r =>
        match base64ToBuffer (ToString (salt r)) with
        | Throw e =>
            (Ok (failed (ErrorMessage e)),
             add_console "Save API key error:" e w)
        | Ok sb =>
            let enc := ciphertextOf wc env apiKey (ToString password') sb in
            (Ok succeeded,
             set_authState
               (mkAuthState (isLoading (authState w))
                  (needsSetup (authState w)) (isAuthenticated (authState w))
                  (Some (with_apiKey (Some enc) (Some (nonceOf env))
                           (spread (authData (authState w))))))
               (set_decryptedApiKey (Some apiKey)
                  (stored (with_apiKey (Some enc) (Some (nonceOf env)) r)
                     (add_derivation
                        (mkDerivation (ToString password') sb (js "encrypt"))
                        w))))
        end
    end.
Proof.
  cbv zeta. unfold saveApiKey, try_catch.
  destruct (negb (truthy_string _)); [reflexivity|].
  unfold bind at 1, getAuthData.
  destruct (auth (db w)) as [r|]; [|reflexivity].
  unfold bind at 1. rewrite encryptData_run.
  destruct (base64ToBuffer (ToString (salt r))) as [sb|e]; reflexivity.
Qed.

Lemma isBiometricAvailable_run env w :
  isBiometricAvailable env w = (Ok (biometricAvailable env), w).
Proof.
  unfold isBiometricAvailable, biometricAvailable, ret.
  destruct (negb (isWebAuthnSupported env)); [reflexivity|].
  destruct (platformAuthenticator env); reflexivity.
Qed.

Lemma enableBiometric_run env w :
  enableBiometric env w =
  if negb (biometricAvailable env)
  then (Ok (failed BiometricNotAvailable), w)
  else
    match auth (db w) with
    | None =>
        (Ok (failed (ErrorMessage TypeError)),
         add_console "Enable biometric error:" TypeError w)
    | Some r =>
        match credentials_create env with
        | Throw e =>
            (Ok (failed (ErrorMessage e)),
             add_console "Enable biometric error:" e w)
        | Ok rawId =>
            let c := Base64.encode (asUint8Array rawId) in
            (Ok succeeded,
             set_authState
               (mkAuthState (isLoading (authState w))
                  (needsSetup (authState w)) (isAuthenticated (authState w))
                  (Some (with_biometric (Some true) (Some c)
                           (spread (authData (authState w))))))
               (stored (with_biometric (Some true) (Some c) r) w))
        end
    end.
Proof.
  unfold enableBiometric, try_catch, bind at 1.
  rewrite isBiometricAvailable_run.
  destruct (negb (biometricAvailable env)); [reflexivity|].
  unfold bind at 1, getAuthData.
  destruct (auth (db w)) as [r|]; [|reflexivity].
  unfold bind at 1, registerBiometric, bind at 1, lift.
  destruct (credentials_create env) as [c|e]; [|reflexivity].
  rewrite bufferToBase64_total. reflexivity.
Qed.

Lemma disableBiometric_run w :
  disableBiometric w =
  (Ok succeeded,
   set_authState
     (mkAuthState (isLoading (authState w)) (needsSetup (authState w))
        (isAuthenticated (authState w))
        (Some (with_biometric (Some false) None
                 (spread (authData (authState w))))))
     (stored (with_biometric (Some false) None (spread (auth (db w)))) w)).
Proof. reflexivity. Qed.

Lemma initAuth_run env w :
  initAuth env w =
  let hasSetup := match auth (db w) with
                  | Some r => truthy_string (passwordHash r)
                  | None => false
                  end in
  match session w with
  | Some expiresAt =>
      if hasSetup then
        if Date_now env 53 <? expiresAt then
          (Ok tt, set_authState (mkAuthState false false true (auth (db w))) w)
        else
          (Ok tt,
           set_authState (mkAuthState false false false (auth (db w)))
             (set_session None w))
      else
        (Ok tt, set_authState (mkAuthState false true false (auth (db w))) w)
  | None =>
      (Ok tt,
       set_authState (mkAuthState false (negb hasSetup) false (auth (db w))) w)
  end.
Proof.
  cbv zeta.
  unfold initAuth, try_catch, bind, hasAuthSetup, getAuthData,
    sessionStorage_getItem, sessionStorage_removeItem, setAuthState, ret.
  cbn.
  destruct (session w) as [t|]; [|reflexivity].
  destruct (match auth (db w) with Some _ => _ | None => _ end);
    [|reflexivity].
  destruct (Date_now env 53 <? t); reflexivity.
Qed.

Lemma unlockApiKey_no_account wc env pw w :
  auth (db w) = None ->
  unlockApiKey wc env pw w
  = (Ok (failed FailedToDecrypt),
     add_console "Unlock API key error:" TypeError w).
Proof.
  intros Hr. unfold unlockApiKey, try_catch, bind, getAuthData.
  rewrite Hr. reflexivity.
Qed.

Lemma unlockApiKey_no_secret wc env pw w r :
  auth (db w) = Some r ->
  truthy_string (encryptedApiKey r) && truthy_string (apiKeyIV r) = false ->
  unlockApiKey wc env pw w = (Ok (failed NoApiKeyStored), w).
Proof.
  intros Hr Hs. unfold unlockApiKey, try_catch, bind, getAuthData.
  rewrite Hr. rewrite <- negb_andb, Hs. reflexivity.
Qed.

(** ** Setup, save, lock, login *)

Lemma verify_setupRecord wc env0 env1 P target w :
  fst (verifyPassword wc env1 P
         (passwordHash (setupRecord wc env0 P target))
         (salt (setupRecord wc env0 P target)) w) = Ok true.
Proof.
  rewrite verifyPassword_run. cbn [setupRecord passwordHash salt ToString].
  assert (B : Forall is_byte (generateSalt env0))
    by apply getRandomValues_bytes.
  rewrite (asUint8Array_id (generateSalt env0) B).
  rewrite (base64ToBuffer_encode (generateSalt env0) B).
  cbn [fst]. rewrite list_eqb_refl. reflexivity.
Qed.

(** X3. After [setupAccount] with a password and [lock], a login with
    that password succeeds whatever the clock and the starting state: it
    authenticates, stores a session, keeps the password in memory, finds no
    secret, and leaves the record as the setup wrote it. *)
Theorem login_after_setup wc env0 env1 password target w :
  let w2 := snd (lock (snd (setupAccount wc env0 password target w))) in
  exists w3,
    loginWithPassword wc env1 password w2 = (Ok succeeded, w3) /\
    isAuthenticated (authState w3) = true /\
    session w3 = Some (Date_now env1 261 + SESSION_TIMEOUT) /\
    currentPassword w3 = Some password /\
    decryptedApiKey w3 = None /\
    auth (db w3) = Some (setupRecord wc env0 password target).
Proof.
  cbv zeta. rewrite setupAccount_run. cbv zeta.
  set (r := setupRecord wc env0 password target).
  match goal with |- context [loginWithPassword _ _ _ ?x] =>
    set (w2 := x) end.
  assert (Hr : auth (db w2) = Some r) by reflexivity.
  assert (Hfree : lockoutActive r (Date_now env1 215) = false) by reflexivity.
  destruct (login_right wc env1 password w2 r Hr Hfree
              (verify_setupRecord wc env0 env1 password target w2))
    as (sb & _ & E).
  cbv zeta in E. rewrite E. eexists. split; [reflexivity|].
  repeat apply conj; reflexivity.
Qed.

(** Decrypting, under the same password and salt, the texts
    [encryptData] returns gives the plaintext back. *)
Lemma decrypt_encrypted wc env M P s sb w :
  AES_GCM_contract wc ->
  Encoding.wellFormed M = true ->
  Encoding.startsWithBOM M = false ->
  base64ToBuffer (ToString s) = Ok sb ->
  fst (decryptData wc (ciphertextOf wc env M P sb) (nonceOf env) P s w)
  = Ok M.
Proof.
  intros Hgcm Hwf Hbom Hs. rewrite decryptData_run, Hs. cbv zeta.
  unfold ciphertextOf, nonceOf, encryptionKey.
  pose proof (forallb_is_byte _ (EncodingFacts.TextEncoder_bytes M Hwf)) as Hpt.
  destruct (Hgcm (PBKDF2 wc (Encoding.TextEncoder_encode P) sb
                    PBKDF2_ITERATIONS 256)
                 (generateIV env) (Encoding.TextEncoder_encode M) Hpt)
    as [Hct Hinv].
  rewrite base64ToBuffer_encode by apply asUint8Array_is_byte.
  rewrite base64ToBuffer_encode by apply asUint8Array_is_byte.
  rewrite (asUint8Array_id _ Hct).
  assert (B : Forall is_byte (generateIV env))
    by apply getRandomValues_bytes.
  rewrite (asUint8Array_id (generateIV env) B).
  rewrite Hinv. cbn [fst].
  rewrite EncodingFacts.TextDecoder_TextEncoder by assumption. reflexivity.
Qed.

Lemma encode_nonempty (bs : list Z) : bs <> [] -> Base64.encode bs <> [].
Proof. destruct bs as [|a [|b [|c rest]]]; cbn; congruence. Qed.

Lemma truthy_text (bs : list Z) :
  bs <> [] -> truthy_string (Some (Base64.encode bs)) = true.
Proof.
  intros H. apply encode_nonempty in H.
  destruct (Base64.encode bs); [congruence | reflexivity].
Qed.

Lemma asUint8Array_nonempty (l : list Z) : l <> [] -> asUint8Array l <> [].
Proof. destruct l; cbn; congruence. Qed.

Lemma ciphertext_truthy wc env M P sb :
  AES_GCM_tagged wc ->
  truthy_string (Some (ciphertextOf wc env M P sb)) = true.
Proof.
  intros H. apply truthy_text, asUint8Array_nonempty, H.
Qed.

Lemma nonce_truthy env : truthy_string (Some (nonceOf env)) = true.
Proof.
  apply truthy_text, asUint8Array_nonempty.
  intros E. pose proof (getRandomValues_length env 23 IV_LENGTH) as L.
  unfold generateIV in E. rewrite E in L. discriminate L.
Qed.

(** The world after a save with a password that is at hand, for a record
    whose salt decodes. *)
Lemma saveApiKey_stores wc env apiKey P w r sb :
  auth (db w) = Some r ->
  P <> [] ->
  base64ToBuffer (ToString (salt r)) = Ok sb ->
  exists w1,
    saveApiKey wc env apiKey (Some P) w = (Ok succeeded, w1) /\
    auth (db w1)
    = Some (with_apiKey (Some (ciphertextOf wc env apiKey P sb))
              (Some (nonceOf env)) r) /\
    decryptedApiKey w1 = Some apiKey /\
    session w1 = session w /\
    currentPassword w1 = currentPassword w /\
    isAuthenticated (authState w1) = isAuthenticated (authState w).
Proof.
  intros Hr HP Hs. rewrite saveApiKey_run. cbv zeta.
  destruct P as [|c P]; [congruence|]. cbn [truthy_string negb ToString].
  rewrite Hr, Hs. eexists. split; [reflexivity|].
  repeat apply conj; reflexivity.
Qed.

(** The record and the tests on it after a save, seen from a later
    world. *)
Lemma after_save wc env env' apiKey P w r sb w' :
  AES_GCM_contract wc -> AES_GCM_tagged wc ->
  Encoding.wellFormed apiKey = true ->
  Encoding.startsWithBOM apiKey = false ->
  base64ToBuffer (ToString (salt r)) = Ok sb ->
  fst (verifyPassword wc env' P (passwordHash r) (salt r) w) = Ok true ->
  let r1 := with_apiKey (Some (ciphertextOf wc env apiKey P sb))
              (Some (nonceOf env)) r in
  truthy_string (encryptedApiKey r1) = true /\
  truthy_string (apiKeyIV r1) = true /\
  fst (verifyPassword wc env' P (passwordHash r1) (salt r1) w') = Ok true /\
  fst (decryptData wc (ToString (encryptedApiKey r1))
         (ToString (apiKeyIV r1)) P (salt r1) w') = Ok apiKey.
Proof.
  intros Hgcm Htag Hwf Hbom Hs Hv. cbv zeta.
  cbn [with_apiKey encryptedApiKey apiKeyIV passwordHash salt ToString].
  split; [apply ciphertext_truthy, Htag|]. split; [apply nonce_truthy|].
  split.
  - rewrite (verifyPassword_fst wc env' env' P _ _ w' w). exact Hv.
  - apply decrypt_encrypted; assumption.
Qed.

(** X4. A secret saved under the password comes back at the next login:
    after [saveApiKey] with the verifying password and [lock] (which
    empties the memory), a login with that password that the lockout lets
    through succeeds and has the saved secret in memory. *)
Theorem saved_secret_returns_on_login wc env1 env2 apiKey P w r :
  AES_GCM_contract wc -> AES_GCM_tagged wc ->
  Encoding.wellFormed apiKey = true ->
  Encoding.startsWithBOM apiKey = false ->
  auth (db w) = Some r ->
  P <> [] ->
  fst (verifyPassword wc env2 P (passwordHash r) (salt r) w) = Ok true ->
  lockoutActive r (Date_now env2 215) = false ->
  let w2 := snd (lock (snd (saveApiKey wc env1 apiKey (Some P) w))) in
  decryptedApiKey w2 = None /\
  exists w3,
    loginWithPassword wc env2 P w2 = (Ok succeeded, w3) /\
    decryptedApiKey w3 = Some apiKey /\
    currentPassword w3 = Some P /\
    isAuthenticated (authState w3) = true.
Proof.
  intros Hgcm Htag Hwf Hbom Hr HP Hv Hfree. cbv zeta.
  split; [reflexivity|].
  destruct (verifyPassword_Ok wc env2 P _ _ w true Hv) as (sb & Hs & _).
  destruct (saveApiKey_stores wc env1 apiKey P w r sb Hr HP Hs)
    as (w1 & E1 & Hr1 & _).
  rewrite E1. cbn [snd].
  set (w2 := snd (lock w1)).
  assert (Hr2 : auth (db w2)
                = Some (with_apiKey (Some (ciphertextOf wc env1 apiKey P sb))
                          (Some (nonceOf env1)) r)) by exact Hr1.
  destruct (after_save wc env1 env2 apiKey P w r sb w2
              Hgcm Htag Hwf Hbom Hs Hv) as (T1 & T2 & V2 & D2).
  destruct (login_right wc env2 P w2 _ Hr2 Hfree V2) as (sb' & _ & E).
  cbv zeta in E. rewrite E. eexists. split; [reflexivity|].
  split; [|split; reflexivity].
  cbn [afterLogin decryptedApiKey set_authState set_decryptedApiKey].
  unfold loginSecret. rewrite T1, T2, D2. reflexivity.
Qed.

(** X5. The same secret comes back through [unlockApiKey]: after the save
    and [lock], an unlock with the verifying password succeeds with the
    saved secret and the password in memory, and, not being a login, it
    leaves the state unauthenticated and stores no session. *)
Theorem saved_secret_returns_on_unlock wc env1 env2 apiKey P w r :
  AES_GCM_contract wc -> AES_GCM_tagged wc ->
  Encoding.wellFormed apiKey = true ->
  Encoding.startsWithBOM apiKey = false ->
  auth (db w) = Some r ->
  P <> [] ->
  fst (verifyPassword wc env2 P (passwordHash r) (salt r) w) = Ok true ->
  let w2 := snd (lock (snd (saveApiKey wc env1 apiKey (Some P) w))) in
  exists w3,
    unlockApiKey wc env2 P w2 = (Ok succeeded, w3) /\
    decryptedApiKey w3 = Some apiKey /\
    currentPassword w3 = Some P /\
    isAuthenticated (authState w3) = false /\
    session w3 = None.
Proof.
  intros Hgcm Htag Hwf Hbom Hr HP Hv. cbv zeta.
  destruct (verifyPassword_Ok wc env2 P _ _ w true Hv) as (sb & Hs & _).
  destruct (saveApiKey_stores wc env1 apiKey P w r sb Hr HP Hs)
    as (w1 & E1 & Hr1 & _).
  rewrite E1. cbn [snd].
  set (w2 := snd (lock w1)).
  assert (Hr2 : auth (db w2)
                = Some (with_apiKey (Some (ciphertextOf wc env1 apiKey P sb))
                          (Some (nonceOf env1)) r)) by exact Hr1.
  destruct (after_save wc env1 env2 apiKey P w r sb w2
              Hgcm Htag Hwf Hbom Hs Hv) as (T1 & T2 & V2 & D2).
  rewrite (unlockApiKey_run wc env2 P w2 _ Hr2 T1 T2).
  destruct (verifyPassword_Ok wc env2 P _ _ w2 true V2) as (sb2 & _ & Hrun).
  rewrite Hrun.
  pose proof (decryptData_frame wc
                (ToString (encryptedApiKey
                   (with_apiKey (Some (ciphertextOf wc env1 apiKey P sb))
                      (Some (nonceOf env1)) r)))
                (ToString (apiKeyIV
                   (with_apiKey (Some (ciphertextOf wc env1 apiKey P sb))
                      (Some (nonceOf env1)) r)))
                P
                (salt (with_apiKey (Some (ciphertextOf wc env1 apiKey P sb))
                         (Some (nonceOf env1)) r))
                (add_derivation (mkDerivation P sb2 (js "hash")) w2)) as F.
  cbv zeta in F.
  rewrite (decryptData_fst wc _ _ P _ w2
             (add_derivation (mkDerivation P sb2 (js "hash")) w2)) in D2.
  destruct (decryptData _ _ _ _ _ _) as [[k|e] w3]; cbn [fst snd] in *;
    [|discriminate].
  injection D2 as ->. destruct F as (_ & F2 & F3 & _).
  eexists. split; [reflexivity|].
  cbn [decryptedApiKey currentPassword authState session
       set_decryptedApiKey set_currentPassword].
  rewrite F2, F3. repeat apply conj; reflexivity.
Qed.

Lemma Sample_crypto_tagged : AES_GCM_tagged Sample.crypto.
Proof. intros key iv plaintext. cbn. discriminate. Qed.

Lemma saved_secret_returns_on_login_witness :
  auth (db Sample.world1) = Some Sample.record1 /\
  lockoutActive Sample.record1 (Date_now (Sample.envAt 1700) 215) = false /\
  exists w3,
    loginWithPassword Sample.crypto (Sample.envAt 1700) (js "hunter22")
      (snd (lock (snd (saveApiKey Sample.crypto (Sample.envAt 1500)
                         (js "sk-abc123") (Some (js "hunter22"))
                         Sample.world1))))
    = (Ok succeeded, w3) /\
    decryptedApiKey w3 = Some (js "sk-abc123").
Proof.
  split; [reflexivity|]. split; [reflexivity|].
  destruct (saved_secret_returns_on_login Sample.crypto (Sample.envAt 1500)
              (Sample.envAt 1700) (js "sk-abc123") (js "hunter22")
              Sample.world1 Sample.record1
              Sample_crypto_contract Sample_crypto_tagged eq_refl eq_refl
              eq_refl ltac:(discriminate) eq_refl eq_refl)
    as (_ & w3 & H1 & H2 & _).
  exists w3. split; assumption.
Defined.

Lemma saved_secret_returns_on_unlock_witness :
  auth (db Sample.world1) = Some Sample.record1 /\
  exists w3,
    unlockApiKey Sample.crypto (Sample.envAt 1700) (js "hunter22")
      (snd (lock (snd (saveApiKey Sample.crypto (Sample.envAt 1500)
                         (js "sk-abc123") (Some (js "hunter22"))
                         Sample.world1))))
    = (Ok succeeded, w3) /\
    decryptedApiKey w3 = Some (js "sk-abc123") /\
    isAuthenticated (authState w3) = false.
Proof.
  split; [reflexivity|].
  destruct (saved_secret_returns_on_unlock Sample.crypto (Sample.envAt 1500)
              (Sample.envAt 1700) (js "sk-abc123") (js "hunter22")
              Sample.world1 Sample.record1
              Sample_crypto_contract Sample_crypto_tagged eq_refl eq_refl
              eq_refl ltac:(discriminate) eq_refl)
    as (w3 & H1 & H2 & _ & H3 & _).
  exists w3. repeat split; assumption.
Defined.

(** ** saveApiKey *)

(** X6. [saveApiKey] refuses, changing nothing, when it has no password
    (none given and none in memory, or an empty one). With a record stored
    it succeeds exactly when it has a non-empty password and the stored
    salt decodes: the password is not checked against the stored hash. A
    success changes, of the record, only [encryptedApiKey] and [apiKeyIV];
    no call changes the session, the password in memory or the
    authenticated flag, and a failure leaves the database and the secret in
    memory as they were. *)
Theorem saveApiKey_effect wc env apiKey password w r :
  auth (db w) = Some r ->
  let password' := match password with
                   | Some p => Some p
                   | None => currentPassword w
                   end in
  exists out w1,
    saveApiKey wc env apiKey password w = (Ok out, w1) /\
    (truthy_string password' = false ->
     out = failed PasswordRequired /\ w1 = w) /\
    (success out = true <->
     truthy_string password' = true /\
     exists sb, base64ToBuffer (ToString (salt r)) = Ok sb) /\
    (success out = true ->
     decryptedApiKey w1 = Some apiKey /\
     exists r1, auth (db w1) = Some r1 /\ sameExceptSecret r r1 /\
                truthy_string (apiKeyIV r1) = true) /\
    (success out = false ->
     db w1 = db w /\ decryptedApiKey w1 = decryptedApiKey w) /\
    session w1 = session w /\
    currentPassword w1 = currentPassword w /\
    isAuthenticated (authState w1) = isAuthenticated (authState w).
Proof.
  intros Hr. cbv zeta. rewrite saveApiKey_run. cbv zeta. rewrite Hr.
  destruct (truthy_string (match password with
                           | Some p => Some p
                           | None => currentPassword w
                           end)) eqn:Hp; cbn [negb].
  - destruct (base64ToBuffer (ToString (salt r))) as [sb|e] eqn:Hs.
    + do 2 eexists. split; [reflexivity|].
      split; [discriminate|]. split.
      { split; [intros _; split; [reflexivity | exists sb; reflexivity]
               | reflexivity]. }
      split.
      { intros _. split; [reflexivity|]. eexists. split; [reflexivity|].
        split; [repeat split | apply nonce_truthy]. }
      split; [discriminate|]. repeat split.
    + do 2 eexists. split; [reflexivity|].
      split; [discriminate|]. split.
      { split; [discriminate | intros (_ & sb & H); discriminate H]. }
      split; [discriminate|]. repeat split.
  - do 2 eexists. split; [reflexivity|].
    split; [intros _; split; reflexivity|]. split.
    { split; [discriminate | intros (H & _); discriminate H]. }
    split; [discriminate|]. repeat split.
Qed.

Lemma saveApiKey_effect_witness :
  auth (db Sample.world4) = Some (spread (auth (db Sample.world4))) /\
  saveApiKey Sample.crypto (Sample.envAt 2000) (js "sk-new") None
    Sample.world4
  = (Ok (failed PasswordRequired), Sample.world4).
Proof.
  split; [reflexivity|].
  destruct (saveApiKey_effect Sample.crypto (Sample.envAt 2000) (js "sk-new")
              None Sample.world4 (spread (auth (db Sample.world4))) eq_refl)
    as (out & w1 & E & H & _).
  destruct (H eq_refl) as [-> ->]. exact E.
Defined.

(** ** Biometrics *)

(** X7. A biometric login never writes the database and never touches the
    secret or the password in memory. It succeeds exactly when biometrics
    are enabled with a credential id that decodes and the authenticator
    consents: [lockoutUntil] and [failedAttempts] play no part, so it
    succeeds during a lockout too, and a refusal is not counted. A failure
    leaves the session store and the provider's state as they were. *)
Theorem biometric_login_effect env w :
  exists out w',
    loginWithBiometric env w = (Ok out, w') /\
    db w' = db w /\
    decryptedApiKey w' = decryptedApiKey w /\
    currentPassword w' = currentPassword w /\
    derivations w' = derivations w /\
    (success out = true <->
     truthy_bool (biometricEnabled (spread (auth (db w)))) = true /\
     truthy_string (biometricCredentialId (spread (auth (db w)))) = true /\
     (exists bytes,
         base64ToBuffer
           (ToString (biometricCredentialId (spread (auth (db w)))))
         = Ok bytes) /\
     credentials_get env = true) /\
    (success out = true ->
     isAuthenticated (authState w') = true /\
     session w' = Some (Date_now env 296 + SESSION_TIMEOUT)) /\
    (success out = false ->
     session w' = session w /\ authState w' = authState w).
Proof.
  rewrite loginWithBiometric_run. cbv zeta.
  destruct (truthy_bool (biometricEnabled (spread (auth (db w))))) eqn:He;
    cbn [negb orb];
    [destruct (truthy_string (biometricCredentialId (spread (auth (db w)))))
       eqn:Hc; cbn [negb];
     [destruct (base64ToBuffer _) as [bytes|e] eqn:Hb;
      [destruct (credentials_get env) eqn:Hg|]|]|];
    do 2 eexists; (split; [reflexivity|]);
    repeat apply conj; try reflexivity; try discriminate;
    try solve [intros; firstorder congruence].
  intros _. repeat apply conj; try reflexivity. exists bytes. reflexivity.
Qed.

(** X8. After biometrics have been enabled, a biometric login with a
    consenting authenticator succeeds from the locked state, provided the
    authenticator's raw credential id is not empty; with an empty raw id
    the stored credential id is the empty text and the login answers
    "Biometric not enabled". *)
Theorem biometric_login_after_enable env0 env1 w r rawId :
  auth (db w) = Some r ->
  biometricAvailable env0 = true ->
  credentials_create env0 = Ok rawId ->
  credentials_get env1 = true ->
  let w2 := snd (lock (snd (enableBiometric env0 w))) in
  fst (enableBiometric env0 w) = Ok succeeded /\
  auth (db w2)
  = Some (with_biometric (Some true)
            (Some (Base64.encode (asUint8Array rawId))) r) /\
  (rawId <> [] ->
   exists w3,
     loginWithBiometric env1 w2
     = (Ok (mkOutcome true None None
              (Some (truthy_string (encryptedApiKey r)))), w3) /\
     isAuthenticated (authState w3) = true /\
     decryptedApiKey w3 = None) /\
  (rawId = [] ->
   loginWithBiometric env1 w2 = (Ok (failed BiometricNotEnabled), w2)).
Proof.
  intros Hr Ha Hc Hg. cbv zeta.
  rewrite enableBiometric_run, Ha, Hr, Hc. cbn [negb fst snd].
  split; [reflexivity|]. split; [reflexivity|].
  match goal with |- context [loginWithBiometric env1 ?x] =>
    set (w2 := x) end.
  assert (Hs : spread (auth (db w2))
               = with_biometric (Some true)
                   (Some (Base64.encode (asUint8Array rawId))) r)
    by reflexivity.
  split.
  - intros Hne. rewrite loginWithBiometric_run. cbv zeta. rewrite Hs.
    cbn [biometricEnabled biometricCredentialId with_biometric
         encryptedApiKey truthy_bool negb orb].
    rewrite (truthy_text _ (asUint8Array_nonempty rawId Hne)).
    cbn [negb ToString].
    rewrite (base64ToBuffer_encode _ (asUint8Array_is_byte rawId)), Hg.
    eexists. split; [reflexivity|]. split; reflexivity.
  - intros ->. rewrite loginWithBiometric_run. reflexivity.
Qed.

Lemma biometric_login_after_enable_witness :
  auth (db Sample.world2) = Some (spread (auth (db Sample.world2))) /\
  biometricAvailable (Sample.envAt 1600) = true /\
  credentials_create (Sample.envAt 1600) = Ok [1; 2; 3] /\
  credentials_get (Sample.envAt 1700) = true /\
  fst (enableBiometric (Sample.envAt 1600) Sample.world2) = Ok succeeded /\
  fst (loginWithBiometric (Sample.envAt 1700)
         (snd (lock (snd (enableBiometric (Sample.envAt 1600)
                            Sample.world2)))))
  = Ok (mkOutcome true None None (Some true)).
Proof.
  split; [reflexivity|]. split; [reflexivity|].
  split; [reflexivity|]. split; [reflexivity|].
  destruct (biometric_login_after_enable (Sample.envAt 1600)
              (Sample.envAt 1700) Sample.world2
              (spread (auth (db Sample.world2))) [1; 2; 3]
              eq_refl eq_refl eq_refl eq_refl) as (H1 & _ & H2 & _).
  split; [exact H1|].
  destruct (H2 ltac:(discriminate)) as (w3 & E & _).
  rewrite E. reflexivity.
Defined.

(** X9. [disableBiometric] asks for nothing and never fails. After an
    enabling, it leaves the record without a credential id and with
    biometrics off, every other field as it was before the enabling, and a
    biometric login then answers "Biometric not enabled" and changes
    nothing. *)
Theorem disable_undoes_enable env0 env1 w r :
  auth (db w) = Some r ->
  let w2 := snd (disableBiometric (snd (enableBiometric env0 w))) in
  fst (disableBiometric (snd (enableBiometric env0 w))) = Ok succeeded /\
  (exists r2,
      auth (db w2) = Some r2 /\
      biometricEnabled r2 = Some false /\
      biometricCredentialId r2 = None /\
      sameExceptBiometric r r2) /\
  loginWithBiometric env1 w2 = (Ok (failed BiometricNotEnabled), w2).
Proof.
  intros Hr. cbv zeta. split; [reflexivity|].
  assert (A : exists r1, auth (db (snd (enableBiometric env0 w))) = Some r1
                         /\ sameExceptBiometric r r1).
  { rewrite enableBiometric_run, Hr.
    destruct (negb (biometricAvailable env0));
      [exists r; split; [exact Hr | repeat split]|].
    destruct (credentials_create env0);
      [eexists; split; [reflexivity | repeat split]
      | exists r; split; [exact Hr | repeat split]]. }
  destruct A as (r1 & Hr1 & S1). split.
  - rewrite disableBiometric_run. cbn [snd db auth stored set_db set_authState].
    rewrite Hr1. eexists. split; [reflexivity|].
    split; [reflexivity|]. split; [reflexivity|]. exact S1.
  - rewrite loginWithBiometric_run, disableBiometric_run. reflexivity.
Qed.

Lemma disable_undoes_enable_witness :
  auth (db Sample.world2) = Some (spread (auth (db Sample.world2))) /\
  fst (loginWithBiometric (Sample.envAt 1700)
         (snd (disableBiometric
                 (snd (enableBiometric (Sample.envAt 1600) Sample.world2)))))
  = Ok (failed BiometricNotEnabled).
Proof.
  split; [reflexivity|].
  destruct (disable_undoes_enable (Sample.envAt 1600) (Sample.envAt 1700)
              Sample.world2 (spread (auth (db Sample.world2))) eq_refl)
    as (_ & _ & E).
  rewrite E. reflexivity.
Defined.

(** ** Page load and the session *)

(** X10. When the provider starts, [initAuth] copies the stored record
    into the state and never touches the database or the memory. The state
    is authenticated exactly when a session is stored, a record with a
    password hash exists and the session's expiry lies after the clock; a
    stored session that has expired is removed from the session store, and
    [needsSetup] is set exactly when no record with a password hash
    exists. *)
Theorem initAuth_restores_session env w :
  let hasSetup := match auth (db w) with
                  | Some r => truthy_string (passwordHash r)
                  | None => false
                  end in
  exists w',
    initAuth env w = (Ok tt, w') /\
    db w' = db w /\
    decryptedApiKey w' = decryptedApiKey w /\
    currentPassword w' = currentPassword w /\
    authData (authState w') = auth (db w) /\
    isLoading (authState w') = false /\
    needsSetup (authState w') = negb hasSetup /\
    (isAuthenticated (authState w') = true <->
     exists expiresAt,
       session w = Some expiresAt /\ hasSetup = true /\
       Date_now env 53 < expiresAt) /\
    (forall expiresAt,
        session w = Some expiresAt -> hasSetup = true ->
        expiresAt <= Date_now env 53 -> session w' = None) /\
    (isAuthenticated (authState w') = true -> session w' = session w).
Proof.
  cbv zeta. rewrite initAuth_run. cbv zeta.
  destruct (session w) as [t|] eqn:Hs.
  - destruct (match auth (db w) with Some _ => _ | None => _ end) eqn:Hh.
    + destruct (Z.ltb_spec (Date_now env 53) t) as [Hlt|Hge].
      * eexists. split; [reflexivity|].
        repeat apply conj; try reflexivity; try discriminate;
        try (intros; reflexivity); try (intros; exact Hs).
        -- intros _. exists t. repeat split; assumption.
        -- intros t' [= <-] _ Hle. lia.
      * eexists. split; [reflexivity|].
        repeat apply conj; try reflexivity; try discriminate;
        try (intros; reflexivity); try (intros; exact Hs).
        intros (t' & [= <-] & _ & Hlt'). lia.
    + eexists. split; [reflexivity|].
      repeat apply conj; try reflexivity; try discriminate;
        try (intros; reflexivity); try (intros; exact Hs).
      intros (t' & _ & H & _). discriminate H.
  - eexists. split; [reflexivity|].
    repeat apply conj; try reflexivity; try discriminate;
        try (intros; reflexivity); try (intros; exact Hs).
    intros (t' & H & _). discriminate H.
Qed.

Lemma pageLoad_run env w :
  let w0 := mkWorld (db w) (session w) (mkAuthState true false false None)
              None None (derivations w) (console w) in
  let hasSetup := match auth (db w) with
                  | Some r => truthy_string (passwordHash r)
                  | None => false
                  end in
  pageLoad env w =
  match session w with
  | Some expiresAt =>
      if hasSetup then
        if Date_now env 53 <? expiresAt then
          (Ok tt,
           set_session (Some (Date_now env 90 + SESSION_TIMEOUT))
             (set_authState (mkAuthState false false true (auth (db w))) w0))
        else
          (Ok tt,
           set_authState (mkAuthState false false false (auth (db w)))
             (set_session None w0))
      else
        (Ok tt, set_authState (mkAuthState false true false (auth (db w))) w0)
  | None =>
      (Ok tt,
       set_authState (mkAuthState false (negb hasSetup) false (auth (db w)))
         w0)
  end.
Proof.
  cbv zeta. unfold pageLoad, bind. rewrite initAuth_run. cbv zeta.
  cbn [db session].
  destruct (session w) as [t|]; [|reflexivity].
  destruct (match auth (db w) with Some _ => _ | None => _ end);
    [|reflexivity].
  destruct (Date_now env 53 <? t); reflexivity.
Qed.

(** Runs of [resetSessionTimeout] in an authenticated state move the
    stored expiry and change nothing else. *)
Lemma activityRuns_run wc activity w first :
  isAuthenticated (authState w) = true ->
  session w = Some first ->
  let w' := performAll wc (activityRuns activity) w in
  session w' = Some (sessionExpiry first activity) /\
  db w' = db w /\ authState w' = authState w /\
  decryptedApiKey w' = decryptedApiKey w /\
  currentPassword w' = currentPassword w.
Proof.
  cbv zeta. revert w first.
  induction activity as [|env activity IH]; intros w first Ha Hs.
  - cbn. repeat split. exact Hs.
  - cbn [activityRuns map performAll perform fst snd].
    rewrite resetSessionTimeout_run, Ha. cbn [snd].
    destruct (IH (set_session (Some (Date_now env 90 + SESSION_TIMEOUT)) w)
                (Date_now env 90 + SESSION_TIMEOUT) Ha eq_refl)
      as (I1 & I2 & I3 & I4 & I5).
    fold (activityRuns activity).
    repeat split; assumption.
Qed.

(** X11. A page load after a successful password login and any runs of
    [resetSessionTimeout], which the activity effect makes once the state
    is authenticated and again at every activity of the user. The stored
    session expires 30 minutes after the login, or after the last such
    run when there was one. A page load before that expiry leaves the state
    authenticated and renews the session to 30 minutes after the load,
    but the secret and the password are gone from memory, so that
    [needsApiKeyUnlock] holds exactly when a secret is stored; a page
    load at or after the expiry leaves the state unauthenticated and
    removes the session. *)
Theorem session_across_reload wc env1 activity env2 P w r :
  auth (db w) = Some r ->
  truthy_string (passwordHash r) = true ->
  lockoutActive r (Date_now env1 215) = false ->
  fst (verifyPassword wc env1 P (passwordHash r) (salt r) w) = Ok true ->
  let w1 := performAll wc (activityRuns activity)
              (snd (loginWithPassword wc env1 P w)) in
  let expiresAt :=
    sessionExpiry (Date_now env1 261 + SESSION_TIMEOUT) activity in
  let w2 := snd (pageLoad env2 w1) in
  session w1 = Some expiresAt /\
  decryptedApiKey w2 = None /\ currentPassword w2 = None /\
  (Date_now env2 53 < expiresAt ->
   isAuthenticated (authState w2) = true /\
   session w2 = Some (Date_now env2 90 + SESSION_TIMEOUT) /\
   needsApiKeyUnlock w2 = truthy_string (encryptedApiKey r)) /\
  (expiresAt <= Date_now env2 53 ->
   isAuthenticated (authState w2) = false /\ session w2 = None).
Proof.
  intros Hr Hh Hfree Hv. cbv zeta.
  destruct (login_right wc env1 P w r Hr Hfree Hv) as (sb & _ & E).
  cbv zeta in E. rewrite E. cbn [snd].
  match goal with |- context [performAll wc _ ?x] => set (w0 := x) end.
  assert (S0 : session w0 = Some (Date_now env1 261 + SESSION_TIMEOUT)).
  { unfold w0.
    destruct (truthy_string (encryptedApiKey r) && truthy_string (apiKeyIV r));
      [destruct (fst (decryptData _ _ _ _ _ _))|]; reflexivity. }
  assert (D0 : auth (db w0)
               = Some (with_failedAttempts (Some 0)
                         (with_lockoutUntil None r))).
  { unfold w0.
    destruct (truthy_string (encryptedApiKey r) && truthy_string (apiKeyIV r));
      [destruct (fst (decryptData _ _ _ _ _ _))|]; reflexivity. }
  assert (A0 : isAuthenticated (authState w0) = true) by reflexivity.
  destruct (activityRuns_run wc activity w0 _ A0 S0) as (S1 & D1 & _).
  set (w1 := performAll wc (activityRuns activity) w0) in *.
  set (expiresAt :=
         sessionExpiry (Date_now env1 261 + SESSION_TIMEOUT) activity) in *.
  split; [exact S1|].
  rewrite pageLoad_run. cbv zeta. rewrite S1, D1, D0.
  cbn [passwordHash with_failedAttempts with_lockoutUntil]. rewrite Hh.
  destruct (Z.ltb_spec (Date_now env2 53) expiresAt) as [Hlt|Hge];
    cbn [snd]; (split; [reflexivity|]); (split; [reflexivity|]);
    (split; [intros H | intros H]); try lia.
  - repeat apply conj; try reflexivity. unfold needsApiKeyUnlock.
    cbn. destruct (truthy_string (encryptedApiKey r)); reflexivity.
  - split; reflexivity.
Qed.

Lemma session_across_reload_witness :
  auth (db Sample.world4) = Some (spread (auth (db Sample.world4))) /\
  needsApiKeyUnlock
    (snd (pageLoad (Sample.envAt 1801700)
            (performAll Sample.crypto (activityRuns [Sample.envAt 100000])
               (snd (loginWithPassword Sample.crypto (Sample.envAt 1700)
                       (js "hunter22") Sample.world4))))) = true /\
  isAuthenticated
    (authState
       (snd (pageLoad (Sample.envAt 1900000)
               (performAll Sample.crypto (activityRuns [Sample.envAt 100000])
                  (snd (loginWithPassword Sample.crypto (Sample.envAt 1700)
                          (js "hunter22") Sample.world4)))))) = false.
Proof.
  split; [reflexivity|].
  destruct (session_across_reload Sample.crypto (Sample.envAt 1700)
              [Sample.envAt 100000] (Sample.envAt 1801700) (js "hunter22")
              Sample.world4 (spread (auth (db Sample.world4)))
              eq_refl eq_refl eq_refl eq_refl) as (_ & _ & _ & H & _).
  destruct (H ltac:(vm_compute; reflexivity)) as (_ & _ & ->).
  split; [reflexivity|].
  destruct (session_across_reload Sample.crypto (Sample.envAt 1700)
              [Sample.envAt 100000] (Sample.envAt 1900000) (js "hunter22")
              Sample.world4 (spread (auth (db Sample.world4)))
              eq_refl eq_refl eq_refl eq_refl) as (_ & _ & _ & _ & H').
  destruct (H' ltac:(vm_compute; congruence)) as (-> & _). reflexivity.
Defined.

(** X12. After a successful biometric login made with an empty memory,
    [needsApiKeyUnlock] is the [needsPasswordForApiKey] flag the login
    returned, and both are [hasApiKey]: true exactly when the stored record
    has a secret. *)
Theorem unlock_needed_after_biometric_login env w out w' :
  decryptedApiKey w = None ->
  loginWithBiometric env w = (Ok out, w') ->
  success out = true ->
  needsPasswordForApiKey out = Some (needsApiKeyUnlock w') /\
  needsApiKeyUnlock w' = hasApiKey w' /\
  hasApiKey w' = truthy_string (encryptedApiKey (spread (auth (db w)))).
Proof.
  intros Hempty Hrun Hok.
  rewrite loginWithBiometric_run in Hrun. cbv zeta in Hrun.
  destruct (_ || _); [injection Hrun as <- <-; discriminate Hok|].
  destruct (base64ToBuffer _); [|injection Hrun as <- <-; discriminate Hok].
  destruct (credentials_get env); [|injection Hrun as <- <-; discriminate Hok].
  injection Hrun as <- <-.
  unfold needsApiKeyUnlock, hasApiKey.
  cbn [needsPasswordForApiKey authState set_authState set_session
       isAuthenticated authData decryptedApiKey andb].
  rewrite Hempty. cbn [truthy_string negb].
  rewrite andb_true_r.
  split; [reflexivity|]. split; reflexivity.
Qed.

Lemma unlock_needed_after_biometric_login_witness :
  decryptedApiKey Sample.world4 = None /\
  needsApiKeyUnlock
    (snd (loginWithBiometric (Sample.envAt 1700) Sample.world4)) = true.
Proof.
  split; [reflexivity|].
  destruct (unlock_needed_after_biometric_login
              (Sample.envAt 1700) Sample.world4
              (mkOutcome true None None (Some true))
              (snd (loginWithBiometric (Sample.envAt 1700) Sample.world4))
              eq_refl eq_refl eq_refl) as (H & _).
  cbn [needsPasswordForApiKey] in H. congruence.
Defined.

(** ** Attempts and lockout *)

(** X13. A successful password login resets the attempt state whatever it
    was, an expired lockout included: the stored record gets
    [failedAttempts] 0 and no [lockoutUntil], and nothing else in the
    database changes. The copy of the record in the provider's state is the
    record as it was read, before the reset. *)
Theorem successful_login_resets_attempts wc env P w r :
  auth (db w) = Some r ->
  lockoutActive r (Date_now env 215) = false ->
  fst (verifyPassword wc env P (passwordHash r) (salt r) w) = Ok true ->
  exists w' r',
    loginWithPassword wc env P w = (Ok succeeded, w') /\
    auth (db w') = Some r' /\
    failedAttempts r' = Some 0 /\ lockoutUntil r' = None /\
    sameExceptAttempts r r' /\
    dailyEntries (db w') = dailyEntries (db w) /\
    exerciseHistory (db w') = exerciseHistory (db w) /\
    authData (authState w') = Some r /\
    isAuthenticated (authState w') = true /\
    session w' = Some (Date_now env 261 + SESSION_TIMEOUT).
Proof.
  intros Hr Hfree Hv.
  destruct (login_right wc env P w r Hr Hfree Hv) as (sb & _ & E).
  cbv zeta in E. rewrite E.
  exists (afterLogin env r P (loginSecret wc r P w)
            (if truthy_string (encryptedApiKey r)
                && truthy_string (apiKeyIV r)
             then
               match fst (decryptData wc (ToString (encryptedApiKey r))
                            (ToString (apiKeyIV r)) P (salt r) w) with
               | Ok _ =>
                   add_derivation (mkDerivation P sb (js "encrypt"))
                     (stored (with_failedAttempts (Some 0)
                                (with_lockoutUntil None r))
                        (add_derivation (mkDerivation P sb (js "hash")) w))
               | Throw e =>
                   add_console "Failed to decrypt API key:" e
                     (add_derivation (mkDerivation P sb (js "encrypt"))
                        (stored (with_failedAttempts (Some 0)
                                   (with_lockoutUntil None r))
                           (add_derivation (mkDerivation P sb (js "hash"))
                              w)))
               end
             else
               stored (with_failedAttempts (Some 0) (with_lockoutUntil None r))
                 (add_derivation (mkDerivation P sb (js "hash")) w))),
         (with_failedAttempts (Some 0) (with_lockoutUntil None r)).
  split; [reflexivity|].
  destruct (truthy_string (encryptedApiKey r) && truthy_string (apiKeyIV r));
    [destruct (fst (decryptData _ _ _ _ _ _))|];
    repeat apply conj; reflexivity.
Qed.

Lemma successful_login_resets_attempts_witness :
  auth (db Sample.world4) = Some (spread (auth (db Sample.world4))) /\
  exists w',
    loginWithPassword Sample.crypto (Sample.envAt 1700) (js "hunter22")
      Sample.world4 = (Ok succeeded, w') /\
    failedAttempts (spread (auth (db w'))) = Some 0.
Proof.
  split; [reflexivity|].
  destruct (successful_login_resets_attempts Sample.crypto (Sample.envAt 1700)
              (js "hunter22") Sample.world4
              (spread (auth (db Sample.world4))) eq_refl eq_refl eq_refl)
    as (w' & r' & E & Hr' & Hf & _).
  exists w'. split; [exact E|]. rewrite Hr'. exact Hf.
Defined.

(** X14. The lockout ends: after five failed logins in a row from a count
    of 0, a login made at or after the stored [lockoutUntil] is evaluated
    again. With the right password it succeeds; with a wrong one it reports
    4 attempts remaining, the count having restarted from 0. *)
Theorem lockout_expires wc w r c1 c2 c3 c4 c5 env6 P :
  auth (db w) = Some r ->
  orZero (failedAttempts r) = 0 ->
  Forall (failsOn wc r w) [c1; c2; c3; c4; c5] ->
  Date_now (fst c5) 229 + LOCKOUT_DURATION <= Date_now env6 215 ->
  let w5 := loginAttempts wc [c1; c2; c3; c4; c5] w in
  lockoutUntil (spread (auth (db w5)))
  = Some (Date_now (fst c5) 229 + LOCKOUT_DURATION) /\
  (fst (verifyPassword wc env6 P (passwordHash r) (salt r) w) = Ok true ->
   fst (loginWithPassword wc env6 P w5) = Ok succeeded) /\
  (fst (verifyPassword wc env6 P (passwordHash r) (salt r) w) = Ok false ->
   fst (loginWithPassword wc env6 P w5)
   = Ok (failed (InvalidPasswordRemaining 4))).
Proof.
  intros Hr H0 HF Hexp w5.
  pose proof (five_failures_lock wc w r c1 c2 c3 c4 c5 Hr H0 HF) as Hr5.
  fold w5 in Hr5. rewrite Hr5. split; [reflexivity|].
  set (r5 := with_failedAttempts (Some 0)
               (with_lockoutUntil
                  (Some (Date_now (fst c5) 229 + LOCKOUT_DURATION)) r))
    in *.
  assert (Hfree : lockoutActive r5 (Date_now env6 215) = false).
  { apply lockoutActive_false. right. eexists. split; [reflexivity|]. lia. }
  split; intros Hv.
  - assert (Hv5 : fst (verifyPassword wc env6 P (passwordHash r5) (salt r5) w5)
                  = Ok true)
      by (rewrite (verifyPassword_fst wc env6 env6 P _ _ w5 w); exact Hv).
    destruct (login_right wc env6 P w5 r5 Hr5 Hfree Hv5) as (sb & _ & E).
    cbv zeta in E. rewrite E. reflexivity.
  - assert (Hv5 : fst (verifyPassword wc env6 P (passwordHash r5) (salt r5) w5)
                  = Ok false)
      by (rewrite (verifyPassword_fst wc env6 env6 P _ _ w5 w); exact Hv).
    destruct (login_wrong wc env6 P w5 r5 Hr5 Hfree Hv5) as (sb & _ & E).
    cbv zeta in E. rewrite E. reflexivity.
Qed.

Lemma lockout_expires_witness :
  auth (db Sample.world1) = Some Sample.record1 /\
  fst (loginWithPassword Sample.crypto (Sample.envAt 36000) (js "hunter22")
         (loginAttempts Sample.crypto Sample.fiveWrong Sample.world1))
  = Ok succeeded.
Proof.
  split; [reflexivity|].
  destruct (lockout_expires Sample.crypto Sample.world1 Sample.record1
              (Sample.envAt 2000, js "wrong") (Sample.envAt 3000, js "wrong")
              (Sample.envAt 4000, js "wrong") (Sample.envAt 5000, js "wrong")
              (Sample.envAt 6000, js "wrong") (Sample.envAt 36000)
              (js "hunter22") eq_refl eq_refl) as (_ & H & _).
  - repeat (apply Forall_cons || apply Forall_nil);
      (split; [vm_compute; reflexivity|];
       split; [vm_compute; reflexivity | vm_compute; congruence]).
  - vm_compute. congruence.
  - exact (H eq_refl).
Defined.

(** ** Records that are missing or damaged *)

Lemma undefined_salt :
  base64ToBuffer (ToString None) = Throw InvalidCharacterError.
Proof. vm_compute. reflexivity. Qed.

(** X15. When the stored salt is a text that is not valid base64, every
    function that verifies or encrypts with the password reports the
    exception of decoding it and logs it, and does nothing else: a login
    counts no failed attempt, [deleteAll] deletes nothing, no key is
    derived. *)
Theorem undecodable_salt_stops_everything wc env P apiKey w r s e :
  auth (db w) = Some r ->
  salt r = Some s ->
  base64ToBuffer s = Throw e ->
  (lockoutActive r (Date_now env 215) = false ->
   loginWithPassword wc env P w
   = (Ok (failed (ErrorMessage e)), add_console "Login error:" e w)) /\
  deleteAll wc env P w
  = (Ok (failed (ErrorMessage e)), add_console "Delete all error:" e w) /\
  (P <> [] ->
   saveApiKey wc env apiKey (Some P) w
   = (Ok (failed (ErrorMessage e)), add_console "Save API key error:" e w)) /\
  (truthy_string (encryptedApiKey r) && truthy_string (apiKeyIV r) = true ->
   unlockApiKey wc env P w
   = (Ok (failed FailedToDecrypt),
      add_console "Unlock API key error:" e w)).
Proof.
  intros Hr Hsalt Hs.
  assert (Hs' : base64ToBuffer (ToString (salt r)) = Throw e)
    by (rewrite Hsalt; exact Hs).
  clear Hs. rename Hs' into Hs.
  assert (Hv : fst (verifyPassword wc env P (passwordHash r) (salt r) w)
               = Throw e)
    by (rewrite verifyPassword_run, Hs; reflexivity).
  repeat apply conj.
  - intros Hfree. apply (login_throws wc env P w r e); assumption.
  - rewrite (deleteAll_run wc env P w r Hr), Hs. reflexivity.
  - intros HP. rewrite saveApiKey_run. cbv zeta.
    destruct P; [congruence|]. cbn [truthy_string negb].
    rewrite Hr, Hs. reflexivity.
  - intros Ht. apply andb_true_iff in Ht as [T1 T2].
    rewrite (unlockApiKey_run wc env P w r Hr T1 T2).
    rewrite (verifyPassword_Throw wc env P _ _ w e Hv w). reflexivity.
Qed.

Lemma undecodable_salt_stops_everything_witness :
  loginWithPassword Sample.crypto (Sample.envAt 1700) (js "hunter22")
    Scenario.damagedWorld
  = (Ok (failed (ErrorMessage InvalidCharacterError)),
     add_console "Login error:" InvalidCharacterError
       Scenario.damagedWorld) /\
  deleteAll Sample.crypto (Sample.envAt 1700) (js "hunter22")
    Scenario.damagedWorld
  = (Ok (failed (ErrorMessage InvalidCharacterError)),
     add_console "Delete all error:" InvalidCharacterError
       Scenario.damagedWorld).
Proof.
  destruct (undecodable_salt_stops_everything Sample.crypto
              (Sample.envAt 1700) (js "hunter22") (js "sk-abc123")
              Scenario.damagedWorld Scenario.damagedRecord (js "c2Fs*A==")
              InvalidCharacterError eq_refl eq_refl eq_refl)
    as (H1 & H2 & _).
  split; [exact (H1 eq_refl) | exact H2].
Defined.

(** X16. [disableBiometric] on a database without a record creates one:
    it succeeds and stores a record that has only the two biometric
    fields. [hasAuthSetup] remains false, and a password login then
    reports the invalid-character exception of decoding the missing salt
    and not "No account found". *)
Theorem disable_without_account wc env P w :
  auth (db w) = None ->
  let w1 := snd (disableBiometric w) in
  fst (disableBiometric w) = Ok succeeded /\
  auth (db w1) = Some (with_biometric (Some false) None emptyRecord) /\
  fst (hasAuthSetup w1) = Ok false /\
  loginWithPassword wc env P w1
  = (Ok (failed (ErrorMessage InvalidCharacterError)),
     add_console "Login error:" InvalidCharacterError w1).
Proof.
  intros Hr. cbv zeta. rewrite disableBiometric_run, Hr. cbn [fst snd].
  split; [reflexivity|]. split; [reflexivity|]. split; [reflexivity|].
  apply (login_throws wc env P _
           (with_biometric (Some false) None emptyRecord)).
  - reflexivity.
  - reflexivity.
  - rewrite verifyPassword_run. cbn [salt with_biometric emptyRecord].
    rewrite undefined_salt. reflexivity.
Qed.


Lemma disable_without_account_witness :
  auth (db Sample.world0) = None /\
  fst (disableBiometric Sample.world0) = Ok succeeded /\
  fst (hasAuthSetup (snd (disableBiometric Sample.world0))) = Ok false.
Proof.
  split; [reflexivity|].
  destruct (disable_without_account Sample.crypto (Sample.envAt 1700)
              (js "hunter22") Sample.world0 eq_refl)
    as (H1 & _ & H3 & _).
  split; assumption.
Defined.

Lemma without_account_helper wc env P w :
  auth (db w) = None ->
  loginWithPassword wc env P w = (Ok (failed NoAccountFound), w) /\
  loginWithBiometric env w = (Ok (failed BiometricNotEnabled), w) /\
  fst (hasAuthSetup w) = Ok false.
Proof.
  intros Hr. repeat apply conj.
  - apply login_no_account, Hr.
  - rewrite loginWithBiometric_run, Hr. reflexivity.
  - unfold hasAuthSetup, bind, getAuthData. rewrite Hr. reflexivity.
Qed.

(** X17. With no record stored, no function of the context creates one
    except [setupAccount] and [disableBiometric]: a password login answers
    "No account found" and a biometric login "Biometric not enabled",
    both changing nothing; [unlockApiKey], [deleteAll], [saveApiKey] with a
    password and [enableBiometric] on a capable device run into the type
    error of reading a field of [undefined], which they log and report;
    the default calorie target is 2000. *)
Theorem without_account wc env P apiKey w :
  auth (db w) = None ->
  loginWithPassword wc env P w = (Ok (failed NoAccountFound), w) /\
  loginWithBiometric env w = (Ok (failed BiometricNotEnabled), w) /\
  unlockApiKey wc env P w
  = (Ok (failed FailedToDecrypt),
     add_console "Unlock API key error:" TypeError w) /\
  deleteAll wc env P w
  = (Ok (failed (ErrorMessage TypeError)),
     add_console "Delete all error:" TypeError w) /\
  (P <> [] ->
   saveApiKey wc env apiKey (Some P) w
   = (Ok (failed (ErrorMessage TypeError)),
      add_console "Save API key error:" TypeError w)) /\
  (biometricAvailable env = true ->
   enableBiometric env w
   = (Ok (failed (ErrorMessage TypeError)),
      add_console "Enable biometric error:" TypeError w)) /\
  fst (hasAuthSetup w) = Ok false /\
  fst (getDefaultCalorieTarget w) = Ok 2000.
Proof.
  intros Hr. repeat apply conj.
  - apply login_no_account, Hr.
  - rewrite loginWithBiometric_run, Hr. reflexivity.
  - apply unlockApiKey_no_account, Hr.
  - unfold deleteAll, try_catch, bind, getAuthData. rewrite Hr. reflexivity.
  - intros HP. rewrite saveApiKey_run. cbv zeta.
    destruct P; [congruence|]. cbn [truthy_string negb]. rewrite Hr.
    reflexivity.
  - intros Ha. rewrite enableBiometric_run, Ha, Hr. reflexivity.
  - unfold hasAuthSetup, bind, getAuthData. rewrite Hr. reflexivity.
  - unfold getDefaultCalorieTarget, bind, getAuthData. rewrite Hr.
    reflexivity.
Qed.

Lemma without_account_witness :
  auth (db Sample.world0) = None /\
  loginWithPassword Sample.crypto (Sample.envAt 1700) (js "hunter22")
    Sample.world0
  = (Ok (failed NoAccountFound), Sample.world0) /\
  fst (getDefaultCalorieTarget Sample.world0) = Ok 2000.
Proof.
  split; [reflexivity|].
  destruct (without_account Sample.crypto (Sample.envAt 1700)
              (js "hunter22") (js "sk-abc123") Sample.world0 eq_refl)
    as (H1 & _ & _ & _ & _ & _ & _ & H8).
  split; assumption.
Defined.

(** X18. After a successful [deleteAll] the account is gone for every
    function: with the password that was right a login answers "No account
    found", a biometric login "Biometric not enabled", [hasAuthSetup] is
    false and the provider asks for a new setup. *)
Theorem after_deleteAll wc env env' P w r :
  auth (db w) = Some r ->
  fst (verifyPassword wc env P (passwordHash r) (salt r) w) = Ok true ->
  let w1 := snd (deleteAll wc env P w) in
  fst (deleteAll wc env P w) = Ok succeeded /\
  loginWithPassword wc env' P w1 = (Ok (failed NoAccountFound), w1) /\
  loginWithBiometric env' w1 = (Ok (failed BiometricNotEnabled), w1) /\
  fst (hasAuthSetup w1) = Ok false /\
  needsSetup (authState w1) = true /\
  isAuthenticated (authState w1) = false.
Proof.
  intros Hr Hv. cbv zeta.
  destruct (verifyPassword_Ok wc env P _ _ w true Hv) as (sb & Hs & _).
  rewrite verifyPassword_run, Hs in Hv. cbn [fst] in Hv.
  injection Hv as Hv.
  rewrite (deleteAll_run wc env P w r Hr), Hs. cbv zeta. rewrite Hv.
  cbn [fst snd].
  match goal with |- context [loginWithBiometric env' ?x] =>
    set (w1 := x) end.
  assert (H1 : auth (db w1) = None) by reflexivity.
  destruct (without_account_helper wc env' P w1 H1) as (L1 & L2 & L3).
  repeat apply conj; try assumption; reflexivity.
Qed.

Lemma after_deleteAll_witness :
  auth (db Sample.world1) = Some Sample.record1 /\
  fst (deleteAll Sample.crypto (Sample.envAt 1500) (js "hunter22")
         Sample.world1) = Ok succeeded /\
  fst (loginWithPassword Sample.crypto (Sample.envAt 1700) (js "hunter22")
         (snd (deleteAll Sample.crypto (Sample.envAt 1500) (js "hunter22")
                 Sample.world1)))
  = Ok (failed NoAccountFound).
Proof.
  split; [reflexivity|].
  destruct (after_deleteAll Sample.crypto (Sample.envAt 1500)
              (Sample.envAt 1700) (js "hunter22") Sample.world1
              Sample.record1 eq_refl eq_refl)
    as (H1 & H2 & _).
  split; [exact H1|]. rewrite H2. reflexivity.
Defined.

(** ** What every call preserves *)

Ltac backed :=
  unfold sessionBacked; cbn; try tauto; try congruence;
  try (intros; discriminate).

Lemma login_throws_catch wc env r pw w e :
  fst (verifyPassword wc env pw (passwordHash r) (salt r) w) = Throw e ->
  loginCatch (evaluateAttempt wc env r pw) w
  = (Ok (failed (ErrorMessage e)), add_console "Login error:" e w).
Proof.
  intros Hv. unfold loginCatch, try_catch.
  rewrite (evaluateAttempt_throws wc env r pw w e Hv). reflexivity.
Qed.

Lemma setupAccount_step wc env pw t w :
  let w' := snd (setupAccount wc env pw t w) in
  RecordChange (auth (db w)) (auth (db w')) /\ sessionBacked w'.
Proof.
  cbv zeta. rewrite setupAccount_run. cbv zeta. cbn [snd]. split.
  - apply rc_setup.
  - backed.
Qed.

Lemma loginWithPassword_step wc env pw w :
  let w' := snd (loginWithPassword wc env pw w) in
  FieldChange (auth (db w)) (auth (db w')) /\
  (sessionBacked w -> sessionBacked w').
Proof.
  cbv zeta. destruct (auth (db w)) as [r|] eqn:Hr.
  - rewrite (loginWithPassword_unfold wc env pw w r Hr).
    destruct (lockoutActive r (Date_now env 215)) eqn:Hl.
    { cbn [snd]. rewrite Hr. split; [apply fc_same | tauto]. }
    destruct (fst (verifyPassword wc env pw (passwordHash r) (salt r) w))
      as [[|]|e] eqn:Hv.
    + destruct (evaluateAttempt_right wc env r pw w Hv) as (sb & _ & E).
      cbv zeta in E. rewrite (loginCatch_Ok _ _ _ _ E). cbn [snd].
      split.
      * destruct (truthy_string (encryptedApiKey r)
                  && truthy_string (apiKeyIV r));
          [destruct (fst (decryptData _ _ _ _ _ _))|]; apply fc_success.
      * intros _. backed.
    + destruct (evaluateAttempt_wrong wc env r pw w Hv) as (sb & _ & E).
      cbv zeta in E. unfold loginCatch, try_catch. rewrite E.
      destruct (MAX_FAILED_ATTEMPTS <=? orZero (failedAttempts r) + 1) eqn:Hm;
        cbn [snd]; (split; [|backed]).
      * apply fc_lockout. apply Z.leb_le, Hm.
      * apply fc_failed. apply Z.leb_gt, Hm.
    + rewrite (login_throws_catch wc env r pw w e Hv). cbn [snd].
      split; [|backed]. cbn. rewrite Hr. apply fc_same.
  - rewrite (login_no_account wc env pw w Hr). cbn [snd]. rewrite Hr.
    split; [apply fc_same | tauto].
Qed.

Lemma loginWithBiometric_step env w :
  let w' := snd (loginWithBiometric env w) in
  auth (db w') = auth (db w) /\ (sessionBacked w -> sessionBacked w').
Proof.
  cbv zeta. rewrite loginWithBiometric_run. cbv zeta.
  destruct (_ || _); [split; [reflexivity | tauto]|].
  destruct (base64ToBuffer _); [|split; [reflexivity | backed]].
  destruct (credentials_get env); split; try reflexivity; backed.
Qed.

Lemma enableBiometric_step env w :
  let w' := snd (enableBiometric env w) in
  FieldChange (auth (db w)) (auth (db w')) /\
  (sessionBacked w -> sessionBacked w').
Proof.
  cbv zeta. rewrite enableBiometric_run.
  destruct (negb (biometricAvailable env)).
  { split; [apply fc_same | tauto]. }
  destruct (auth (db w)) as [r|] eqn:Hr.
  - destruct (credentials_create env) as [rawId|e]; cbn [snd].
    + split; [apply fc_enable | backed].
    + split; [cbn; rewrite Hr; apply fc_same | backed].
  - cbn [snd]. split; [cbn; rewrite Hr; apply fc_same | backed].
Qed.

Lemma disableBiometric_step w :
  let w' := snd (disableBiometric w) in
  FieldChange (auth (db w)) (auth (db w')) /\
  (sessionBacked w -> sessionBacked w').
Proof.
  cbv zeta. rewrite disableBiometric_run. cbn [snd].
  split; [apply fc_disable | backed].
Qed.

Lemma saveApiKey_step wc env apiKey password w :
  let w' := snd (saveApiKey wc env apiKey password w) in
  FieldChange (auth (db w)) (auth (db w')) /\
  (sessionBacked w -> sessionBacked w').
Proof.
  cbv zeta. rewrite saveApiKey_run. cbv zeta.
  destruct (negb (truthy_string _)).
  { split; [apply fc_same | tauto]. }
  destruct (auth (db w)) as [r|] eqn:Hr.
  - destruct (base64ToBuffer (ToString (salt r))) as [sb|e]; cbn [snd].
    + split; [apply fc_secret | backed].
    + split; [cbn; rewrite Hr; apply fc_same | backed].
  - cbn [snd]. split; [cbn; rewrite Hr; apply fc_same | backed].
Qed.

Lemma unlockApiKey_step wc env pw w :
  let w' := snd (unlockApiKey wc env pw w) in
  auth (db w') = auth (db w) /\ (sessionBacked w -> sessionBacked w').
Proof.
  cbv zeta. destruct (auth (db w)) as [r|] eqn:Hr.
  - destruct (truthy_string (encryptedApiKey r) && truthy_string (apiKeyIV r))
      eqn:Ht.
    + apply andb_true_iff in Ht as [T1 T2].
      rewrite (unlockApiKey_run wc env pw w r Hr T1 T2).
      pose proof (verifyPassword_frame wc env pw (passwordHash r) (salt r) w)
        as F. cbv zeta in F.
      destruct (verifyPassword wc env pw (passwordHash r) (salt r) w)
        as [[[|]|e] w1]; cbn [fst snd] in *;
        destruct F as (F1 & F2 & F3 & _).
      * pose proof (decryptData_frame wc (ToString (encryptedApiKey r))
                      (ToString (apiKeyIV r)) pw (salt r) w1) as G.
        cbv zeta in G.
        destruct (decryptData _ _ _ _ _ _) as [[k|e] w2]; cbn [fst snd] in *;
          destruct G as (G1 & G2 & G3 & _);
          (split; [cbn; rewrite G1, F1; exact Hr|]);
          unfold sessionBacked; cbn; rewrite G2, G3, F2, F3; tauto.
      * split; [rewrite F1; exact Hr|].
        unfold sessionBacked. rewrite F2, F3. tauto.
      * split; [cbn; rewrite F1; exact Hr|].
        unfold sessionBacked; cbn. rewrite F2, F3. tauto.
    + rewrite (unlockApiKey_no_secret wc env pw w r Hr Ht). cbn [snd].
      split; [exact Hr | tauto].
  - rewrite (unlockApiKey_no_account wc env pw w Hr). cbn [snd].
    split; [exact Hr | backed].
Qed.

Lemma lock_step w :
  let w' := snd (lock w) in
  auth (db w') = auth (db w) /\ sessionBacked w'.
Proof. cbv zeta. split; [reflexivity | backed]. Qed.

Lemma deleteAll_step wc env pw w :
  let w' := snd (deleteAll wc env pw w) in
  RecordChange (auth (db w)) (auth (db w')) /\
  (sessionBacked w -> sessionBacked w').
Proof.
  cbv zeta. destruct (auth (db w)) as [r|] eqn:Hr.
  - rewrite (deleteAll_run wc env pw w r Hr).
    destruct (base64ToBuffer (ToString (salt r))); cbn [snd].
    + cbv zeta.
      destruct (match passwordHash r with Some _ => _ | None => _ end);
        cbn [snd].
      * split; [apply rc_wipe | backed].
      * split; [cbn; rewrite Hr; apply rc_fields, fc_same | backed].
    + split; [cbn; rewrite Hr; apply rc_fields, fc_same | backed].
  - assert (E : deleteAll wc env pw w
                = (Ok (failed (ErrorMessage TypeError)),
                   add_console "Delete all error:" TypeError w))
      by (unfold deleteAll, try_catch, bind, getAuthData; rewrite Hr;
          reflexivity).
    rewrite E. cbn [snd].
    split; [cbn; rewrite Hr; apply rc_fields, fc_same | backed].
Qed.

Lemma checkBiometricAvailable_step env w :
  snd (checkBiometricAvailable env w) = w.
Proof.
  unfold checkBiometricAvailable. rewrite isBiometricAvailable_run.
  reflexivity.
Qed.

Lemma resetSessionTimeout_step env w :
  let w' := snd (resetSessionTimeout env w) in
  auth (db w') = auth (db w) /\ (sessionBacked w -> sessionBacked w').
Proof.
  cbv zeta. rewrite resetSessionTimeout_run.
  destruct (isAuthenticated (authState w)); (split; [reflexivity | backed]).
Qed.

Lemma pageLoad_step env w :
  let w' := snd (pageLoad env w) in
  auth (db w') = auth (db w) /\ sessionBacked w'.
Proof.
  cbv zeta. rewrite pageLoad_run. cbv zeta.
  destruct (session w) as [t|] eqn:Hs.
  - destruct (match auth (db w) with Some _ => _ | None => _ end).
    + destruct (Date_now env 53 <? t); (split; [reflexivity | backed]).
    + split; [reflexivity | backed].
  - split; [reflexivity | backed].
Qed.

(** One call changes the stored record in one of the ways of
    [RecordChange], by fields only unless it is [setupAccount] or
    [deleteAll], and keeps the provider's "authenticated" backed by a
    session. *)
Lemma perform_step wc step w :
  let w' := perform wc step w in
  RecordChange (auth (db w)) (auth (db w')) /\
  (replacesCredentials step = false ->
   FieldChange (auth (db w)) (auth (db w'))) /\
  (sessionBacked w -> sessionBacked w').
Proof.
  cbv zeta. destruct step as [env a]. unfold perform, replacesCredentials.
  cbn [fst snd]. destruct a.
  - destruct (setupAccount_step wc env password target w) as [H1 H2].
    split; [exact H1|]. split; [discriminate | intros _; exact H2].
  - destruct (loginWithPassword_step wc env password w) as [H1 H2].
    split; [apply rc_fields, H1|]. split; [intros _; exact H1 | exact H2].
  - destruct (loginWithBiometric_step env w) as [H1 H2]. rewrite H1.
    split; [apply rc_fields, fc_same|].
    split; [intros _; apply fc_same | exact H2].
  - destruct (enableBiometric_step env w) as [H1 H2].
    split; [apply rc_fields, H1|]. split; [intros _; exact H1 | exact H2].
  - destruct (disableBiometric_step w) as [H1 H2].
    split; [apply rc_fields, H1|]. split; [intros _; exact H1 | exact H2].
  - destruct (saveApiKey_step wc env apiKey password w) as [H1 H2].
    split; [apply rc_fields, H1|]. split; [intros _; exact H1 | exact H2].
  - destruct (unlockApiKey_step wc env password w) as [H1 H2]. rewrite H1.
    split; [apply rc_fields, fc_same|].
    split; [intros _; apply fc_same | exact H2].
  - destruct (lock_step w) as [H1 H2]. rewrite H1.
    split; [apply rc_fields, fc_same|].
    split; [intros _; apply fc_same | intros _; exact H2].
  - destruct (deleteAll_step wc env password w) as [H1 H2].
    split; [exact H1|]. split; [discriminate | exact H2].
  - rewrite checkBiometricAvailable_step.
    split; [apply rc_fields, fc_same|].
    split; [intros _; apply fc_same | tauto].
  - destruct (resetSessionTimeout_step env w) as [H1 H2]. rewrite H1.
    split; [apply rc_fields, fc_same|].
    split; [intros _; apply fc_same | exact H2].
  - destruct (pageLoad_step env w) as [H1 H2]. rewrite H1.
    split; [apply rc_fields, fc_same|].
    split; [intros _; apply fc_same | intros _; exact H2].
Qed.

Lemma orZero_counted n :
  0 <= n -> orZero (Some (n + 1)) = n + 1.
Proof.
  intros Hn. unfold orZero, truthy_number, ToNumber.
  destruct (n + 1 =? 0) eqn:E; [apply Z.eqb_eq in E; lia | reflexivity].
Qed.

Lemma FieldChange_keeps a a' :
  FieldChange a a' ->
  (attemptsInRange a -> attemptsInRange a') /\
  (secretPaired a -> secretPaired a') /\
  (biometricPaired a -> biometricPaired a') /\
  sameCredentials a a' /\
  (a <> None -> a' <> None).
Proof.
  unfold attemptsInRange, secretPaired, biometricPaired, sameCredentials,
    MAX_FAILED_ATTEMPTS.
  intros H; destruct H; cbn [spread]; repeat apply conj;
    try tauto; try reflexivity; try discriminate; cbn.
  - intros Hr. rewrite orZero_counted by lia.
    unfold MAX_FAILED_ATTEMPTS in *. lia.
  - intros _. lia.
  - intros _. lia.
  - intros _. split; [discriminate | reflexivity].
  - intros _. split; [discriminate | congruence].
  - intros _. split; discriminate.
Qed.

Lemma RecordChange_keeps a a' :
  RecordChange a a' ->
  (attemptsInRange a -> attemptsInRange a') /\
  (secretPaired a -> secretPaired a') /\
  (biometricPaired a -> biometricPaired a').
Proof.
  intros H; destruct H as [a a' H | |].
  - destruct (FieldChange_keeps a a' H) as (H1 & H2 & H3 & _).
    repeat apply conj; assumption.
  - unfold attemptsInRange, secretPaired, biometricPaired, setupRecord,
      MAX_FAILED_ATTEMPTS. cbn.
    repeat apply conj; intros _; try lia; try tauto.
    split; [discriminate | congruence].
  - unfold attemptsInRange, secretPaired, biometricPaired,
      MAX_FAILED_ATTEMPTS. cbn.
    repeat apply conj; intros _; try lia; try tauto.
    split; [discriminate | congruence].
Qed.

(** X19. Three properties of the stored record hold after any sequence of
    calls of the context's functions once they hold before it:
    [failedAttempts] is from 0 to 4 (the fifth failure stores 0 with the
    lockout, never 5); [encryptedApiKey] and [apiKeyIV] are both present or
    both absent; biometrics are enabled exactly when a credential id is
    stored. *)
Theorem stored_record_invariants wc steps w :
  attemptsInRange (auth (db w)) ->
  secretPaired (auth (db w)) ->
  biometricPaired (auth (db w)) ->
  let w' := performAll wc steps w in
  attemptsInRange (auth (db w')) /\
  secretPaired (auth (db w')) /\
  biometricPaired (auth (db w')).
Proof.
  cbv zeta. revert w. induction steps as [|s steps IH]; intros w H1 H2 H3.
  - exact (conj H1 (conj H2 H3)).
  - cbn [performAll]. destruct (perform_step wc s w) as (HR & _).
    destruct (RecordChange_keeps _ _ HR) as (K1 & K2 & K3).
    apply IH; auto.
Qed.

(** Calls other than [setupAccount] and [deleteAll] keep the
    credentials and the record. *)
Lemma performAll_fields wc steps w :
  forallb (fun step => negb (replacesCredentials step)) steps = true ->
  sameCredentials (auth (db w)) (auth (db (performAll wc steps w))) /\
  (auth (db w) <> None -> auth (db (performAll wc steps w)) <> None).
Proof.
  revert w. induction steps as [|s steps IH]; intros w Hs.
  - cbn. unfold sameCredentials. tauto.
  - cbn [performAll]. cbn [forallb] in Hs.
    apply andb_true_iff in Hs as [Hs1 Hs2].
    apply negb_true_iff in Hs1.
    destruct (perform_step wc s w) as (_ & HF & _).
    destruct (FieldChange_keeps _ _ (HF Hs1)) as (_ & _ & _ & K4 & K5).
    destruct (IH (perform wc s w) Hs2) as (I1 & I2).
    split; [|tauto].
    unfold sameCredentials in *.
    destruct K4 as (A1 & A2 & A3 & A4), I1 as (B1 & B2 & B3 & B4).
    repeat split; congruence.
Qed.

(** X20. No function of the context other than [setupAccount] and
    [deleteAll] changes the password hash, the salt, the creation time or
    the calorie target of the stored record, or removes the record: along
    any sequence of calls without those two, the four fields stay as they
    were and a record that exists keeps existing. In particular the
    password that verifies stays the same: there is no way to change it. *)
Theorem credentials_never_change wc env steps w P :
  forallb (fun step => negb (replacesCredentials step)) steps = true ->
  let a := auth (db w) in
  let a' := auth (db (performAll wc steps w)) in
  sameCredentials a a' /\
  (a <> None -> a' <> None) /\
  forall v v',
    fst (verifyPassword wc env P (passwordHash (spread a'))
           (salt (spread a')) v')
    = fst (verifyPassword wc env P (passwordHash (spread a))
             (salt (spread a)) v).
Proof.
  intros Hs. cbv zeta.
  destruct (performAll_fields wc steps w Hs) as (H1 & H2).
  split; [exact H1|]. split; [exact H2|].
  intros v v'. destruct H1 as (E1 & E2 & _). rewrite E1, E2.
  apply verifyPassword_fst.
Qed.

(** X21. Whenever the provider's state says "authenticated", a session is
    in [sessionStorage]: this holds after any sequence of calls once it
    holds before it, and it holds after any sequence that starts with a
    page load. *)
Theorem authenticated_has_session wc env steps w :
  let w' := performAll wc steps (snd (pageLoad env w)) in
  sessionBacked w' /\
  (sessionBacked w -> sessionBacked (performAll wc steps w)).
Proof.
  cbv zeta.
  assert (K : forall v, sessionBacked v -> sessionBacked (performAll wc steps v)).
  { induction steps as [|s steps IH]; intros v Hv; [exact Hv|].
    cbn [performAll]. apply IH.
    destruct (perform_step wc s v) as (_ & _ & H). exact (H Hv). }
  split; [|apply K].
  apply K. apply (pageLoad_step env w).
Qed.

Lemma stored_record_invariants_witness :
  attemptsInRange
    (auth (db (performAll Sample.crypto Scenario.firstDay Sample.world0))) /\
  secretPaired
    (auth (db (performAll Sample.crypto Scenario.firstDay Sample.world0))).
Proof.
  destruct (stored_record_invariants Sample.crypto Scenario.firstDay
              Sample.world0
              ltac:(vm_compute; split; [discriminate | reflexivity])
              ltac:(vm_compute; tauto)
              ltac:(vm_compute; split; [discriminate | congruence]))
    as (H1 & H2 & _).
  split; assumption.
Defined.

Lemma credentials_never_change_witness :
  passwordHash
    (spread (auth (db (performAll Sample.crypto Scenario.afterSetup
                         Sample.world1))))
  = passwordHash Sample.record1 /\
  auth (db (performAll Sample.crypto Scenario.afterSetup Sample.world1))
  <> None.
Proof.
  destruct (credentials_never_change Sample.crypto (Sample.envAt 3000)
              Scenario.afterSetup Sample.world1 (js "hunter22") eq_refl)
    as ((H1 & _) & H2 & _).
  split; [exact H1|]. apply H2. discriminate.
Defined.

Lemma authenticated_has_session_witness :
  sessionBacked Sample.world0 /\
  sessionBacked (performAll Sample.crypto Scenario.firstDay Sample.world0).
Proof.
  assert (H : sessionBacked Sample.world0)
    by (unfold sessionBacked; cbn; discriminate).
  split; [exact H|].
  destruct (authenticated_has_session Sample.crypto (Sample.envAt 900)
              Scenario.firstDay Sample.world0) as (_ & K).
  exact (K H).
Defined.

(** ** The screens *)

Lemma loginWithPassword_total wc env pw w :
  exists out w', loginWithPassword wc env pw w = (Ok out, w').
Proof.
  destruct (auth (db w)) as [r|] eqn:Hr.
  - rewrite (loginWithPassword_unfold wc env pw w r Hr).
    destruct (lockoutActive r (Date_now env 215)); [eexists; eexists; reflexivity|].
    destruct (fst (verifyPassword wc env pw (passwordHash r) (salt r) w))
      as [b|e] eqn:Hv.
    + destruct (evaluateAttempt_verdict wc env r pw w b Hv)
        as (sb & out & w' & _ & E & _).
      exists out, w'. apply loginCatch_Ok, E.
    + rewrite (login_throws_catch wc env r pw w e Hv).
      eexists; eexists; reflexivity.
  - rewrite (login_no_account wc env pw w Hr). eexists; eexists; reflexivity.
Qed.

(** X22. The setup screen creates an account exactly when the password has
    at least 6 UTF-16 code units and equals its confirmation. Otherwise
    nothing is called, and the form shows which of the two checks failed,
    the length being checked first. When it creates the account, the call
    is [setupAccount] with the form's password and calorie target, and the
    form moves to the biometric step exactly when a platform authenticator
    is available. *)
Theorem setup_screen_gate wc env message_of s w :
  let long := 6 <=? Z.of_nat (List.length (SetupScreen.password s)) in
  let same := list_eqb (SetupScreen.password s)
                (SetupScreen.confirmPassword s) in
  exists s' w',
    SetupScreen.handleCreateAccount wc env message_of s w = (Ok s', w') /\
    (long = false ->
     w' = w /\
     s' = SetupScreen.setError "Password must be at least 6 characters" s) /\
    (long = true -> same = false ->
     w' = w /\ s' = SetupScreen.setError "Passwords do not match" s) /\
    (long = true -> same = true ->
     w' = snd (setupAccount wc env (SetupScreen.password s)
                 (Some (SetupScreen.targetCalories s)) w) /\
     auth (db w')
     = Some (setupRecord wc env (SetupScreen.password s)
               (Some (SetupScreen.targetCalories s))) /\
     SetupScreen.step s'
     = (if biometricAvailable env then SetupScreen.biometric_step
        else SetupScreen.complete_step) /\
     SetupScreen.error s' = EmptyString /\
     SetupScreen.loading s' = false).
Proof.
  cbv zeta. unfold SetupScreen.handleCreateAccount, SetupScreen.validatePassword.
  cbn [SetupScreen.password SetupScreen.confirmPassword SetupScreen.setError
       SetupScreen.setLoading SetupScreen.targetCalories].
  rewrite (Z.leb_antisym (Z.of_nat (List.length (SetupScreen.password s))) 6).
  destruct (Z.of_nat (List.length (SetupScreen.password s)) <? 6).
  { eexists; eexists. split; [reflexivity|]. cbn [negb].
    split; [intros _; split; reflexivity|].
    split; discriminate. }
  cbn [negb].
  destruct (list_eqb (SetupScreen.password s) (SetupScreen.confirmPassword s)).
  - cbn [negb]. unfold bind at 1. rewrite setupAccount_run. cbv zeta.
    cbn [success succeeded]. unfold bind at 1.
    unfold checkBiometricAvailable. rewrite isBiometricAvailable_run.
    destruct (biometricAvailable env); eexists; eexists;
      (split; [reflexivity|]); (split; [discriminate|]);
      (split; [discriminate|]); intros _ _; rewrite setupAccount_run;
      repeat split; reflexivity.
  - cbn [negb]. eexists; eexists. split; [reflexivity|].
    split; [discriminate|]. split; [intros _ _; split; reflexivity|].
    discriminate.
Qed.

(** X23. The login form submits nothing when the password field is empty
    or its lockout counter is positive: no login is attempted, so nothing
    is counted or changed. Otherwise it makes exactly one
    [loginWithPassword] call with the typed password. After a failure the
    field is emptied, the outcome's message is shown, and the counter is
    set to 30 exactly when the outcome is the lockout outcome; after a
    success the form keeps its password and counter. *)
Theorem login_screen_gate wc env message_of s w :
  let blocked := negb (truthy_string (Some (LoginScreen.password s)))
                 || (0 <? LoginScreen.lockoutRemaining s) in
  exists out w1 s',
    loginWithPassword wc env (LoginScreen.password s) w = (Ok out, w1) /\
    LoginScreen.handlePasswordLogin wc env message_of s w
    = (Ok s', if blocked then w else w1) /\
    (blocked = true -> s' = s) /\
    (blocked = false -> success out = false ->
     LoginScreen.password s' = [] /\
     LoginScreen.error s' = option_map (render message_of) (error out) /\
     LoginScreen.lockoutRemaining s'
     = (if truthy_bool (locked out) then 30
        else LoginScreen.lockoutRemaining s)) /\
    (blocked = false -> success out = true ->
     LoginScreen.password s' = LoginScreen.password s /\
     LoginScreen.lockoutRemaining s' = LoginScreen.lockoutRemaining s /\
     LoginScreen.error s' = Some EmptyString).
Proof.
  cbv zeta.
  destruct (loginWithPassword_total wc env (LoginScreen.password s) w)
    as (out & w1 & E).
  exists out, w1. unfold LoginScreen.handlePasswordLogin.
  destruct (negb (truthy_string (Some (LoginScreen.password s)))
            || (0 <? LoginScreen.lockoutRemaining s)).
  - exists s. split; [exact E|]. split; [reflexivity|].
    split; [reflexivity|]. split; discriminate.
  - cbn [LoginScreen.password LoginScreen.setError LoginScreen.setLoading].
    unfold bind. rewrite E. unfold resultError.
    destruct (success out) eqn:Hs; cbn [negb].
    + eexists. split; [reflexivity|]. split; [reflexivity|].
      split; [discriminate|]. split; [discriminate|].
      intros _ _. repeat split; reflexivity.
    + destruct (truthy_bool (locked out)); eexists;
        (split; [reflexivity|]); (split; [reflexivity|]);
        (split; [discriminate|]);
        (split; [intros _ _; repeat split; reflexivity | discriminate]).
Qed.

(** X24. The fifth wrong password typed into the login form blocks the
    form: with four failures counted, a submission with a password that
    does not verify stores the lockout and sets the form's counter to 30,
    after which a submission of any password, the right one included, at
    any time, calls nothing while the counter stays positive. The
    biometric button is not held back by the counter: with biometrics
    enabled and a consenting authenticator it authenticates. *)
Theorem login_screen_lockout wc env env' message_of s w r typed :
  auth (db w) = Some r ->
  orZero (failedAttempts r) = 4 ->
  lockoutActive r (Date_now env 215) = false ->
  0 <= Date_now env 229 ->
  LoginScreen.password s <> [] ->
  LoginScreen.lockoutRemaining s <= 0 ->
  fst (verifyPassword wc env (LoginScreen.password s) (passwordHash r)
         (salt r) w) = Ok false ->
  exists s1 w1,
    LoginScreen.handlePasswordLogin wc env message_of s w = (Ok s1, w1) /\
    LoginScreen.lockoutRemaining s1 = 30 /\
    lockoutUntil (spread (auth (db w1)))
    = Some (Date_now env 229 + LOCKOUT_DURATION) /\
    LoginScreen.handlePasswordLogin wc env' message_of
      (LoginScreen.setPassword typed s1) w1
    = (Ok (LoginScreen.setPassword typed s1), w1) /\
    (truthy_bool (biometricEnabled r) = true ->
     truthy_string (biometricCredentialId r) = true ->
     (exists bytes,
         base64ToBuffer (ToString (biometricCredentialId r)) = Ok bytes) ->
     credentials_get env' = true ->
     exists s2 w2,
       LoginScreen.handleBiometricLogin env' message_of
         (LoginScreen.setPassword typed s1) w1 = (Ok s2, w2) /\
       isAuthenticated (authState w2) = true).
Proof.
  intros Hr Hn Hfree Hnow Hpw Hrem Hv.
  destruct (login_wrong wc env (LoginScreen.password s) w r Hr Hfree Hv)
    as (sb & Hsb & E).
  cbv zeta in E. rewrite Hn in E.
  change (MAX_FAILED_ATTEMPTS <=? 4 + 1) with true in E. cbv iota in E.
  assert (Hz : (Date_now env 229 + LOCKOUT_DURATION =? 0) = false)
    by (apply Z.eqb_neq; unfold LOCKOUT_DURATION; lia).
  rewrite Hz in E.
  unfold LoginScreen.handlePasswordLogin at 1.
  assert (Hp : truthy_string (Some (LoginScreen.password s)) = true)
    by (destruct (LoginScreen.password s); [congruence | reflexivity]).
  rewrite Hp. cbn [negb orb].
  assert (Hr0 : (0 <? LoginScreen.lockoutRemaining s) = false)
    by (apply Z.ltb_ge; exact Hrem).
  rewrite Hr0.
  cbn [LoginScreen.password LoginScreen.setError LoginScreen.setLoading].
  unfold bind at 1. rewrite E. cbn [success lockedOut negb locked truthy_bool].
  eexists; eexists. split; [reflexivity|].
  split; [reflexivity|]. split; [reflexivity|]. split.
  - unfold LoginScreen.handlePasswordLogin.
    cbn [LoginScreen.lockoutRemaining LoginScreen.setPassword
         LoginScreen.setLockoutRemaining].
    change (0 <? 30) with true. rewrite orb_true_r. reflexivity.
  - intros B1 B2 (bytes & B3) B4.
    unfold LoginScreen.handleBiometricLogin, bind.
    rewrite loginWithBiometric_run. cbv zeta.
    cbn [auth db stored set_db spread biometricEnabled biometricCredentialId
         with_failedAttempts with_lockoutUntil encryptedApiKey].
    rewrite B1, B2, B3, B4. cbn [negb orb]. cbn [success negb].
    eexists; eexists. split; reflexivity.
Qed.

Lemma login_screen_lockout_witness :
  exists s1 w1,
    LoginScreen.handlePasswordLogin Sample.crypto (Sample.envAt 2000)
      (fun _ => "error"%string)
      (LoginScreen.mkState (js "wrong") None false 0)
      (stored (with_failedAttempts (Some 4) Sample.record1) Sample.world1)
    = (Ok s1, w1) /\
    LoginScreen.lockoutRemaining s1 = 30.
Proof.
  destruct (login_screen_lockout Sample.crypto (Sample.envAt 2000)
              (Sample.envAt 2001) (fun _ => "error"%string)
              (LoginScreen.mkState (js "wrong") None false 0)
              (stored (with_failedAttempts (Some 4) Sample.record1)
                 Sample.world1)
              (with_failedAttempts (Some 4) Sample.record1)
              (js "hunter22")
              eq_refl eq_refl eq_refl ltac:(discriminate)
              ltac:(discriminate) ltac:(discriminate) eq_refl)
    as (s1 & w1 & H1 & H2 & _).
  exists s1, w1. split; assumption.
Defined.

(** ** enableBiometric, lock and the calorie target *)

(** X25. [enableBiometric] asks for no password and verifies nothing. It
    refuses, changing nothing, unless WebAuthn is supported and the
    platform reports a user-verifying authenticator; with a record stored
    it then succeeds exactly when the authenticator creates a credential.
    A success changes, of the record, only the two biometric fields; a
    failure leaves the database and the provider's state as they were;
    no call changes the session, the memory or the authenticated flag. *)
Theorem enableBiometric_effect env w r :
  auth (db w) = Some r ->
  exists out w1,
    enableBiometric env w = (Ok out, w1) /\
    (biometricAvailable env = true <->
     isWebAuthnSupported env = true /\ platformAuthenticator env = Ok true) /\
    (biometricAvailable env = false ->
     out = failed BiometricNotAvailable /\ w1 = w) /\
    (success out = true <->
     biometricAvailable env = true /\
     exists rawId, credentials_create env = Ok rawId) /\
    (success out = true ->
     exists r1, auth (db w1) = Some r1 /\
                biometricEnabled r1 = Some true /\
                biometricCredentialId r1 <> None /\
                sameExceptBiometric r r1) /\
    (success out = false -> db w1 = db w /\ authState w1 = authState w) /\
    session w1 = session w /\
    decryptedApiKey w1 = decryptedApiKey w /\
    currentPassword w1 = currentPassword w /\
    derivations w1 = derivations w /\
    isAuthenticated (authState w1) = isAuthenticated (authState w).
Proof.
  intros Hr. rewrite enableBiometric_run, Hr.
  assert (HA : biometricAvailable env = true <->
               isWebAuthnSupported env = true /\
               platformAuthenticator env = Ok true).
  { unfold biometricAvailable.
    destruct (isWebAuthnSupported env); cbn [negb].
    - destruct (platformAuthenticator env) as [[|]|e]; split;
        try tauto; try discriminate; intros [_ H]; discriminate.
    - split; [discriminate | intros [H _]; discriminate]. }
  destruct (biometricAvailable env) eqn:Hb; cbn [negb].
  - destruct (credentials_create env) as [rawId|e] eqn:Hc; cbv zeta;
      eexists; eexists; (split; [reflexivity|]); (split; [exact HA|]);
      (split; [discriminate|]).
    + split; [split; [intros _; split; [reflexivity | eexists; reflexivity]
                     | reflexivity]|].
      split.
      { intros _. eexists. split; [reflexivity|].
        split; [reflexivity|]. split; [discriminate|].
        unfold sameExceptBiometric. repeat split; reflexivity. }
      split; [discriminate|]. repeat split; reflexivity.
    + split; [split; [discriminate | intros [_ [x Hx]]; discriminate]|].
      split; [discriminate|].
      split; [intros _; split; reflexivity|]. repeat split; reflexivity.
  - eexists; eexists. split; [reflexivity|]. split; [exact HA|].
    split; [intros _; split; reflexivity|].
    split; [split; [discriminate | intros [H _]; discriminate]|].
    split; [discriminate|].
    split; [intros _; split; reflexivity|]. repeat split; reflexivity.
Qed.

Lemma enableBiometric_effect_witness :
  auth (db Sample.world1) = Some Sample.record1 /\
  fst (enableBiometric (Sample.envAt 1600) Sample.world1) = Ok succeeded.
Proof.
  split; [reflexivity|].
  destruct (enableBiometric_effect (Sample.envAt 1600) Sample.world1
              Sample.record1 eq_refl)
    as (out & w1 & E & _ & _ & (_ & S) & _).
  rewrite E. cbn [fst].
  assert (H : success out = true)
    by (apply S; split; [reflexivity | eexists; reflexivity]).
  revert H. generalize E. vm_compute. intros [= <- _]. reflexivity.
Defined.

(** X26. [lock] empties the memory and ends the session whatever the
    state: no secret, no password and no session remain, the state is not
    authenticated, and the database is untouched. Locking again changes
    nothing more. A page load after it stays unauthenticated, and
    [saveApiKey] without a password is refused until a password is given
    again. *)
Theorem lock_ends_session wc env apiKey w :
  let w1 := snd (lock w) in
  fst (lock w) = Ok tt /\
  db w1 = db w /\
  decryptedApiKey w1 = None /\ currentPassword w1 = None /\
  session w1 = None /\
  isAuthenticated (authState w1) = false /\
  authData (authState w1) = authData (authState w) /\
  lock w1 = (Ok tt, w1) /\
  isAuthenticated (authState (snd (pageLoad env w1))) = false /\
  saveApiKey wc env apiKey None w1 = (Ok (failed PasswordRequired), w1).
Proof.
  cbv zeta. repeat apply conj; reflexivity.
Qed.

(** X27. The calorie target: [getDefaultCalorieTarget] after a setup gives
    the target the setup was given, or 2000 when none or 0 was given, and
    keeps giving it after any sequence of calls that has no further
    [setupAccount] and no [deleteAll]; the context has no function that
    changes it. *)
Theorem calorie_target_kept wc env password target steps w :
  forallb (fun step => negb (replacesCredentials step)) steps = true ->
  let w1 := snd (setupAccount wc env password target w) in
  fst (getDefaultCalorieTarget (performAll wc steps w1))
  = Ok (match target with
        | Some t => if t =? 0 then 2000 else t
        | None => 2000
        end).
Proof.
  intros Hs. cbv zeta.
  destruct (performAll_fields wc steps
              (snd (setupAccount wc env password target w)) Hs)
    as ((_ & _ & _ & H) & _).
  unfold getDefaultCalorieTarget, bind, getAuthData, ret. cbn [fst].
  rewrite H. rewrite setupAccount_run. cbv zeta. cbn.
  destruct target as [t|]; [|reflexivity].
  destruct (t =? 0); reflexivity.
Qed.

Lemma calorie_target_kept_witness :
  fst (getDefaultCalorieTarget
         (performAll Sample.crypto Scenario.afterSetup
            (snd (setupAccount Sample.crypto (Sample.envAt 1000)
                    (js "hunter22") (Some 1800) Sample.world0))))
  = Ok 1800.
Proof.
  exact (calorie_target_kept Sample.crypto (Sample.envAt 1000)
           (js "hunter22") (Some 1800) Scenario.afterSetup Sample.world0
           eq_refl).
Defined.
